(* ===== verification/_CoqProject ===== *)
-Q . S2P
Prelude.v
JsValue.v
Validators.v
Schema.v
Store.v
Clock.v
Erd.v
Handler.v
Views.v
Crypto.v
Tagihan.v
MasterBiaya.v
Pemasukan.v
Upload.v
Frame.v
Pengeluaran.v
Siswa.v
Kelas.v
Karyawan.v
OrangTua.v
UserCtl.v
Auth.v
Session.v
Routes.v
Api.v
Wf.v
Billing.v
Menu.v
Client.v
Report.v
Dashboard.v
Ortu.v
Kelola.v
