(* ===== verification/Prelude.v ===== *)
(** * Kape: a verification development of the school-administration system

    The repository is a school fee and bookkeeping application: an Express
    and Sequelize backend over MySQL ([src/backend]) and a React client
    ([src/frontend/src]).  This development models both, as a shallow
    embedding: each JavaScript function is a Rocq function of the same
    name, and the theorems state what the code does.

    ** How the parts interact, and where each is modelled

    - [JsValue] and [Validators]: the JavaScript values a request body holds
      and the built-ins the controllers apply to them (truthiness, [===],
      [String(x)], [parseFloat], [parseInt]); the regular expressions and
      enumerations the controllers check fields against.
    - [Schema], [Store], [Erd]: the nine Sequelize models of
      [src/backend/models] as records; the database as one finite map per
      table with its auto-increment counter; what MySQL does with a value
      written to each column type (DECIMAL(10,2) rounding and range,
      32-bit INTEGER, VARCHAR(n), DATEONLY); the [belongsTo] associations
      of [ErdModel.js] as foreign keys with their ON DELETE actions,
      through the class [Table].
    - [Handler], [Views], [Frame]: a controller [async (req, res) => ...]
      is a computation in the monad [M] (state: the store; outcomes:
      [Next], [Halt] for an early [return res.status(..)], [Throw] for an
      awaited call that rejects, which the handler's [catch] turns into a
      500).  [Views] is the JSON a row serialises to.  [Frame] holds the
      judgements used to prove handler properties by following the code:
      [frames] (what a run may change), [clean] (an early answer wrote
      nothing), [nexts] (Hoare triples on the [Next] path).
    - [Tagihan], [MasterBiaya], [Pemasukan], [Pengeluaran], [Siswa],
      [Kelas], [Karyawan], [OrangTua], [UserCtl]: one Module per file of
      [src/backend/controllers], one Definition per exported handler with
      the same name, and [<name>_handler] for its [try/catch].
    - [Upload]: [middleware/UploadMiddleware.js] (multer's filter, limit
      and file name; the files under [public/document] are part of the
      store).  [Crypto]: bcrypt and jsonwebtoken as the interfaces
      [Hasher] and [Jwt] with their laws.  [Auth]: [AuthController.js] and
      [middleware/UserMiddleware.js] against those interfaces.
    - [Routes]: every file of [src/backend/routes] as its list of lines,
      the mounts of [index.js], and [serve], which answers one request.
    - [Wf]: the laws [TableWf] each table's place in the store obeys,
      with which every write of the handler monad keeps [Store.store_wf].
    - [Menu]: the client's route table ([App.js], [Layout.jsx]) and the
      role filter of [Sidebar.jsx].
    - [Client]: the session of [components/AppContext.jsx] (stored token,
      axios's default header, user, loading, the [/me] request in flight)
      and [pages/FormLogin.jsx], with the browser's events as the step
      relation [cstep]; requests are answered by [Routes.serve].
    - [Report]: [pages/LaporanPage.jsx] (the two lists fetched, parsed by
      [parseAmount], sorted, totalled) and [pages/PrintLaporan.jsx].
    - [Dashboard]: [pages/DashboardAdmin.jsx] (its role gate, six requests,
      six-month window and monthly sums).  [Ortu]:
      [pages/DashboardOrtu.jsx], its three effects as the step relation
      [ostep], the backend as a function from requests to answers.
    - [Kelola]: [pages/KelolaSiswaPage.jsx] in [Module KelolaSiswa]: its
      state hooks as the record [page], one Definition per handler
      ([fetchData], [handleSubmit], [handleEdit], [handleDelete], ...), its
      events as the step relation [kstep].  The handlers are written
      against the class [Server] (what axios promises: an answer and a
      new state, or none); [serve_server] implements it with
      [Routes.serve], so the page's theorems compose with the backend's.

    ** What the theorems show

    - [Billing]: every successful bill update refines the billing
      lifecycle (unpaid to paid adds one income row, anything else none);
      every accepted payment inserts one income row with its amount
      rounded to hundredths (a positive amount below 0.005 becomes 0.00).
    - [Api]: over every line of every mounted router, a refused request
      (4xx, no upload) and every GET leave the store unchanged; the
      expenditure writes need a token, the bill routes do not.
    - [Session]: a token issued at login verifies back to the same account
      for 24 hours, then expires; failed logins are indistinguishable.
    - [Api]: every write on [/api/pengeluaran] whose token [verifyUser]
      refuses, for whatever reason, is answered with that 401 and writes
      nothing.
    - [Wf], [Store], [Clock]: the lemmas the handler proofs rest on (every
      route keeps each table's counter above its keys; DECIMAL and
      DATEONLY coercions; the calendar).
    - [Menu]: every menu link opens a routed page.
    - [Client]: the session invariant holds along every run of events (an
      empty stored token counts as none, as [if (!token)] reads it);
      signing in with the right password, end to end through the
      backend, leaves the client signed in as that account.
    - [Report]: the report lists exactly the backend's rows, with their
      stored amounts, newest first.
    - [Dashboard]: each bar of the chart sums exactly the rows of its
      month; the dashboard admits admin, guru and kepsek only.
      [Ortu]: every run has at most six events (termination); a parent
      whose children are not registered, and every student (whose user
      object from [/api/auth/me] has no [siswa_id]), wait forever
      (liveness failures of the code).
    - [Kelola]: after a delete the students page lists what the backend
      now serves; editing a stored student and saving it unchanged answers
      200 and changes nothing; after a successful save the spinner never
      goes away (a liveness failure of the code); a parent account lists
      its own children, or every student when it has no [ortu_id].

    ** Bounds and fuel

    Numbers are exact rationals with NaN and the infinities, except where
    rounding shows: the report's totals and the chart's bars are sums of
    IEEE doubles (Rocq's primitive floats; [Report.to_double] rounds a
    value once, exactly as [parseFloat] does for every DECIMAL(10,2)
    value).  Amounts are hundredths in [Z], below [10^10] as DECIMAL(10,2)
    requires.  INTEGER columns hold 32-bit signed values.
    The calendar facts of [Clock] for one 400-year era are checked by
    evaluation over its 146097 days.  Number printing uses fuel
    [dec_fuel n = log2 n + 1] digits, proved enough for every [n >= 0].
    The parents' dashboard needs no fuel: [DashboardOrtu.o_measure]
    (at most 6) decreases with every event.  The current month and time
    zone of the browser are inputs of the dashboards' model.

    ** Not modelled

    The HTTP transport (CORS, cookies, static files), [config/database.js],
    the timestamps Sequelize adds, JSON key order, and the client pages
    other than the session, login, report, menu, routes, dashboards and
    the students page: the remaining pages are forms and tables whose
    state only displays API answers.  Drawing (Recharts, html2canvas, jsPDF) and [Intl]
    formatting are not modelled: they render numbers, they do not
    compute them.  No error bound is proved for the double sums: the
    libraries at hand specify each primitive float operation but carry no
    theory of IEEE rounding; [Report.report_total_rounding] evaluates one
    case where the report and the backend's exact sum differ.  [routes/UserRoute.js], which
    [index.js] requires, is missing from the repository: the user
    handlers are modelled but no route reaches them.  The foreign keys are
    assumed to exist in the database: [index.js] has [db.sync] commented
    out. *)

From stdpp Require Import base gmap strings list.
From Stdlib Require Import ZArith QArith.

Declare Scope kape_scope.
Delimit Scope kape_scope with kape.

Create HintDb kape discriminated.
Create Rewrite HintDb kape_simpl.

(** ** Tactics shared by the component files *)

(** [invc H] inverts [H] and cleans up the equations it produced. *)
Ltac invc H := inversion H; subst; clear H.

(** [destr_if] splits the innermost boolean test of the goal, keeping the
    equation under the name [E]. *)
Ltac destr_if :=
  match goal with
  | |- context [if ?b then _ else _] =>
      lazymatch b with
      | context [if _ then _ else _] => fail
      | _ => let E := fresh "E" in destruct b eqn:E
      end
  end.

(** ** Auto-incremented tables

    Every table of the store is a [gmap Z row] together with the next value
    of its auto-increment counter.  [ids_below m n] says that every key of
    [m] lies in [1, n): the counter starts at 1 and never hands out an id
    that is in use. *)

Definition ids_below {A} (m : gmap Z A) (n : Z) : Prop :=
  ∀ k x, m !! k = Some x → (1 <= k < n)%Z.

Section ids_below.
Context {A : Type}.
Implicit Types (m : gmap Z A) (n : Z) (x : A).

Lemma ids_below_fresh m n : ids_below m n → m !! n = None.
Proof.
  intros H. destruct (m !! n) as [x|] eqn:E; [|done].
  specialize (H _ _ E). lia.
Qed.

Lemma ids_below_insert m n x :
  (1 <= n)%Z → ids_below m n → ids_below (<[n:=x]> m) (n + 1).
Proof.
  intros Hn H k y Hk. destruct (decide (k = n)) as [->|Hne]; [lia|].
  rewrite lookup_insert_ne in Hk by congruence. specialize (H _ _ Hk). lia.
Qed.

Lemma ids_below_update m n k x :
  ids_below m n → is_Some (m !! k) → ids_below (<[k:=x]> m) n.
Proof.
  intros H [y Hy] j z Hj. destruct (decide (j = k)) as [->|Hne].
  - by apply (H _ _ Hy).
  - rewrite lookup_insert_ne in Hj by congruence. by apply (H _ _ Hj).
Qed.

Lemma ids_below_delete m n k : ids_below m n → ids_below (delete k m) n.
Proof.
  intros H j z Hj. destruct (decide (j = k)) as [->|Hne].
  - by rewrite lookup_delete_eq in Hj.
  - rewrite lookup_delete_ne in Hj by congruence. by apply (H _ _ Hj).
Qed.

Lemma ids_below_empty n : ids_below (∅ : gmap Z A) n.
Proof. intros k x Hk. by rewrite lookup_empty in Hk. Qed.
End ids_below.

#[export] Hint Resolve ids_below_insert ids_below_update ids_below_delete
  ids_below_empty : kape.

(** ** Small facts on [Q] used by the amount checks *)
Lemma Qle_bool_false_lt (q r : Q) : Qle_bool q r = false → (r < q)%Q.
Proof.
  intros H. apply Qnot_le_lt. intros Hle. apply Qle_bool_iff in Hle. congruence.
Qed.

Lemma Qlt_Qle_bool_false (q r : Q) : (r < q)%Q → Qle_bool q r = false.
Proof.
  intros H. destruct (Qle_bool q r) eqn:E; [|done].
  apply Qle_bool_iff in E. exfalso. by apply (Qlt_not_le r q).
Qed.

(** An invariant of a step relation holds along every run. *)
Lemma rtc_invariant {A} (R : relation A) (P : A → Prop) x y :
  (∀ a b, R a b → P a → P b) → rtc R x y → P x → P y.
Proof. intros Hs. induction 1; eauto. Qed.
