(* ===== verification/JsValue.v ===== *)
(** * JavaScript values as the controllers see them

    The fields of [req.body] are JSON values decoded by [express.json()].
    This file models the scalar JavaScript values they can hold and the
    built-in operations the controllers apply to them: truthiness ([!x]),
    strict equality ([===], [!==]), [ToString] (used by [RegExp.test]) and
    [parseFloat].  Numbers are modelled exactly as rationals ([Fin q]) with
    the three non-finite values; IEEE rounding is not modelled (see the
    header of [Prelude]). *)

From stdpp Require Import base strings list.
From Stdlib Require Import ZArith QArith Ascii String.
From S2P Require Import Prelude.

Local Open Scope Z_scope.

Inductive jsnum : Type :=
| NaN
| PInf
| NInf
| Fin (q : Q).

Inductive jsval : Type :=
| JUndef
| JNull
| JBool (b : bool)
| JNum (n : jsnum)
| JStr (s : string).

(** Integers as JavaScript numbers. *)
Definition JInt (z : Z) : jsval := JNum (Fin (inject_Z z)).

(** ** Truthiness: [!v] is [negb (truthy v)] *)
Definition truthy (v : jsval) : bool :=
  match v with
  | JUndef | JNull => false
  | JBool b => b
  | JNum NaN => false
  | JNum (Fin q) => negb (Qeq_bool q 0)
  | JNum _ => true
  | JStr s => negb (String.eqb s "")
  end.

Definition is_undefined (v : jsval) : bool :=
  match v with JUndef => true | _ => false end.

(** ** Strict equality [===] *)
Definition num_strict_eq (a b : jsnum) : bool :=
  match a, b with
  | Fin p, Fin q => Qeq_bool p q
  | PInf, PInf | NInf, NInf => true
  | _, _ => false
  end.

Definition strict_eq (a b : jsval) : bool :=
  match a, b with
  | JUndef, JUndef | JNull, JNull => true
  | JBool x, JBool y => Bool.eqb x y
  | JNum x, JNum y => num_strict_eq x y
  | JStr x, JStr y => String.eqb x y
  | _, _ => false
  end.

(** [Array.prototype.includes] on a list of string literals. *)
Definition includes_str (l : list string) (v : jsval) : bool :=
  match v with
  | JStr s => existsb (String.eqb s) l
  | _ => false
  end.

(** ** Characters *)
Definition is_digit (c : ascii) : bool :=
  let n := nat_of_ascii c in (48 <=? n)%nat && (n <=? 57)%nat.

Definition digit_val (c : ascii) : Z := Z.of_nat (nat_of_ascii c) - 48.

Definition digit_char (d : Z) : ascii := ascii_of_nat (Z.to_nat (48 + d)).

(** StrWhiteSpaceChar restricted to one-byte code units. *)
Definition is_js_space (c : ascii) : bool :=
  let n := nat_of_ascii c in
  ((9 <=? n)%nat && (n <=? 13)%nat) || (n =? 32)%nat || (n =? 160)%nat.

Fixpoint trim_start (s : string) : string :=
  match s with
  | String c r => if is_js_space c then trim_start r else s
  | EmptyString => s
  end.

(** ** Decimal printing of integers *)

(** [pos_digits fuel n acc] prepends the decimal digits of [n >= 0] to
    [acc]; [dec_fuel n] digits always suffice (proved in [dec_fuel_enough]). *)
Fixpoint pos_digits (fuel : nat) (n : Z) (acc : string) : string :=
  match fuel with
  | O => acc
  | S f =>
      let acc' := String (digit_char (n mod 10)) acc in
      if n <? 10 then acc' else pos_digits f (n / 10) acc'
  end.

Definition dec_fuel (n : Z) : nat := S (Z.to_nat (Z.log2 n)).

Definition nat_digits (n : Z) : string := pos_digits (dec_fuel n) n "".

Definition z_to_dec (z : Z) : string :=
  if z <? 0 then String "-" (nat_digits (- z)) else nat_digits z.

(** ** Scanning decimal literals *)

(** [scan_digits s acc cnt] consumes the longest run of digits of [s],
    accumulating their value onto [acc] and their number onto [cnt]. *)
Fixpoint scan_digits (s : string) (acc : Z) (cnt : nat) : Z * nat * string :=
  match s with
  | String c r =>
      if is_digit c then scan_digits r (10 * acc + digit_val c) (S cnt)
      else (acc, cnt, s)
  | EmptyString => (acc, cnt, s)
  end.

(** [m * 10^e] as a rational. *)
Definition scale (m e : Z) : Q :=
  if 0 <=? e then inject_Z (m * 10 ^ e) else m # Z.to_pos (10 ^ (- e)).

Definition split_sign (s : string) : bool * string :=
  match s with
  | String "-" r => (true, r)
  | String "+" r => (false, r)
  | _ => (false, s)
  end.

(** The exponent part of a decimal literal, when one is present. *)
Definition scan_exponent (s : string) : Z :=
  match s with
  | String c r =>
      if (c =? "e")%char || (c =? "E")%char then
        let '(neg, r') := split_sign r in
        let '(ev, ec, _) := scan_digits r' 0 0 in
        match ec with O => 0 | _ => if neg then - ev else ev end
      else 0
  | EmptyString => 0
  end.

(** [parseFloat] on a string: the longest prefix of the trimmed input that
    is a StrDecimalLiteral, or [NaN] when there is none. *)
Definition parse_float_str (s : string) : jsnum :=
  let '(neg, s2) := split_sign (trim_start s) in
  if String.prefix "Infinity" s2 then (if neg then NInf else PInf) else
  let '(iv, ic, r1) := scan_digits s2 0 0 in
  let '(m, fc, r2) :=
    match r1 with
    | String "." r => scan_digits r iv 0
    | _ => (iv, 0%nat, r1)
    end in
  match (ic + fc)%nat with
  | O => NaN
  | _ =>
      let q := scale m (scan_exponent r2 - Z.of_nat fc) in
      Fin (if neg then Qopp q else q)
  end.

(** ** [ToString] and [parseFloat] on any value *)

(** Digits of [|q|]'s fractional part, truncated after [n] places. *)
Fixpoint frac_digits (n : nat) (r d : Z) : string :=
  match n with
  | O => EmptyString
  | S k => if r =? 0 then EmptyString
           else String (digit_char ((10 * r) / d)) (frac_digits k ((10 * r) mod d) d)
  end.

(** The digits after the first one, without trailing zeros. *)
Fixpoint drop_zeros (l : list ascii) : list ascii :=
  match l with
  | c :: r => if (c =? "0")%char then drop_zeros r else l
  | [] => []
  end.

Definition strip_trailing_zeros (s : string) : string :=
  string_of_list_ascii (rev (drop_zeros (rev (list_ascii_of_string s)))).

(** [Number::toString]: integers below [10^21] print exactly; larger
    integers use the exponent form; other finite values print their
    integer part, a point and their first 20 fractional digits (the
    regular expressions of the controllers only observe which characters
    occur). *)
Definition num_to_string (n : jsnum) : string :=
  match n with
  | NaN => "NaN"
  | PInf => "Infinity"
  | NInf => "-Infinity"
  | Fin q =>
      let q' := Qred q in
      let a := Z.abs (Qnum q') in
      let d := Zpos (Qden q') in
      let sign := if Z.ltb (Qnum q') 0 then "-" else "" in
      if Z.eqb d 1 then
        if Z.ltb a (10 ^ 21)%Z then z_to_dec (Qnum q')
        else
          let ds := nat_digits a in
          let tl := strip_trailing_zeros (substring 1 (String.length ds) ds) in
          sign ++ substring 0 1 ds ++ (if String.eqb tl "" then "" else "." ++ tl)
               ++ "e+" ++ z_to_dec (Z.of_nat (String.length ds) - 1)%Z
      else sign ++ nat_digits (a / d)%Z ++ "." ++ frac_digits 20 (a mod d)%Z d
  end%string.

Definition to_string (v : jsval) : string :=
  match v with
  | JUndef => "undefined"
  | JNull => "null"
  | JBool true => "true"
  | JBool false => "false"
  | JNum n => num_to_string n
  | JStr s => s
  end.

(** [parseFloat v]: a number is returned unchanged ([ToString] followed by
    parsing is the identity on numbers); other values are printed first. *)
Definition parseFloat (v : jsval) : jsnum :=
  match v with
  | JNum n => n
  | _ => parse_float_str (to_string v)
  end.

(** The test [isNaN(x) || x <= 0] of the controllers, negated: [x] is a
    number strictly greater than zero. *)
Definition num_positive (n : jsnum) : bool :=
  match n with
  | Fin q => negb (Qle_bool q 0)
  | PInf => true
  | NaN | NInf => false
  end.

(** [parseInt(v, 10)]: optional sign, then the longest run of digits. *)
Definition parseInt (v : jsval) : jsnum :=
  let '(neg, s) := split_sign (trim_start (to_string v)) in
  let '(n, cnt, _) := scan_digits s 0 0 in
  match cnt with
  | O => NaN
  | _ => Fin (inject_Z (if neg then - n else n))
  end.

(** [typeof v === 'number'] *)
Definition is_number (v : jsval) : bool :=
  match v with JNum _ => true | _ => false end.

(** [x <= 0] on a number ([NaN] compares false). *)
Definition num_le_zero (n : jsnum) : bool :=
  match n with
  | Fin q => Qle_bool q 0
  | NInf => true
  | PInf | NaN => false
  end.
