(* ===== verification/Validators.v ===== *)
(** * The shape checks shared by the controllers

    The regular expressions and the enumerations that the controllers test
    request fields against, as boolean functions on strings and on
    JavaScript values.  [RegExp.prototype.test] converts its argument with
    [ToString] first, so a number is tested on its decimal rendering. *)

From stdpp Require Import base strings list.
From Stdlib Require Import ZArith Ascii String.
From S2P Require Import Prelude JsValue.

Fixpoint all_digits (s : string) : bool :=
  match s with
  | String c r => is_digit c && all_digits r
  | EmptyString => true
  end.

(** [/^\d{4}-\d{2}-\d{2}$/] *)
Definition date_regex (s : string) : bool :=
  (String.length s =? 10)%nat
  && all_digits (substring 0 4 s)
  && String.eqb (substring 4 1 s) "-"
  && all_digits (substring 5 2 s)
  && String.eqb (substring 7 1 s) "-"
  && all_digits (substring 8 2 s).

(** [/^\d{4}\/\d{4}$/] *)
Definition tahun_ajaran_regex (s : string) : bool :=
  (String.length s =? 9)%nat
  && all_digits (substring 0 4 s)
  && String.eqb (substring 4 1 s) "/"
  && all_digits (substring 5 4 s).

(** [/^\+?[0-9]{10,15}$/]: an optional plus sign, then 10 to 15 digits. *)
Definition phone_regex (s : string) : bool :=
  let body := match s with String "+" r => r | _ => s end in
  all_digits body && (10 <=? String.length body)%nat && (String.length body <=? 15)%nat.

Definition regex_test (re : string → bool) (v : jsval) : bool := re (to_string v).

(** The enumerations the controllers check with [includes]. *)
Definition jk_values : list string := ["L"; "P"].
Definition status_values : list string := ["lunas"; "belum_lunas"].
Definition jenis_biaya_values : list string := ["pengeluaran"; "pemasukan"].
Definition role_values : list string := ["admin"; "kepsek"; "guru"; "orang_tua"; "siswa"].
