(* ===== verification/Schema.v ===== *)
(** * The relational schema of [models/*.js]

    One record per Sequelize model, with the model's columns; the primary
    key is not a field, it is the key of the table (see [Store]).  ENUM
    columns are inductive types with their string forms; DECIMAL(10,2)
    columns hold the amount in hundredths ([Z]); DATEONLY, STRING and TEXT
    columns hold strings; nullable columns are options.  The [createdAt] and
    [updatedAt] columns that [timestamps: true] adds are not modelled. *)

From stdpp Require Import base strings list.
From Stdlib Require Import ZArith String.
From S2P Require Import Prelude JsValue.

(** ** Enumerations *)

Inductive jk := L | P.
Inductive status := Lunas | BelumLunas.
Inductive jenis_biaya := JPengeluaran | JPemasukan.
Inductive role := Admin | Kepsek | Guru | OrangTua | Siswa.

#[export] Instance jk_eq_dec : EqDecision jk.
Proof. solve_decision. Defined.
#[export] Instance status_eq_dec : EqDecision status.
Proof. solve_decision. Defined.
#[export] Instance jenis_biaya_eq_dec : EqDecision jenis_biaya.
Proof. solve_decision. Defined.
#[export] Instance role_eq_dec : EqDecision role.
Proof. solve_decision. Defined.

Definition jk_str (x : jk) : string := match x with L => "L" | P => "P" end.

Definition status_str (x : status) : string :=
  match x with Lunas => "lunas" | BelumLunas => "belum_lunas" end.

Definition jenis_str (x : jenis_biaya) : string :=
  match x with JPengeluaran => "pengeluaran" | JPemasukan => "pemasukan" end.

Definition role_str (x : role) : string :=
  match x with
  | Admin => "admin" | Kepsek => "kepsek" | Guru => "guru"
  | OrangTua => "orang_tua" | Siswa => "siswa"
  end.

(** Reading a request value into an ENUM column: only the exact strings
    of the column's value list (Sequelize's [ENUM.validate]). *)
Definition enum_of {A} (str : A → string) (values : list A) (v : jsval) : option A :=
  match v with JStr s => List.find (λ x, String.eqb (str x) s) values | _ => None end.

Definition jk_of : jsval → option jk := enum_of jk_str [L; P].
Definition status_of : jsval → option status := enum_of status_str [Lunas; BelumLunas].
Definition jenis_of : jsval → option jenis_biaya := enum_of jenis_str [JPengeluaran; JPemasukan].
Definition role_of : jsval → option role := enum_of role_str [Admin; Kepsek; Guru; OrangTua; Siswa].

(** ** Rows *)

(** [tb_siswa] *)
Record siswa := mk_siswa {
  s_nama : string; s_tgl_lahir : string; s_jk : jk; s_alamat : string;
  s_kelas_id : Z; s_ortu_id : Z }.

(** [tb_ortu] *)
Record orang_tua := mk_orang_tua {
  o_nama_ayah : string; o_nama_ibu : string; o_no_hp : string }.

(** [tb_kelas] *)
Record kelas := mk_kelas {
  k_nama_kelas : string; k_kapasitas : Z; k_deskripsi : option string;
  k_tahun_ajaran : string; k_karyawan_id : Z }.

(** [tb_karyawan] *)
Record karyawan := mk_karyawan {
  kr_nama : string; kr_posisi : string; kr_tgl_lahir : string; kr_jk : jk;
  kr_alamat : string; kr_no_hp : string; kr_gaji : Z }.

(** [tb_user] *)
Record user := mk_user {
  u_username : string; u_password : string; u_role : role;
  u_siswa_id : option Z; u_ortu_id : option Z; u_karyawan_id : option Z }.

(** [tb_tagihan] *)
Record tagihan := mk_tagihan {
  t_siswa_id : Z; t_biaya_id : Z; t_jumlah : Z; t_tgl_jatuh_tempo : string;
  t_status : status }.

(** [tb_pemasukan] *)
Record pemasukan := mk_pemasukan {
  p_tagihan_id : Z; p_jumlah_bayar : Z; p_tgl_bayar : string;
  p_metode_pembayaran : string; p_keterangan : option string }.

(** [tb_pengeluaran]; [user_id] is the column that [belongsTo(User)] adds. *)
Record pengeluaran := mk_pengeluaran {
  g_deskripsi : string; g_jumlah : Z; g_tgl_pengeluaran : string;
  g_bukti_pengeluaran : option string; g_biaya_id : option Z; g_user_id : option Z }.

(** [tb_master_biaya] *)
Record master_biaya := mk_master_biaya {
  b_nama_biaya : string; b_jumlah : Z; b_jenis_biaya : jenis_biaya;
  b_deskripsi : option string; b_karyawan_id : option Z }.

(** ** The enumerations read back what they print *)
Lemma enum_of_some {A} (str : A → string) values v x :
  enum_of str values v = Some x → v = JStr (str x).
Proof.
  destruct v as [| | | |s]; try discriminate. cbn. intros Hf.
  apply find_some in Hf as [_ Hx]. by apply String.eqb_eq in Hx as ->.
Qed.

Lemma enum_of_str {A} (str : A → string) values x :
  x ∈ values → (∀ y, String.eqb (str y) (str x) = true → y = x) →
  enum_of str values (JStr (str x)) = Some x.
Proof.
  intros Hin Hinj. cbn. induction values as [|y l IH]; [by apply elem_of_nil in Hin|].
  cbn. destruct (String.eqb (str y) (str x)) eqn:E.
  - by rewrite (Hinj y E).
  - apply IH. apply elem_of_cons in Hin as [->|]; [by rewrite String.eqb_refl in E|done].
Qed.

