(* ===== verification/Store.v ===== *)
(** * The relational store behind the Sequelize models

    Each table is a finite map from primary keys to rows with the table's
    auto-increment counter; the store holds the nine tables of
    [models/ErdModel.js] and the set of evidence files under
    [public/document] that [UploadMiddleware.js] writes and
    [PengeluaranController.js] deletes.

    The column coercions say what MySQL does with the JavaScript value a
    controller passes to [create] or [update]: a DECIMAL(10,2) column rounds
    to hundredths (half away from zero) and rejects values of ten or more
    digits, which makes the statement throw; a DECIMAL column reads back as
    a string with two decimals; a primary-key lookup matches an integral
    number or a string of digits. *)

From stdpp Require Import base gmap strings list.
From Stdlib Require Import ZArith QArith Ascii String.
From S2P Require Import Prelude JsValue Validators Schema.

Local Open Scope Z_scope.

(** ** Tables *)

Record table (A : Type) := mk_table { rows : gmap Z A; next_id : Z }.
Arguments mk_table {A} _ _.
Arguments rows {A} _.
Arguments next_id {A} _.

Definition empty_table {A} : table A := mk_table ∅ 1.

Definition tbl_find {A} (k : Z) (t : table A) : option A := rows t !! k.

(** [Model.create]: the row gets the counter's value as its key. *)
Definition tbl_insert {A} (x : A) (t : table A) : Z * table A :=
  (next_id t, mk_table (<[next_id t := x]> (rows t)) (next_id t + 1)).

(** [instance.update]: the row is rewritten in place. *)
Definition tbl_put {A} (k : Z) (x : A) (t : table A) : table A :=
  mk_table (<[k := x]> (rows t)) (next_id t).

(** [instance.destroy] *)
Definition tbl_delete {A} (k : Z) (t : table A) : table A :=
  mk_table (delete k (rows t)) (next_id t).

(** The counter is positive and above every key in use; keys are positive. *)
Definition tbl_wf {A} (t : table A) : Prop := (1 <= next_id t) ∧ ids_below (rows t) (next_id t).

Section table_lemmas.
Context {A : Type}.
Implicit Types (t : table A) (x : A).

Lemma tbl_insert_fresh t : tbl_wf t → tbl_find (next_id t) t = None.
Proof. intros [_ H]. by apply ids_below_fresh. Qed.

Lemma tbl_insert_find t x :
  tbl_find (fst (tbl_insert x t)) (snd (tbl_insert x t)) = Some x.
Proof. apply lookup_insert_eq. Qed.

Lemma tbl_insert_find_ne t x k :
  k ≠ next_id t → tbl_find k (snd (tbl_insert x t)) = tbl_find k t.
Proof. intros. by apply lookup_insert_ne. Qed.

Lemma tbl_put_find t k x : tbl_find k (tbl_put k x t) = Some x.
Proof. apply lookup_insert_eq. Qed.

Lemma tbl_put_find_ne t k j x : k ≠ j → tbl_find j (tbl_put k x t) = tbl_find j t.
Proof. intros. by apply lookup_insert_ne. Qed.

Lemma tbl_insert_wf t x : tbl_wf t → tbl_wf (snd (tbl_insert x t)).
Proof. intros [H1 H2]. split; [simpl; lia | by apply ids_below_insert]. Qed.

Lemma tbl_put_wf t k x : tbl_wf t → is_Some (tbl_find k t) → tbl_wf (tbl_put k x t).
Proof. intros [H1 H2] Hk. split; [done | by apply ids_below_update]. Qed.

Lemma tbl_delete_wf t k : tbl_wf t → tbl_wf (tbl_delete k t).
Proof. intros [H1 H2]. split; [done | by apply ids_below_delete]. Qed.

Lemma empty_table_wf : tbl_wf (@empty_table A).
Proof. split; [simpl; lia | apply ids_below_empty]. Qed.
End table_lemmas.

#[export] Hint Resolve tbl_insert_wf tbl_put_wf tbl_delete_wf empty_table_wf : kape.

(** ** The store *)

Record store := mk_store {
  st_siswa : table siswa;
  st_ortu : table orang_tua;
  st_kelas : table kelas;
  st_karyawan : table karyawan;
  st_user : table user;
  st_tagihan : table tagihan;
  st_pemasukan : table pemasukan;
  st_pengeluaran : table pengeluaran;
  st_master_biaya : table master_biaya;
  st_files : gset string }.

Definition empty_store : store :=
  mk_store empty_table empty_table empty_table empty_table empty_table
           empty_table empty_table empty_table empty_table ∅.

Definition set_siswa f s := mk_store (f (st_siswa s)) (st_ortu s) (st_kelas s)
  (st_karyawan s) (st_user s) (st_tagihan s) (st_pemasukan s) (st_pengeluaran s)
  (st_master_biaya s) (st_files s).
Definition set_ortu f s := mk_store (st_siswa s) (f (st_ortu s)) (st_kelas s)
  (st_karyawan s) (st_user s) (st_tagihan s) (st_pemasukan s) (st_pengeluaran s)
  (st_master_biaya s) (st_files s).
Definition set_kelas f s := mk_store (st_siswa s) (st_ortu s) (f (st_kelas s))
  (st_karyawan s) (st_user s) (st_tagihan s) (st_pemasukan s) (st_pengeluaran s)
  (st_master_biaya s) (st_files s).
Definition set_karyawan f s := mk_store (st_siswa s) (st_ortu s) (st_kelas s)
  (f (st_karyawan s)) (st_user s) (st_tagihan s) (st_pemasukan s) (st_pengeluaran s)
  (st_master_biaya s) (st_files s).
Definition set_user f s := mk_store (st_siswa s) (st_ortu s) (st_kelas s)
  (st_karyawan s) (f (st_user s)) (st_tagihan s) (st_pemasukan s) (st_pengeluaran s)
  (st_master_biaya s) (st_files s).
Definition set_tagihan f s := mk_store (st_siswa s) (st_ortu s) (st_kelas s)
  (st_karyawan s) (st_user s) (f (st_tagihan s)) (st_pemasukan s) (st_pengeluaran s)
  (st_master_biaya s) (st_files s).
Definition set_pemasukan f s := mk_store (st_siswa s) (st_ortu s) (st_kelas s)
  (st_karyawan s) (st_user s) (st_tagihan s) (f (st_pemasukan s)) (st_pengeluaran s)
  (st_master_biaya s) (st_files s).
Definition set_pengeluaran f s := mk_store (st_siswa s) (st_ortu s) (st_kelas s)
  (st_karyawan s) (st_user s) (st_tagihan s) (st_pemasukan s) (f (st_pengeluaran s))
  (st_master_biaya s) (st_files s).
Definition set_master_biaya f s := mk_store (st_siswa s) (st_ortu s) (st_kelas s)
  (st_karyawan s) (st_user s) (st_tagihan s) (st_pemasukan s) (st_pengeluaran s)
  (f (st_master_biaya s)) (st_files s).
Definition set_files f s := mk_store (st_siswa s) (st_ortu s) (st_kelas s)
  (st_karyawan s) (st_user s) (st_tagihan s) (st_pemasukan s) (st_pengeluaran s)
  (st_master_biaya s) (f (st_files s)).

(** Every table's counter is above its keys. *)
Definition store_wf (s : store) : Prop :=
  tbl_wf (st_siswa s) ∧ tbl_wf (st_ortu s) ∧ tbl_wf (st_kelas s) ∧
  tbl_wf (st_karyawan s) ∧ tbl_wf (st_user s) ∧ tbl_wf (st_tagihan s) ∧
  tbl_wf (st_pemasukan s) ∧ tbl_wf (st_pengeluaran s) ∧ tbl_wf (st_master_biaya s).

(** ** Column coercions *)

(** The key a [findByPk] argument designates, if any. *)
Definition pk_of (v : jsval) : option Z :=
  match v with
  | JNum (Fin q) =>
      let q' := Qred q in if Zpos (Qden q') =? 1 then Some (Qnum q') else None
  | JStr s =>
      if all_digits s && negb (String.eqb s "") then Some (fst (fst (scan_digits s 0 0)))
      else None
  | _ => None
  end.

(** Hundredths of [q], rounded half away from zero. *)
Definition round_cents (q : Q) : Z :=
  let n := Qnum q * 100 in
  let d := Zpos (Qden q) in
  if n <? 0 then - ((2 * - n + d) / (2 * d)) else (2 * n + d) / (2 * d).

(** The largest magnitude DECIMAL(10,2) holds, in hundredths. *)
Definition decimal_limit : Z := 10 ^ 10.

(** Writing a value into a DECIMAL(10,2) column: [None] makes the
    statement throw. *)
Definition decimal_col (v : jsval) : option Z :=
  match parseFloat v with
  | Fin q => let c := round_cents q in if Z.abs c <? decimal_limit then Some c else None
  | _ => None
  end.

Definition two_digits (r : Z) : string :=
  String (digit_char (r / 10)) (String (digit_char (r mod 10)) EmptyString).

Definition unsigned_decimal (a : Z) : string :=
  (nat_digits (a / 100) ++ "." ++ two_digits (a mod 100))%string.

(** A DECIMAL(10,2) value as the MySQL driver returns it: a string. *)
Definition decimal_string (c : Z) : string :=
  ((if Z.ltb c 0 then "-" else "") ++ unsigned_decimal (Z.abs c))%string.

Definition decimal_val (c : Z) : jsval := JStr (decimal_string c).

(** Writing a value into a STRING or TEXT column. *)
Definition text_col (v : jsval) : option string :=
  match v with
  | JStr s => Some s
  | JNum n => Some (num_to_string n)
  | JBool b => Some (if b then "1" else "0")%string
  | JNull | JUndef => None
  end.

(** Writing into a [STRING(n)] (VARCHAR) column: in strict mode a longer
    value makes the statement fail. *)
Definition varchar_col (n : nat) (v : jsval) : option string :=
  s ← text_col v; if (String.length s <=? n)%nat then Some s else None.

(** A nullable [STRING(n)] column. *)
Definition opt_varchar_col (n : nat) (v : jsval) : option (option string) :=
  match v with JNull | JUndef => Some None | _ => Some <$> varchar_col n v end.

(** ** DATEONLY columns *)

Definition leap_year (y : Z) : bool :=
  (Z.eqb (y mod 4) 0 && negb (Z.eqb (y mod 100) 0)) || Z.eqb (y mod 400) 0.

Definition days_in_month (y m : Z) : Z :=
  if Z.eqb m 2 then (if leap_year y then 29 else 28)
  else if Z.eqb m 4 || Z.eqb m 6 || Z.eqb m 9 || Z.eqb m 11 then 30 else 31.

(** The value of a run of digits. *)
Definition digits_val (s : string) : Z := fst (fst (scan_digits s 0 0)).

(** A [YYYY-MM-DD] string that names a day of the calendar. *)
Definition valid_date (s : string) : bool :=
  date_regex s &&
  (let y := digits_val (substring 0 4 s) in
   let m := digits_val (substring 5 2 s) in
   let d := digits_val (substring 8 2 s) in
   (1 <=? m) && (m <=? 12) && (1 <=? d) && (d <=? days_in_month y m)).

(** Writing into a DATEONLY column: a string that is not a calendar date
    makes the statement fail. *)
Definition date_col (v : jsval) : option string :=
  s ← text_col v; if valid_date s then Some s else None.

(** Writing into a nullable TEXT/STRING column: [null] and [undefined]
    store NULL. *)
Definition opt_text_col (v : jsval) : option (option string) :=
  match v with
  | JNull | JUndef => Some None
  | _ => Some <$> text_col v
  end.

(** Rounding to an integer, half away from zero (MySQL's rule). *)
Definition round_int (q : Q) : Z :=
  let n := Qnum q in
  let d := Zpos (Qden q) in
  if n <? 0 then - ((2 * - n + d) / (2 * d)) else (2 * n + d) / (2 * d).

(** Writing into an INTEGER column: a signed 32-bit value. *)
Definition int_min : Z := - 2 ^ 31.
Definition int_max : Z := 2 ^ 31 - 1.

Definition int_col (v : jsval) : option Z :=
  let z := match v with
           | JNum (Fin q) => Some (round_int q)
           | JStr s => if all_digits s && negb (String.eqb s "")
                       then Some (fst (fst (scan_digits s 0 0))) else None
           | _ => None
           end in
  match z with
  | Some z => if (int_min <=? z) && (z <=? int_max) then Some z else None
  | None => None
  end.

(** A nullable INTEGER column. *)
Definition opt_int_col (v : jsval) : option (option Z) :=
  match v with
  | JNull | JUndef => Some None
  | _ => Some <$> int_col v
  end.

(** [Model.findAll()] without [order]: the rows in primary-key order. *)
Definition tbl_list {A} (t : table A) : list (Z * A) :=
  omap (λ k, (λ x, (k, x)) <$> rows t !! k) (seqZ 1 (next_id t - 1)).

(** ** Reading back a DECIMAL column and writing it again changes nothing *)

(** stdpp makes [String.append] opaque to [simpl]; these two equations
    are what the proofs unfold it with. *)
Lemma string_app_cons x (a b : string) : (String x a ++ b = String x (a ++ b))%string.
Proof. reflexivity. Qed.

Lemma string_app_nil (b : string) : ("" ++ b = b)%string.
Proof. reflexivity. Qed.

Lemma string_app_assoc (a b c : string) : ((a ++ b) ++ c = a ++ (b ++ c))%string.
Proof.
  induction a as [|x a IH]; [done|]. by rewrite !string_app_cons, IH.
Qed.

Lemma pos_digits_app f n s : pos_digits f n s = (pos_digits f n "" ++ s)%string.
Proof.
  revert n s. induction f as [|f IH]; intros n s; simpl; [done|].
  destruct (n <? 10); [done|].
  rewrite (IH _ (String _ s)), (IH _ (String _ "")), string_app_assoc. done.
Qed.

Lemma digit_char_spec d :
  0 <= d < 10 → is_digit (digit_char d) = true ∧ digit_val (digit_char d) = d.
Proof.
  intros Hd. assert (d = 0 ∨ d = 1 ∨ d = 2 ∨ d = 3 ∨ d = 4 ∨ d = 5 ∨ d = 6 ∨
    d = 7 ∨ d = 8 ∨ d = 9) as Hc by lia.
  repeat destruct Hc as [->|Hc]; [..|subst]; split; reflexivity.
Qed.

Lemma dec_fuel_enough n : 0 <= n → n < 10 ^ Z.of_nat (dec_fuel n).
Proof.
  intros Hn. unfold dec_fuel. rewrite Nat2Z.inj_succ, Z2Nat.id by apply Z.log2_nonneg.
  destruct (Z.eq_dec n 0) as [->|Hne]; [reflexivity|].
  pose proof (Z.log2_spec n ltac:(lia)) as [_ H2].
  eapply Z.lt_le_trans; [exact H2|].
  apply Z.pow_le_mono_l. split; [lia|]. lia.
Qed.

(** Scanning printed digits reads back the printed number. *)
Lemma scan_pos_digits f n r acc cnt :
  0 <= n < 10 ^ Z.of_nat f →
  ∃ k, scan_digits (pos_digits f n "" ++ r) acc cnt
       = scan_digits r (acc * 10 ^ Z.of_nat k + n) (cnt + k).
Proof.
  revert n r acc cnt. induction f as [|f IH]; intros n r acc cnt Hn.
  { simpl in Hn. exists O. assert (n = 0) as -> by lia. simpl. f_equal; lia. }
  destruct (digit_char_spec (n mod 10)) as [Hd Hv]; [apply Z.mod_pos_bound; lia|].
  cbn [pos_digits]. destruct (Z.ltb_spec n 10).
  - exists 1%nat. rewrite string_app_cons. cbn [scan_digits]. rewrite Hd, Hv, Z.mod_small by lia.
    f_equal; lia.
  - rewrite pos_digits_app, string_app_assoc, string_app_cons.
    destruct (IH (n / 10) (String (digit_char (n mod 10)) r) acc cnt) as [k Hk].
    { split; [apply Z.div_pos; lia|]. apply Z.div_lt_upper_bound; [lia|].
      rewrite Nat2Z.inj_succ, Z.pow_succ_r in Hn by lia. lia. }
    exists (S k). rewrite string_app_nil, Hk. cbn [scan_digits]. rewrite Hd, Hv. f_equal; [|lia].
    rewrite Nat2Z.inj_succ, Z.pow_succ_r by lia.
    pose proof (Z.div_mod n 10 ltac:(lia)). lia.
Qed.

Lemma pos_digits_S f n acc :
  pos_digits (S f) n acc =
  if n <? 10 then String (digit_char (n mod 10)) acc
  else pos_digits f (n / 10) (String (digit_char (n mod 10)) acc).
Proof. reflexivity. Qed.

(** Printed digits start with a digit. *)
Lemma pos_digits_head f n :
  ∃ d rest, 0 <= d < 10 ∧ pos_digits (S f) n "" = String (digit_char d) rest.
Proof.
  revert n. induction f as [|f IH]; intros n; rewrite pos_digits_S.
  - exists (n mod 10), "". split; [apply Z.mod_pos_bound; lia|]. by destruct (n <? 10).
  - destruct (n <? 10).
    { exists (n mod 10), "". split; [apply Z.mod_pos_bound; lia | done]. }
    rewrite pos_digits_app. destruct (IH (n / 10)) as (d & rest & Hd & ->).
    rewrite string_app_cons. by eexists d, _.
Qed.

(** What the parser sees first in a printed number: a digit. *)
Lemma digit_head_facts d x :
  0 <= d < 10 →
  trim_start (String (digit_char d) x) = String (digit_char d) x ∧
  split_sign (String (digit_char d) x) = (false, String (digit_char d) x) ∧
  String.prefix "Infinity" (String (digit_char d) x) = false ∧
  is_digit (digit_char d) = true.
Proof.
  intros Hd. assert (d = 0 ∨ d = 1 ∨ d = 2 ∨ d = 3 ∨ d = 4 ∨ d = 5 ∨ d = 6 ∨
    d = 7 ∨ d = 8 ∨ d = 9) as Hc by lia.
  repeat destruct Hc as [->|Hc]; [..|subst]; repeat split; reflexivity.
Qed.

Lemma scan_two_digits r acc cnt :
  0 <= r < 100 →
  scan_digits (two_digits r) acc cnt = (acc * 100 + r, (cnt + 2)%nat, EmptyString).
Proof.
  intros Hr. unfold two_digits.
  assert (0 <= r / 10 < 10) as B1.
  { split; [apply Z.div_pos; lia | apply Z.div_lt_upper_bound; lia]. }
  assert (0 <= r mod 10 < 10) as B2 by (apply Z.mod_pos_bound; lia).
  destruct (digit_char_spec _ B1) as [H1 V1], (digit_char_spec _ B2) as [H2 V2].
  cbn [scan_digits]. rewrite H1, V1, H2, V2. cbn [scan_digits].
  pose proof (Z.div_mod r 10 ltac:(lia)).
  assert (10 * (10 * acc + r / 10) + r mod 10 = acc * 100 + r) as -> by lia.
  do 2 f_equal. lia.
Qed.

(** The digits, the point and the two decimals parse back to [|c|/100]. *)
Lemma parse_unsigned_decimal c :
  0 <= c →
  ∃ k, scan_digits (unsigned_decimal c) 0 0 = (c / 100, k, ("." ++ two_digits (c mod 100))%string) ∧
       String.prefix "Infinity" (unsigned_decimal c) = false ∧
       trim_start (unsigned_decimal c) = unsigned_decimal c ∧
       split_sign (unsigned_decimal c) = (false, unsigned_decimal c).
Proof.
  intros Hc. unfold unsigned_decimal, nat_digits.
  destruct (scan_pos_digits (dec_fuel (c / 100)) (c / 100) ("." ++ two_digits (c mod 100))
              0 0) as [k Hk].
  { split; [apply Z.div_pos; lia|]. apply dec_fuel_enough, Z.div_pos; lia. }
  exists k. rewrite Hk. unfold dec_fuel.
  destruct (pos_digits_head (Z.to_nat (Z.log2 (c / 100))) (c / 100)) as (d & rest & Hd & ->).
  rewrite (string_app_cons (digit_char d)).
  destruct (digit_head_facts d (rest ++ "." ++ two_digits (c mod 100)) Hd)
    as (T & S & I & _). rewrite T, S, I. split; [|done].
  cbn [scan_digits]. reflexivity.
Qed.

(** What [parseFloat] reads from a DECIMAL(10,2) string: the amount in
    hundredths, as a rational over 100. *)
Lemma parse_decimal_string c :
  parse_float_str (decimal_string c) = Fin (if Z.ltb c 0 then Qopp (Z.abs c # 100) else Z.abs c # 100).
Proof.
  unfold decimal_string.
  destruct (parse_unsigned_decimal (Z.abs c) ltac:(lia)) as (k & Hs & Hi & Ht & Hsg).
  set (x := unsigned_decimal (Z.abs c)) in *. set (neg := Z.ltb c 0). unfold parse_float_str.
  replace (split_sign (trim_start (String.append (if neg then String "-"%char EmptyString else EmptyString) x))) with (neg, x)
    by (destruct neg; [reflexivity | by rewrite string_app_nil, Ht, Hsg]).
  rewrite Hi, Hs. cbn [String.append].
  rewrite string_app_cons, string_app_nil. cbv beta iota.
  rewrite scan_two_digits by (apply Z.mod_pos_bound; lia).
  pose proof (Z.div_mod (Z.abs c) 100 ltac:(lia)).
  replace (Z.abs c / 100 * 100 + Z.abs c mod 100) with (Z.abs c) by lia.
  replace (k + (0 + 2))%nat with (S (k + 1)) by lia. reflexivity.
Qed.

Lemma parse_decimal_string_val c : ∃ q, parse_float_str (decimal_string c) = Fin q ∧ (q == c # 100)%Q.
Proof.
  rewrite parse_decimal_string. eexists. split; [reflexivity|].
  unfold Qeq. destruct (Z.ltb_spec c 0); cbn; lia.
Qed.

(** ** [LIKE] under MySQL's default case-insensitive collation

    [%] matches any run of characters, [_] any one character, a backslash
    escapes the next character; letters compare without case. *)

Definition lower (c : ascii) : ascii :=
  let n := nat_of_ascii c in
  if (65 <=? n)%nat && (n <=? 90)%nat then ascii_of_nat (n + 32) else c.

Definition ci_eq (c d : ascii) : bool := Ascii.eqb (lower c) (lower d).

Fixpoint like (p : list ascii) {struct p} : list ascii → bool :=
  match p with
  | [] => λ s, match s with [] => true | _ => false end
  | c :: p' =>
      if Ascii.eqb c "%" then
        fix go (s : list ascii) : bool :=
          like p' s || match s with [] => false | _ :: s' => go s' end
      else if Ascii.eqb c "_" then
        λ s, match s with [] => false | _ :: s' => like p' s' end
      else if Ascii.eqb c "\" then
        match p' with
        | e :: p'' => λ s, match s with [] => false | d :: s' => ci_eq e d && like p'' s' end
        | [] => λ s, match s with [] => false | d :: s' => ci_eq c d && like p' s' end
        end
      else λ s, match s with [] => false | d :: s' => ci_eq c d && like p' s' end
  end.

Definition like_str (pattern s : string) : bool :=
  like (list_ascii_of_string pattern) (list_ascii_of_string s).

(** ** Listing a table *)
Lemma tbl_list_find {A} (t : table A) k x : (k, x) ∈ tbl_list t → tbl_find k t = Some x.
Proof.
  unfold tbl_list. rewrite list_elem_of_omap. intros (j & _ & E).
  destruct (rows t !! j) eqn:Ej; cbn in E; [|done]. by invc E.
Qed.

Lemma tbl_list_In {A} (t : table A) k x : In (k, x) (tbl_list t) → tbl_find k t = Some x.
Proof. intros Hin. by apply tbl_list_find, list_elem_of_In. Qed.

