(* ===== verification/Clock.v ===== *)
(** * The clock: [new Date().toISOString().split('T')[0]]

    [Date.now()] is a count of milliseconds since 1970-01-01 UTC.  The
    billing lifecycle of [TagihanController.updateTagihan] dates the income
    it writes with the UTC calendar day of that instant, as
    [toISOString] prints it.  The conversion of a day count into a
    proleptic Gregorian date is the usual 400-year-era computation. *)

From stdpp Require Import base strings list.
From Stdlib Require Import ZArith QArith Ascii String.
From S2P Require Import Prelude JsValue Validators Store.

Local Open Scope Z_scope.

Definition ms_per_day : Z := 86400000.

(** Within one 400-year era: the year of the era and the day of the
    (March-based) year. *)
Definition era_split (doe : Z) : Z * Z :=
  let yoe := (doe - doe / 1460 + doe / 36524 - doe / 146096) / 365 in
  (yoe, doe - (365 * yoe + yoe / 4 - yoe / 100)).

(** Month and day of a March-based day of year, and whether it falls in
    January or February of the next civil year. *)
Definition month_day (doy : Z) : Z * Z * bool :=
  let mp := (5 * doy + 2) / 153 in
  let d := doy - (153 * mp + 2) / 5 + 1 in
  let m := if mp <? 10 then mp + 3 else mp - 9 in
  (m, d, m <=? 2).

(** Days since 1970-01-01 to year, month, day. *)
Definition civil_from_days (days : Z) : Z * Z * Z :=
  let z := days + 719468 in
  let era := z / 146097 in
  let '(yoe, doy) := era_split (z - era * 146097) in
  let '(m, d, next) := month_day doy in
  (yoe + era * 400 + (if next then 1 else 0), m, d).

(** [YYYY-MM-DD] for years 0 to 9999. *)
Definition iso_date (ms : Z) : string :=
  let '(y, m, d) := civil_from_days (ms / ms_per_day) in
  (two_digits (y / 100) ++ two_digits (y mod 100) ++ "-" ++ two_digits m ++ "-" ++ two_digits d)%string.

(** Days since 1970-01-01 of a day of the proleptic Gregorian calendar,
    the inverse computation of [civil_from_days]. *)
Definition days_from_civil (y m d : Z) : Z :=
  let y' := if m <=? 2 then y - 1 else y in
  let era := y' / 400 in
  let yoe := y' - era * 400 in
  let mp := if 2 <? m then m - 3 else m + 9 in
  let doy := (153 * mp + 2) / 5 + d - 1 in
  let doe := yoe * 365 + yoe / 4 - yoe / 100 + doy in
  era * 146097 + doe - 719468.

(** [new Date(s)] of a string (ECMAScript's [Date.parse]): the date-only
    form [YYYY-MM-DD] is midnight UTC of that day, [MakeDay] rolling a day
    past the month's end over into the next month; the format admits
    months 01-12 and days 01-31.  Every other string is [NaN] here:
    ECMAScript leaves other formats to the engine, and the backend sends
    dates only in this form. *)
Definition date_parse (s : string) : jsnum :=
  if date_regex s then
    let y := digits_val (substring 0 4 s) in
    let m := digits_val (substring 5 2 s) in
    let d := digits_val (substring 8 2 s) in
    if (1 <=? m) && (m <=? 12) && (1 <=? d) && (d <=? 31)
    then Fin (inject_Z ((days_from_civil y m 1 + (d - 1)) * ms_per_day))
    else NaN
  else NaN.

(** ** The calendar stays in range *)

Definition era_ok (doe : Z) : bool :=
  let '(yoe, doy) := era_split doe in
  let '(m, d, next) := month_day doy in
  (0 <=? yoe) && (yoe <=? 399) && (1 <=? m) && (m <=? 12) && (1 <=? d)
  && (d <=? days_in_month (yoe + if next then 1 else 0) m).

(** [f] holds on [n] consecutive integers from [a]. *)
Fixpoint check_range (f : Z → bool) (n : nat) (a : Z) : bool :=
  match n with O => true | S n' => f a && check_range f n' (a + 1) end.

Lemma check_range_spec f n a x :
  check_range f n a = true → a <= x < a + Z.of_nat n → f x = true.
Proof.
  revert a. induction n as [|n IH]; intros a Hc Hx; [lia|].
  cbn in Hc. apply andb_true_iff in Hc as [Ha Hc].
  destruct (Z.eq_dec x a) as [->|]; [done|]. apply (IH (a + 1)); [done | lia].
Qed.

Lemma check_range_Z f n a x :
  check_range f (Z.to_nat n) a = true → a <= x < a + n → f x = true.
Proof. intros Hc Hx. apply (check_range_spec f _ a x Hc). lia. Qed.

(** Checked over every day of the 146097-day era by evaluation. *)
Lemma era_ok_all : check_range era_ok (Z.to_nat 146097) 0 = true.
Proof. vm_compute. reflexivity. Qed.

Lemma era_split_bounds doe :
  0 <= doe < 146097 →
  let '(yoe, doy) := era_split doe in
  let '(m, d, next) := month_day doy in
  0 <= yoe <= 399 ∧ 1 <= m <= 12 ∧ 1 <= d <= days_in_month (yoe + if next then 1 else 0) m.
Proof.
  intros Hd. pose proof (check_range_Z era_ok 146097 0 doe era_ok_all ltac:(lia)) as Hall.
  unfold era_ok in Hall. destruct (era_split doe) as [yoe doy], (month_day doy) as [[m d] nx].
  rewrite !andb_true_iff, !Z.leb_le in Hall. lia.
Qed.

(** A two-digit field: two digits that read back as [r]. *)
Lemma two_digits_chars r :
  0 <= r < 100 → ∃ a b, two_digits r = String a (String b EmptyString) ∧
    is_digit a = true ∧ is_digit b = true ∧ 10 * digit_val a + digit_val b = r.
Proof.
  intros Hr. exists (digit_char (r / 10)), (digit_char (r mod 10)). split; [done|].
  destruct (digit_char_spec (r / 10)) as [Ha Va];
    [split; [apply Z.div_pos | apply Z.div_lt_upper_bound]; lia|].
  destruct (digit_char_spec (r mod 10)) as [Hb Vb]; [apply Z.mod_pos_bound; lia|].
  rewrite Va, Vb. do 2 (split; [done|]). pose proof (Z.div_mod r 10 ltac:(lia)). lia.
Qed.

Lemma valid_date_chars a b c d e f g h :
  is_digit a = true → is_digit b = true → is_digit c = true → is_digit d = true →
  is_digit e = true → is_digit f = true → is_digit g = true → is_digit h = true →
  1 <= 10 * digit_val e + digit_val f <= 12 → 1 <= 10 * digit_val g + digit_val h →
  10 * digit_val g + digit_val h <=
    days_in_month (1000 * digit_val a + 100 * digit_val b + 10 * digit_val c + digit_val d)
                  (10 * digit_val e + digit_val f) →
  valid_date (String a (String b (String c (String d (String "-" (String e (String f
    (String "-" (String g (String h EmptyString)))))))))) = true.
Proof.
  intros Ha Hb Hc Hd He Hf Hg Hh Hm Hd1 Hd2. unfold valid_date, date_regex, digits_val. cbn.
  rewrite Ha, Hb, Hc, Hd, He, Hf, Hg, Hh. cbn.
  replace (10 * (10 * (10 * (10 * 0 + digit_val a) + digit_val b) + digit_val c) + digit_val d)
    with (1000 * digit_val a + 100 * digit_val b + 10 * digit_val c + digit_val d) by ring.
  replace (10 * (10 * 0 + digit_val e) + digit_val f) with (10 * digit_val e + digit_val f) by ring.
  replace (10 * (10 * 0 + digit_val g) + digit_val h) with (10 * digit_val g + digit_val h) by ring.
  rewrite !andb_true_iff, !Z.leb_le. lia.
Qed.

Lemma leap_year_400 y e : leap_year (y + 400 * e) = leap_year y.
Proof.
  unfold leap_year.
  replace ((y + 400 * e) mod 4) with (y mod 4)
    by (replace (y + 400 * e) with (y + (100 * e) * 4) by ring; by rewrite Z.mod_add).
  replace ((y + 400 * e) mod 100) with (y mod 100)
    by (replace (y + 400 * e) with (y + (4 * e) * 100) by ring; by rewrite Z.mod_add).
  replace ((y + 400 * e) mod 400) with (y mod 400)
    by (replace (y + 400 * e) with (y + e * 400) by ring; by rewrite Z.mod_add).
  done.
Qed.

Lemma days_in_month_le y m : days_in_month y m <= 31.
Proof. unfold days_in_month. repeat destruct (_ || _); repeat destruct (Z.eqb _ _); try destruct (leap_year _); lia. Qed.

Lemma days_in_month_400 y e m : days_in_month (y + 400 * e) m = days_in_month y m.
Proof. unfold days_in_month. by rewrite leap_year_400. Qed.

(** The largest instant the bound below admits is in the year 9600. *)
Definition iso_date_limit : Z := 2786860 * ms_per_day.

Lemma civil_from_days_bounds days :
  0 <= days → days * ms_per_day < iso_date_limit →
  let '(y, m, d) := civil_from_days days in
  0 <= y < 10000 ∧ 1 <= m <= 12 ∧ 1 <= d <= days_in_month y m.
Proof.
  unfold iso_date_limit, ms_per_day. intros H0 H1. unfold civil_from_days.
  set (z := days + 719468).
  assert (4 <= z / 146097 <= 23) as He.
  { split; [apply Z.div_le_lower_bound | apply Z.lt_succ_r, Z.div_lt_upper_bound]; lia. }
  replace (z - z / 146097 * 146097) with (z mod 146097) by (rewrite Z.mod_eq; lia).
  pose proof (era_split_bounds (z mod 146097) (Z.mod_pos_bound z 146097 ltac:(lia))) as Hb.
  clearbody z. destruct (era_split _) as [yoe doy], (month_day doy) as [[m d] nx].
  set (n := if nx then 1 else 0) in *.
  replace (yoe + z / 146097 * 400 + n) with (yoe + n + 400 * (z / 146097)) by ring.
  rewrite days_in_month_400. subst n. destruct nx; lia.
Qed.

