(* ===== verification/Erd.v ===== *)
(** * The associations of [models/ErdModel.js] as foreign-key constraints

    Every [belongsTo] of [ErdModel.js] is a foreign key of the store.  An
    INSERT or UPDATE whose non-null foreign key names no row fails.  A
    DELETE applies each constraint's [ON DELETE] action: the three profile
    keys of [tb_user] are declared [CASCADE]; for the others Sequelize's
    default applies, [SET NULL] on a nullable column and [NO ACTION] (the
    delete fails) on a NOT NULL one.

    The class [Table] packs, for one row type, the table's place in the
    store, its foreign-key check and its delete; the store operations of
    [Handler] are written once against it. *)

From stdpp Require Import base gmap strings list.
From Stdlib Require Import ZArith String.
From S2P Require Import Prelude JsValue Schema Store.

Local Open Scope Z_scope.

(** ** Table helpers *)

Definition has_row {A} (t : table A) (k : Z) : bool := bool_decide (is_Some (tbl_find k t)).

Definition opt_has_row {A} (t : table A) (o : option Z) : bool :=
  match o with Some k => has_row t k | None => true end.

(** Some row of [t] has [k] in the column [f]. *)
Definition referenced {B} (t : table B) (f : B → option Z) (k : Z) : bool :=
  existsb (λ p, bool_decide (f p.2 = Some k)) (tbl_list t).

Definition tbl_filter {A} (p : A → bool) (t : table A) : table A :=
  mk_table (filter (λ kv, p kv.2 = true) (rows t)) (next_id t).

Definition tbl_map {A} (f : A → A) (t : table A) : table A :=
  mk_table (f <$> rows t) (next_id t).

(** ** The foreign keys of each row *)

Definition siswa_refs (s : store) (x : siswa) : bool :=
  has_row (st_kelas s) (s_kelas_id x) && has_row (st_ortu s) (s_ortu_id x).

Definition kelas_refs (s : store) (x : kelas) : bool := has_row (st_karyawan s) (k_karyawan_id x).

Definition user_refs (s : store) (x : user) : bool :=
  opt_has_row (st_siswa s) (u_siswa_id x) && opt_has_row (st_ortu s) (u_ortu_id x)
  && opt_has_row (st_karyawan s) (u_karyawan_id x).

Definition tagihan_refs (s : store) (x : tagihan) : bool :=
  has_row (st_siswa s) (t_siswa_id x) && has_row (st_master_biaya s) (t_biaya_id x).

Definition pemasukan_refs (s : store) (x : pemasukan) : bool :=
  has_row (st_tagihan s) (p_tagihan_id x).

Definition pengeluaran_refs (s : store) (x : pengeluaran) : bool :=
  opt_has_row (st_master_biaya s) (g_biaya_id x) && opt_has_row (st_user s) (g_user_id x).

Definition master_biaya_refs (s : store) (x : master_biaya) : bool :=
  opt_has_row (st_karyawan s) (b_karyawan_id x).

(** ** ON DELETE actions *)

(** [SET NULL] on [tb_pengeluaran.user_id] for the users of [gone]. *)
Definition null_users (gone : list Z) (g : pengeluaran) : pengeluaran :=
  match g_user_id g with
  | Some u => if bool_decide (u ∈ gone) then
                mk_pengeluaran (g_deskripsi g) (g_jumlah g) (g_tgl_pengeluaran g)
                  (g_bukti_pengeluaran g) (g_biaya_id g) None
              else g
  | None => g
  end.

(** Delete the users matching [p] ([ON DELETE CASCADE]) and null their
    expenditures' [user_id]. *)
Definition cascade_users (p : user → bool) (s : store) : store :=
  let gone := (tbl_list (st_user s)) ≫= (λ kv, if p kv.2 then [kv.1] else []) in
  set_pengeluaran (tbl_map (null_users gone))
    (set_user (tbl_filter (λ u, negb (p u))) s).

Definition del_user (k : Z) (s : store) : option store :=
  Some (set_pengeluaran (tbl_map (null_users [k])) (set_user (tbl_delete k) s)).

Definition del_siswa (k : Z) (s : store) : option store :=
  if referenced (st_tagihan s) (λ t, Some (t_siswa_id t)) k then None
  else Some (cascade_users (λ u, bool_decide (u_siswa_id u = Some k)) (set_siswa (tbl_delete k) s)).

Definition del_ortu (k : Z) (s : store) : option store :=
  if referenced (st_siswa s) (λ x, Some (s_ortu_id x)) k then None
  else Some (cascade_users (λ u, bool_decide (u_ortu_id u = Some k)) (set_ortu (tbl_delete k) s)).

Definition null_karyawan (k : Z) (b : master_biaya) : master_biaya :=
  if bool_decide (b_karyawan_id b = Some k) then
    mk_master_biaya (b_nama_biaya b) (b_jumlah b) (b_jenis_biaya b) (b_deskripsi b) None
  else b.

Definition del_karyawan (k : Z) (s : store) : option store :=
  if referenced (st_kelas s) (λ x, Some (k_karyawan_id x)) k then None
  else Some (cascade_users (λ u, bool_decide (u_karyawan_id u = Some k))
               (set_master_biaya (tbl_map (null_karyawan k)) (set_karyawan (tbl_delete k) s))).

Definition del_kelas (k : Z) (s : store) : option store :=
  if referenced (st_siswa s) (λ x, Some (s_kelas_id x)) k then None
  else Some (set_kelas (tbl_delete k) s).

Definition null_biaya (k : Z) (g : pengeluaran) : pengeluaran :=
  if bool_decide (g_biaya_id g = Some k) then
    mk_pengeluaran (g_deskripsi g) (g_jumlah g) (g_tgl_pengeluaran g)
      (g_bukti_pengeluaran g) None (g_user_id g)
  else g.

Definition del_master_biaya (k : Z) (s : store) : option store :=
  if referenced (st_tagihan s) (λ t, Some (t_biaya_id t)) k then None
  else Some (set_pengeluaran (tbl_map (null_biaya k)) (set_master_biaya (tbl_delete k) s)).

Definition del_tagihan (k : Z) (s : store) : option store :=
  if referenced (st_pemasukan s) (λ p, Some (p_tagihan_id p)) k then None
  else Some (set_tagihan (tbl_delete k) s).

Definition del_pemasukan (k : Z) (s : store) : option store :=
  Some (set_pemasukan (tbl_delete k) s).

Definition del_pengeluaran (k : Z) (s : store) : option store :=
  Some (set_pengeluaran (tbl_delete k) s).

(** ** The interface the store operations are written against *)

Class Table (A : Type) := {
  tsel : store → table A;
  tset : (table A → table A) → store → store;
  trefs : store → A → bool;
  tdelete : Z → store → option store
}.

#[export] Instance siswa_table : Table siswa := { tsel := st_siswa; tset := set_siswa; trefs := siswa_refs; tdelete := del_siswa }.
#[export] Instance ortu_table : Table orang_tua := { tsel := st_ortu; tset := set_ortu; trefs := λ _ _, true; tdelete := del_ortu }.
#[export] Instance kelas_table : Table kelas := { tsel := st_kelas; tset := set_kelas; trefs := kelas_refs; tdelete := del_kelas }.
#[export] Instance karyawan_table : Table karyawan := { tsel := st_karyawan; tset := set_karyawan; trefs := λ _ _, true; tdelete := del_karyawan }.
#[export] Instance user_table : Table user := { tsel := st_user; tset := set_user; trefs := user_refs; tdelete := del_user }.
#[export] Instance tagihan_table : Table tagihan := { tsel := st_tagihan; tset := set_tagihan; trefs := tagihan_refs; tdelete := del_tagihan }.
#[export] Instance pemasukan_table : Table pemasukan := { tsel := st_pemasukan; tset := set_pemasukan; trefs := pemasukan_refs; tdelete := del_pemasukan }.
#[export] Instance pengeluaran_table : Table pengeluaran := { tsel := st_pengeluaran; tset := set_pengeluaran; trefs := pengeluaran_refs; tdelete := del_pengeluaran }.
#[export] Instance master_biaya_table : Table master_biaya := { tsel := st_master_biaya; tset := set_master_biaya; trefs := master_biaya_refs; tdelete := del_master_biaya }.

(** Referential integrity of the whole store: every row satisfies its
    foreign keys. *)
Definition table_refs_ok {A} `{Table A} (s : store) : Prop :=
  ∀ k x, tbl_find k (tsel s) = Some x → trefs s x = true.

Definition refs_ok (s : store) : Prop :=
  table_refs_ok (A:=siswa) s ∧ table_refs_ok (A:=kelas) s ∧ table_refs_ok (A:=user) s ∧
  table_refs_ok (A:=tagihan) s ∧ table_refs_ok (A:=pemasukan) s ∧
  table_refs_ok (A:=pengeluaran) s ∧ table_refs_ok (A:=master_biaya) s.

(** ** Row existence *)
Lemma has_row_find {A} (t : table A) k x : tbl_find k t = Some x → has_row t k = true.
Proof. intros E. unfold has_row. rewrite E. by apply bool_decide_eq_true. Qed.

Lemma has_row_some {A} (t : table A) k : has_row t k = true → ∃ x, tbl_find k t = Some x.
Proof. unfold has_row. rewrite bool_decide_eq_true. intros [x ?]. by exists x. Qed.
