(* ===== verification/Handler.v ===== *)
(** * Express handlers as state-passing functions

    A controller function [async (req, res) => { try { ... } catch { ... } }]
    is a computation in the monad [M]: it reads and writes the store, and it
    ends in one of three ways: it goes on with a value ([Next]), it has sent
    a response and returned early ([Halt], the [return res.status(..).json(..)]
    of the guards), or an awaited store operation threw ([Throw]), which the
    handler's [catch] turns into a 500 response.  Writes done before a throw
    stay in the store: no controller uses a transaction. *)

From stdpp Require Import base gmap strings list.
From Stdlib Require Import ZArith QArith Ascii String.
From S2P Require Import Prelude JsValue Validators Schema Store Erd.

Local Open Scope Z_scope.
Local Set Warnings "-register-all".

(** The first binding of a key in an association list. *)
Fixpoint assoc {A} (f : string) (l : list (string * A)) : option A :=
  match l with
  | (g, v) :: r => if String.eqb g f then Some v else assoc f r
  | [] => None
  end.

(** ** Responses *)

Inductive json : Type :=
| JsonNull
| JsonBool (b : bool)
| JsonNum (q : Q)
| JsonStr (s : string)
| JsonArr (l : list json)
| JsonObj (fields : list (string * json)).

Definition json_int (z : Z) : json := JsonNum (inject_Z z).

Definition json_opt_str (o : option string) : json :=
  match o with Some s => JsonStr s | None => JsonNull end.

Definition json_opt_int (o : option Z) : json :=
  match o with Some z => json_int z | None => JsonNull end.

Record reply := mk_reply { code : Z; body : json }.

(** [res.status(c).json({ success: false, message: m })] *)
Definition fail_reply (c : Z) (m : string) : reply :=
  mk_reply c (JsonObj [("success", JsonBool false); ("message", JsonStr m)]).

(** [res.status(c).json({ success: true, message: m, data: d })] *)
Definition ok_reply (c : Z) (m : string) (d : json) : reply :=
  mk_reply c (JsonObj [("success", JsonBool true); ("message", JsonStr m); ("data", d)]).

Definition field_of (f : string) (j : json) : option json :=
  match j with
  | JsonObj fs => assoc f fs
  | _ => None
  end.

Definition reply_message (r : reply) : option string :=
  match field_of "message" (body r) with Some (JsonStr m) => Some m | _ => None end.

Definition reply_data (r : reply) : option json := field_of "data" (body r).

(** The double quote character, for messages that contain one. *)
Definition dq : string := String (ascii_of_nat 34) EmptyString.

(** ** Requests *)

(** [req.body] after [express.json()]: a missing field is [undefined]. *)
Definition req_body := list (string * jsval).

Definition field (b : req_body) (f : string) : jsval :=
  match assoc f b with Some v => v | None => JUndef end.

(** ** The handler monad *)

Inductive outcome (A : Type) : Type :=
| Next (a : A)
| Halt (r : reply)
| Throw.
Arguments Next {A} _.
Arguments Halt {A} _.
Arguments Throw {A}.

Definition M (A : Type) : Type := store → outcome A * store.

Definition ret {A} (a : A) : M A := λ s, (Next a, s).

Definition bind {A B} (m : M A) (k : A → M B) : M B :=
  λ s, match m s with
       | (Next a, s') => k a s'
       | (Halt r, s') => (Halt r, s')
       | (Throw, s') => (Throw, s')
       end.

(** [const x = await m; k] *)
Notation "'let*' x := m 'in' k" := (bind m (λ x, k))
  (at level 10, x name, m at level 100, k at level 200) : kape_scope.
(** [await m; k] *)
Notation "m ;; k" := (bind m (λ _ : unit, k))
  (at level 100, k at level 200, right associativity) : kape_scope.
Local Open Scope kape_scope.

(** [return res.status(..).json(..)] *)
Definition halt {A} (r : reply) : M A := λ s, (Halt r, s).

(** [if (cond) return res.status(..).json(..)] *)
Definition guard (cond : bool) (r : reply) : M unit :=
  if cond then halt r else ret tt.

(** An awaited call that rejects. *)
Definition throw {A} : M A := λ s, (Throw, s).

(** A column coercion the store refuses makes the statement throw. *)
Definition col {A} (o : option A) : M A :=
  match o with Some a => ret a | None => throw end.

(** [try { m } catch (err) { console.error(..) }]: the error is dropped. *)
Definition try_ignore (m : M unit) : M unit :=
  λ s, match m s with
       | (Halt r, s') => (Halt r, s')
       | (_, s') => (Next tt, s')
       end.

(** The outer [try/catch] of a controller, with its 500 message. *)
Definition run_handler (msg500 : string) (m : M reply) (s : store) : reply * store :=
  match m s with
  | (Next r, s') | (Halt r, s') => (r, s')
  | (Throw, s') => (fail_reply 500 msg500, s')
  end.

(** ** Store operations *)

(** A query: it reads the store and changes nothing. *)
Definition read {A} (f : store → A) : M A := λ s, (Next (f s), s).

(** [Model.findByPk(v)] *)
Definition find_pk {A} (sel : store → table A) (v : jsval) : M (option A) :=
  read (λ s, match pk_of v with Some k => tbl_find k (sel s) | None => None end).

Definition find_key {A} (sel : store → table A) (k : Z) : M (option A) :=
  read (λ s, tbl_find k (sel s)).

(** [Model.create(x)]: an INSERT, refused when a foreign key dangles. *)
Definition create {A} `{Table A} (x : A) : M Z :=
  λ s, if trefs s x then let '(k, t) := tbl_insert x (tsel s) in (Next k, tset (λ _, t) s)
       else (Throw, s).

(** [row.update(..)]: [UPDATE .. WHERE pk = k], refused when a foreign key
    dangles; when the row is gone it matches nothing and changes nothing. *)
Definition save {A} `{Table A} (k : Z) (x : A) : M unit :=
  λ s, if has_row (tsel s) k then
         if trefs s x then (Next tt, tset (tbl_put k x) s) else (Throw, s)
       else (Next tt, s).

(** [row.destroy()]: a DELETE with the table's ON DELETE actions. *)
Definition destroy {A} `{Table A} (k : Z) : M unit :=
  λ s, match tdelete k s with Some s' => (Next tt, s') | None => (Throw, s) end.

(** ** Monad equations *)
Lemma bind_ret {A B} (a : A) (k : A → M B) s : bind (ret a) k s = k a s.
Proof. reflexivity. Qed.

Lemma bind_halt {A B} (r : reply) (k : A → M B) s : bind (halt r) k s = (Halt r, s).
Proof. reflexivity. Qed.

Lemma bind_throw {A B} (k : A → M B) s : bind throw k s = (Throw, s).
Proof. reflexivity. Qed.

Lemma guard_false_bind {B} r (k : unit → M B) s : bind (guard false r) k s = k tt s.
Proof. reflexivity. Qed.

Lemma guard_true_bind {B} r (k : unit → M B) s : bind (guard true r) k s = (Halt r, s).
Proof. reflexivity. Qed.

#[export] Hint Rewrite @bind_ret @bind_halt @bind_throw @guard_false_bind @guard_true_bind : kape_simpl.

(** [!row] on the result of a lookup. *)
Definition absent {A} (o : option A) : bool :=
  match o with Some _ => false | None => true end.

(** A query run for the response only. *)
Definition view (f : store → json) : M json := read f.

(** A request value echoed in a response ([JSON.stringify]). *)
Definition json_of_jsval (v : jsval) : json :=
  match v with
  | JUndef | JNull => JsonNull
  | JBool b => JsonBool b
  | JNum (Fin q) => JsonNum q
  | JNum _ => JsonNull
  | JStr s => JsonStr s
  end.

(** An object literal: properties whose value is [undefined] are dropped. *)
Definition obj_of (l : list (string * jsval)) : json :=
  JsonObj (omap (λ p, match p.2 with JUndef => None | v => Some (p.1, json_of_jsval v) end) l).

(** ** The handler shapes every controller repeats *)

(** [res.status(200).json({ success: true, data })] *)
Definition data_reply (d : json) : reply :=
  mk_reply 200 (JsonObj [("success", JsonBool true); ("data", d)]).

(** [res.status(200).json({ success: true, message })] *)
Definition msg_reply (m : string) : reply :=
  mk_reply 200 (JsonObj [("success", JsonBool true); ("message", JsonStr m)]).

(** [const row = await Model.findByPk(id, ..); if (!row) return 404; res.json(row)] *)
Definition get_by_id {A} (sel : store → table A) (id : jsval) (render : store → Z → json)
    (msg404 : string) : M reply :=
  let* found := find_pk sel id in
  match found, pk_of id with
  | Some _, Some k => let* v := view (λ s, render s k) in ret (data_reply v)
  | _, _ => halt (fail_reply 404 msg404)
  end.

(** [const row = await Model.findByPk(id); if (!row) return 404;
     await row.destroy(); res.json({ success: true, message })] *)
Definition delete_by_id {A} `{Table A} (id : jsval) (okmsg msg404 : string) : M reply :=
  let* found := find_pk tsel id in
  match found, pk_of id with
  | Some _, Some k => destroy (A:=A) k ;; ret (msg_reply okmsg)
  | _, _ => halt (fail_reply 404 msg404)
  end.

(** [const list = await Model.findAll(..); res.json({ success: true, data: list })] *)
Definition list_all (render : store → json) : M reply :=
  let* v := view render in ret (data_reply v).

Lemma assoc_elem {A} f (l : list (string * A)) v : assoc f l = Some v → (f, v) ∈ l.
Proof.
  induction l as [|[g w] l IH]; cbn; [done|].
  destruct (String.eqb_spec g f) as [->|]; intros E; [invc E; left | right; auto].
Qed.
