(* ===== verification/Views.v ===== *)
(** * Rows as the JSON the handlers send

    [res.json(instance)] serialises a Sequelize instance with its columns and
    the associations its query included; an included [belongsTo] whose
    target row is missing is [null].  INTEGER columns are numbers, DECIMAL
    columns the driver's strings, ENUM, DATEONLY and text columns strings.
    The [createdAt]/[updatedAt] columns are not modelled. *)

From stdpp Require Import base gmap strings list.
From Stdlib Require Import ZArith QArith String.
From S2P Require Import Prelude JsValue Schema Store Handler.

Local Open Scope Z_scope.

Definition opt_json {A} (f : A → json) (o : option A) : json :=
  match o with Some a => f a | None => JsonNull end.

Definition siswa_fields (k : Z) (x : siswa) : list (string * json) :=
  [("siswa_id", json_int k); ("nama", JsonStr (s_nama x));
   ("tgl_lahir", JsonStr (s_tgl_lahir x)); ("jk", JsonStr (jk_str (s_jk x)));
   ("alamat", JsonStr (s_alamat x)); ("kelas_id", json_int (s_kelas_id x));
   ("ortu_id", json_int (s_ortu_id x))].

Definition orang_tua_fields (k : Z) (x : orang_tua) : list (string * json) :=
  [("ortu_id", json_int k); ("nama_ayah", JsonStr (o_nama_ayah x));
   ("nama_ibu", JsonStr (o_nama_ibu x)); ("no_hp", JsonStr (o_no_hp x))].

Definition kelas_fields (k : Z) (x : kelas) : list (string * json) :=
  [("kelas_id", json_int k); ("nama_kelas", JsonStr (k_nama_kelas x));
   ("kapasitas", json_int (k_kapasitas x)); ("deskripsi", json_opt_str (k_deskripsi x));
   ("tahun_ajaran", JsonStr (k_tahun_ajaran x)); ("karyawan_id", json_int (k_karyawan_id x))].

Definition karyawan_fields (k : Z) (x : karyawan) : list (string * json) :=
  [("karyawan_id", json_int k); ("nama", JsonStr (kr_nama x));
   ("posisi", JsonStr (kr_posisi x)); ("tgl_lahir", JsonStr (kr_tgl_lahir x));
   ("jk", JsonStr (jk_str (kr_jk x))); ("alamat", JsonStr (kr_alamat x));
   ("no_hp", JsonStr (kr_no_hp x)); ("gaji", JsonStr (decimal_string (kr_gaji x)))].

Definition master_biaya_fields (k : Z) (x : master_biaya) : list (string * json) :=
  [("biaya_id", json_int k); ("nama_biaya", JsonStr (b_nama_biaya x));
   ("jumlah", JsonStr (decimal_string (b_jumlah x)));
   ("jenis_biaya", JsonStr (jenis_str (b_jenis_biaya x)));
   ("deskripsi", json_opt_str (b_deskripsi x));
   ("karyawan_id", json_opt_int (b_karyawan_id x))].

Definition tagihan_fields (k : Z) (x : tagihan) : list (string * json) :=
  [("tagihan_id", json_int k); ("siswa_id", json_int (t_siswa_id x));
   ("biaya_id", json_int (t_biaya_id x)); ("jumlah", JsonStr (decimal_string (t_jumlah x)));
   ("tgl_jatuh_tempo", JsonStr (t_tgl_jatuh_tempo x));
   ("status", JsonStr (status_str (t_status x)))].

Definition pemasukan_fields (k : Z) (x : pemasukan) : list (string * json) :=
  [("pemasukan_id", json_int k); ("tagihan_id", json_int (p_tagihan_id x));
   ("jumlah_bayar", JsonStr (decimal_string (p_jumlah_bayar x)));
   ("tgl_bayar", JsonStr (p_tgl_bayar x));
   ("metode_pembayaran", JsonStr (p_metode_pembayaran x));
   ("keterangan", json_opt_str (p_keterangan x))].

(** All columns of [tb_user], the password hash included. *)
Definition user_fields (k : Z) (x : user) : list (string * json) :=
  [("user_id", json_int k); ("username", JsonStr (u_username x));
   ("password", JsonStr (u_password x)); ("role", JsonStr (role_str (u_role x)));
   ("siswa_id", json_opt_int (u_siswa_id x)); ("ortu_id", json_opt_int (u_ortu_id x));
   ("karyawan_id", json_opt_int (u_karyawan_id x))].

Definition pengeluaran_fields (k : Z) (x : pengeluaran) : list (string * json) :=
  [("pengeluaran_id", json_int k); ("deskripsi", JsonStr (g_deskripsi x));
   ("jumlah", JsonStr (decimal_string (g_jumlah x)));
   ("tgl_pengeluaran", JsonStr (g_tgl_pengeluaran x));
   ("bukti_pengeluaran", json_opt_str (g_bukti_pengeluaran x));
   ("biaya_id", json_opt_int (g_biaya_id x)); ("user_id", json_opt_int (g_user_id x))].

(** A [belongsTo] include: the target row's columns, or [null]. *)
Definition include_row {A} (f : Z → A → list (string * json)) (t : table A) (k : Z) : json :=
  opt_json (λ x, JsonObj (f k x)) (tbl_find k t).

(** [Tagihan.findByPk(k, { include: [siswa, masterBiaya] })] *)
Definition tagihan_view (s : store) (k : Z) : json :=
  opt_json (λ t, JsonObj (tagihan_fields k t ++
    [("siswa", include_row siswa_fields (st_siswa s) (t_siswa_id t));
     ("masterBiaya", include_row master_biaya_fields (st_master_biaya s) (t_biaya_id t))]))
    (tbl_find k (st_tagihan s)).

(** The same query with the student's class name nested in [siswa]. *)
Definition tagihan_view_kelas (s : store) (k : Z) : json :=
  opt_json (λ t, JsonObj (tagihan_fields k t ++
    [("siswa", opt_json (λ x, JsonObj (siswa_fields (t_siswa_id t) x ++
        [("kelas", opt_json (λ c, JsonObj [("nama_kelas", JsonStr (k_nama_kelas c))])
                     (tbl_find (s_kelas_id x) (st_kelas s)))]))
        (tbl_find (t_siswa_id t) (st_siswa s)));
     ("masterBiaya", include_row master_biaya_fields (st_master_biaya s) (t_biaya_id t))]))
    (tbl_find k (st_tagihan s)).
