(* ===== verification/Crypto.v ===== *)
(** * The two cryptographic primitives the backend calls

    [bcrypt] (password hashing) and [jsonwebtoken] (signed, expiring
    session tokens) are libraries, not code of the repository.  Each is an
    interface here: a class of operations and a class of the laws the
    controllers rely on.  The authentication theorems of [Auth] are proved
    against these interfaces, for every implementation that satisfies the
    laws.  A small executable implementation of each discharges the laws
    and lets the witnesses run. *)

From stdpp Require Import base strings list.
From Stdlib Require Import ZArith Ascii String.
From S2P Require Import Prelude JsValue Schema Store.

Local Open Scope Z_scope.

(** ** [bcrypt.hash] / [bcrypt.compare] *)

(** [bc_hash p salt] is [bcrypt.hash(p, await bcrypt.genSalt(10))], the
    salt being the random draw of [genSalt]. *)
Class Hasher := {
  bc_hash : string → Z → string;
  bc_compare : string → string → bool
}.

Class HasherLaws `{Hasher} := {
  bc_compare_hash : ∀ p salt, bc_compare p (bc_hash p salt) = true
}.

(** ** [jwt.sign] / [jwt.verify] *)

(** The payload [{ user_id, role }] with the [exp] that [expiresIn: '24h']
    adds, in seconds. *)
Record claims := mk_claims { cl_user_id : Z; cl_role : role; cl_exp : Z }.

(** The [name] of the error [jwt.verify] throws. *)
Inductive jwt_error := TokenExpiredError | JsonWebTokenError.

Definition token_lifetime : Z := 24 * 60 * 60.

(** No space character: what [authHeader.split(' ')[1]] takes whole. *)
Definition space_free (s : string) : bool :=
  forallb (λ ch, negb (Ascii.eqb ch " ")) (list_ascii_of_string s).

(** [jwt_signed t]: [t] is well formed and carries a valid signature
    under the server's [JWT_SECRET]. *)
Class Jwt := {
  jwt_sign : claims → string;
  jwt_signed : string → bool;
  jwt_verify : string → Z → claims + jwt_error
}.

(** [jsonwebtoken] checks the signature before the expiry: an unsigned
    token is a [JsonWebTokenError] whatever its [exp]. *)
Class JwtLaws `{Jwt} := {
  jwt_verify_sign : ∀ c now, now < cl_exp c → jwt_verify (jwt_sign c) now = inl c;
  jwt_verify_expired : ∀ c now, cl_exp c <= now → jwt_verify (jwt_sign c) now = inr TokenExpiredError;
  jwt_verify_unsigned : ∀ t now, jwt_signed t = false → jwt_verify t now = inr JsonWebTokenError;
  jwt_sign_space_free : ∀ c, space_free (jwt_sign c) = true;
  jwt_sign_nonempty : ∀ c, jwt_sign c ≠ ""%string
}.

(** ** An executable implementation *)

(** A signed integer as text: a sign character, then the digits. *)
Definition int_tag (z : Z) : string :=
  String (if Z.ltb z 0 then "-"%char else "+"%char) (nat_digits (Z.abs z)).

Definition read_int (s : string) : option (Z * string) :=
  match s with
  | String c r =>
      let '(n, _, rest) := scan_digits r 0 0 in
      if Ascii.eqb c "+" then Some (n, rest)
      else if Ascii.eqb c "-" then Some (- n, rest) else None
  | EmptyString => None
  end.

Definition toy_key : string := "kape.".

(** [kape.<user_id>.<exp>.<role>] *)
Definition toy_sign (c : claims) : string :=
  (toy_key ++ int_tag (cl_user_id c) ++ "." ++ int_tag (cl_exp c) ++ "." ++ role_str (cl_role c))%string.

(** The rest of [s] after the prefix [p], if [s] starts with [p]. *)
Fixpoint strip (p s : string) : option string :=
  match p, s with
  | EmptyString, _ => Some s
  | String a p', String b s' => if Ascii.eqb a b then strip p' s' else None
  | String _ _, EmptyString => None
  end.

Definition toy_signed (t : string) : bool := bool_decide (is_Some (strip toy_key t)).

Definition toy_decode (body : string) : option claims :=
  match read_int body with
  | Some (u, String "." r1) =>
      match read_int r1 with
      | Some (e, String "." r2) => (λ r, mk_claims u r e) <$> role_of (JStr r2)
      | _ => None
      end
  | _ => None
  end.

Definition toy_verify (t : string) (now : Z) : claims + jwt_error :=
  match strip toy_key t ≫= toy_decode with
  | None => inr JsonWebTokenError
  | Some c => if cl_exp c <=? now then inr TokenExpiredError else inl c
  end.

#[export] Instance toy_jwt : Jwt := { jwt_sign := toy_sign; jwt_signed := toy_signed; jwt_verify := toy_verify }.

Definition toy_hash (p : string) (salt : Z) : string := ("$2b$10$" ++ p)%string.
Definition toy_compare (p h : string) : bool := String.eqb h ("$2b$10$" ++ p).

#[export] Instance toy_hasher : Hasher := { bc_hash := toy_hash; bc_compare := toy_compare }.

#[export] Instance toy_hasher_laws : HasherLaws.
Proof. constructor. intros p salt. apply String.eqb_refl. Qed.

(** ** The laws of the executable implementation *)
Lemma strip_app p x : strip p (p ++ x) = Some x.
Proof. induction p as [|a p IH]; [done|]. rewrite string_app_cons. cbn. by rewrite Ascii.eqb_refl, IH. Qed.

Lemma read_int_tag z r : read_int (int_tag z ++ "." ++ r) = Some (z, "." ++ r)%string.
Proof.
  unfold int_tag, nat_digits. rewrite string_app_cons. cbn [read_int].
  destruct (scan_pos_digits (dec_fuel (Z.abs z)) (Z.abs z) ("." ++ r) 0 0) as [k ->].
  { split; [lia|]. apply dec_fuel_enough; lia. }
  rewrite string_app_cons. cbn. rewrite Z.mul_0_l, Z.add_0_l.
  destruct (Z.ltb_spec z 0); cbn; f_equal; f_equal; lia.
Qed.

Lemma role_of_str r : role_of (JStr (role_str r)) = Some r.
Proof. by destruct r. Qed.

Lemma toy_decode_sign c :
  strip toy_key (toy_sign c) ≫= toy_decode = Some c.
Proof.
  unfold toy_sign. rewrite strip_app. cbn [mbind option_bind]. unfold toy_decode.
  rewrite read_int_tag, string_app_cons, string_app_nil, read_int_tag, string_app_cons, string_app_nil,
    role_of_str. by destruct c.
Qed.

Lemma space_free_app a b : space_free (a ++ b) = space_free a && space_free b.
Proof.
  unfold space_free. induction a as [|x a IH]; [done|]. rewrite string_app_cons. cbn.
  rewrite IH. apply andb_assoc.
Qed.

Lemma pos_digits_space_free f n acc : space_free acc = true → space_free (pos_digits f n acc) = true.
Proof.
  revert n acc. induction f as [|f IH]; intros n acc Hacc; [done|]. rewrite pos_digits_S.
  assert (space_free (String (digit_char (n mod 10)) acc) = true).
  { destruct (digit_char_spec (n mod 10)) as [Hd _]; [apply Z.mod_pos_bound; lia|].
    change (negb (Ascii.eqb (digit_char (n mod 10)) " ") && space_free acc = true).
    rewrite Hacc, andb_true_r. destruct (Ascii.eqb_spec (digit_char (n mod 10)) " ") as [E|];
      [rewrite E in Hd; discriminate | done]. }
  destruct (n <? 10); auto.
Qed.

Lemma int_tag_space_free z : space_free (int_tag z) = true.
Proof.
  unfold int_tag, nat_digits.
  change (negb (Ascii.eqb (if Z.ltb z 0 then "-"%char else "+"%char) " ")
          && space_free (pos_digits (dec_fuel (Z.abs z)) (Z.abs z) "") = true).
  rewrite pos_digits_space_free by done. by destruct (Z.ltb z 0).
Qed.

#[export] Instance toy_jwt_laws : JwtLaws.
Proof.
  constructor; cbn [jwt_sign jwt_verify jwt_signed toy_jwt].
  - intros c now Hnow. unfold toy_verify. rewrite toy_decode_sign.
    by rewrite (proj2 (Z.leb_gt _ _) Hnow).
  - intros c now Hnow. unfold toy_verify. rewrite toy_decode_sign.
    by rewrite (proj2 (Z.leb_le _ _) Hnow).
  - intros t now. unfold toy_signed, toy_verify. destruct (strip toy_key t); [done|]. done.
  - intros c. unfold toy_sign. rewrite !space_free_app, !int_tag_space_free. by destruct (cl_role c).
  - intros c. unfold toy_sign, toy_key. cbn. discriminate.
Qed.
