(* ===== verification/Tagihan.v ===== *)
(** * Bills: [controllers/TagihanController.js]

    The four handlers of the bill routes, and the one state transition of the
    system: an update that moves a bill from a status other than [lunas] to
    [lunas] also inserts an income row ([Pemasukan]) for it, inside a
    [try/catch] that drops its errors.  This file holds the definitions;
    [Billing] proves that the income row is synthesised exactly on the
    unpaid-to-paid transition, and [Api] that a refused request writes
    nothing. *)

From stdpp Require Import base gmap strings list.
From Stdlib Require Import ZArith QArith Ascii String.
From S2P Require Import Prelude JsValue Validators Schema Store Erd Handler Views.

Local Open Scope Z_scope.
Local Open Scope kape_scope.

Module TagihanController.

Definition msg_status : string :=
  ("Status harus " ++ dq ++ "lunas" ++ dq ++ " atau " ++ dq ++ "belum_lunas" ++ dq)%string.

(** [exports.createTagihan] *)
Definition createTagihan (b : req_body) : M reply :=
  let siswa_id := field b "siswa_id" in
  let biaya_id := field b "biaya_id" in
  let jumlah := field b "jumlah" in
  let tgl_jatuh_tempo := field b "tgl_jatuh_tempo" in
  let status := field b "status" in
  guard (negb (truthy siswa_id) || negb (truthy biaya_id) || is_undefined jumlah
         || negb (truthy tgl_jatuh_tempo) || negb (truthy status))
        (fail_reply 400 "Semua field wajib diisi") ;;
  guard (negb (regex_test date_regex tgl_jatuh_tempo))
        (fail_reply 400 "Format tanggal harus YYYY-MM-DD") ;;
  let jumlahFloat := parseFloat jumlah in
  guard (negb (num_positive jumlahFloat))
        (fail_reply 400 "jumlah harus berupa angka positif") ;;
  guard (negb (includes_str status_values status)) (fail_reply 400 msg_status) ;;
  let* siswa := find_pk st_siswa siswa_id in
  guard (absent siswa) (fail_reply 400 "siswa_id tidak ditemukan") ;;
  let* biaya := find_pk st_master_biaya biaya_id in
  guard (absent biaya) (fail_reply 400 "biaya_id tidak ditemukan") ;;
  let* sid := col (int_col siswa_id) in
  let* bid := col (int_col biaya_id) in
  let* c := col (decimal_col (JNum jumlahFloat)) in
  let* tgl := col (date_col tgl_jatuh_tempo) in
  let* st := col (status_of status) in
  let* k := create (mk_tagihan sid bid c tgl st) in
  let* created := view (λ s, tagihan_view s k) in
  ret (ok_reply 201 "Tagihan berhasil dibuat" created).

Definition createTagihan_handler (b : req_body) : store → reply * store :=
  run_handler "Gagal membuat tagihan" (createTagihan b).

(** [exports.getAllTagihan]: [?siswa_id=] filters on the student. *)
Definition getAllTagihan (siswa_q : jsval) : M reply :=
  list_all (λ s, JsonArr
    (map (λ p, tagihan_view_kelas s p.1)
      (List.filter (λ p, negb (truthy siswa_q) || bool_decide (pk_of siswa_q = Some (t_siswa_id p.2)))
        (tbl_list (st_tagihan s))))).

Definition getAllTagihan_handler (siswa_q : jsval) : store → reply * store :=
  run_handler "Gagal mengambil tagihan" (getAllTagihan siswa_q).

(** [exports.getTagihanById] *)
Definition getTagihanById (id : jsval) : M reply :=
  get_by_id st_tagihan id tagihan_view_kelas "Tagihan tidak ditemukan".

Definition getTagihanById_handler (id : jsval) : store → reply * store :=
  run_handler "Gagal mengambil data tagihan" (getTagihanById id).

(** The income row the paid transition inserts. *)
Definition auto_pemasukan (k c : Z) (today : string) (bi : master_biaya) : pemasukan :=
  mk_pemasukan k c today "Transfer Bank"
    (Some ("(" ++ jenis_str (b_jenis_biaya bi) ++ ") " ++ b_nama_biaya bi)%string).

(** [Pemasukan.create({ tagihan_id: id, jumlah_bayar: updatedJumlah, ... })]
    with [biaya = updatedTagihan.masterBiaya]. *)
Definition record_income (k : Z) (biaya : option master_biaya) (updatedJumlah : jsval)
    (today : string) : M unit :=
  let* bi := col biaya in
  let* jb := col (decimal_col updatedJumlah) in
  let* tgl := col (date_col (JStr today)) in
  let* _ := create (auto_pemasukan k jb tgl bi) in
  ret tt.

(** A foreign key of the update: checked only when present and different
    from the stored value. *)
Definition check_ref {A} (sel : store → table A) (v : jsval) (stored : Z) (msg : string)
    : M jsval :=
  if truthy v && negb (strict_eq v (JInt stored)) then
    let* row := find_pk sel v in
    guard (absent row) (fail_reply 400 msg) ;;
    ret v
  else ret (JInt stored).

(** [exports.updateTagihan]; [today] is [new Date().toISOString().split('T')[0]]. *)
Definition updateTagihan (id : jsval) (b : req_body) (today : string) : M reply :=
  let siswa_id := field b "siswa_id" in
  let biaya_id := field b "biaya_id" in
  let jumlah := field b "jumlah" in
  let tgl_jatuh_tempo := field b "tgl_jatuh_tempo" in
  let status := field b "status" in
  let* found := find_pk st_tagihan id in
  match found with
  | None => halt (fail_reply 404 "Tagihan tidak ditemukan")
  | Some t =>
    let prevStatus := status_str (t_status t) in
    let tgl_new := truthy tgl_jatuh_tempo
                   && negb (strict_eq tgl_jatuh_tempo (JStr (t_tgl_jatuh_tempo t))) in
    guard (tgl_new && negb (regex_test date_regex tgl_jatuh_tempo))
          (fail_reply 400 "Format tanggal harus YYYY-MM-DD") ;;
    let updatedTgl := if tgl_new then tgl_jatuh_tempo else JStr (t_tgl_jatuh_tempo t) in
    let jumlah_new := negb (is_undefined jumlah)
                      && negb (strict_eq jumlah (decimal_val (t_jumlah t))) in
    guard (jumlah_new && negb (num_positive (parseFloat jumlah)))
          (fail_reply 400 "jumlah harus berupa angka positif") ;;
    let updatedJumlah := if jumlah_new then JNum (parseFloat jumlah)
                         else decimal_val (t_jumlah t) in
    let status_new := truthy status && negb (strict_eq status (JStr prevStatus)) in
    guard (status_new && negb (includes_str status_values status)) (fail_reply 400 msg_status) ;;
    let updatedStatus := if status_new then status else JStr prevStatus in
    let* updatedSiswaId := check_ref st_siswa siswa_id (t_siswa_id t) "siswa_id tidak ditemukan" in
    let* updatedBiayaId := check_ref st_master_biaya biaya_id (t_biaya_id t)
                                     "biaya_id tidak ditemukan" in
    let* k := col (pk_of id) in
    let* sid := col (int_col updatedSiswaId) in
    let* bid := col (int_col updatedBiayaId) in
    let* c := col (decimal_col updatedJumlah) in
    let* tgl := col (date_col updatedTgl) in
    let* st := col (status_of updatedStatus) in
    save k (mk_tagihan sid bid c tgl st) ;;
    let* updated := view (λ s, tagihan_view s k) in
    let* biaya := find_key st_master_biaya bid in
    (if negb (String.eqb prevStatus "lunas") && strict_eq updatedStatus (JStr "lunas") then
       try_ignore (record_income k biaya updatedJumlah today)
     else ret tt) ;;
    ret (ok_reply 200 "Tagihan berhasil diperbarui" updated)
  end.

Definition updateTagihan_handler (id : jsval) (b : req_body) (today : string)
    : store → reply * store :=
  run_handler "Gagal memperbarui tagihan" (updateTagihan id b today).

(** [exports.deleteTagihan] *)
Definition deleteTagihan (id : jsval) : M reply :=
  delete_by_id (A:=tagihan) id "Tagihan berhasil dihapus" "Tagihan tidak ditemukan".

Definition deleteTagihan_handler (id : jsval) : store → reply * store :=
  run_handler "Gagal menghapus tagihan" (deleteTagihan id).

End TagihanController.
