(* ===== verification/MasterBiaya.v ===== *)
(** * Fee catalogue: [controllers/MasterBiayaController.js]

    The catalogue entries (master biaya) are the templates of bills and of
    expenditures.  Each handler is modelled whole: its required-field
    guard, the enumeration and amount checks, the write with its column
    coercions and the response. *)

From stdpp Require Import base gmap strings list.
From Stdlib Require Import ZArith QArith Ascii String.
From S2P Require Import Prelude JsValue Validators Schema Store Erd Handler Views.

Local Open Scope Z_scope.
Local Open Scope kape_scope.

Module MasterBiayaController.

Definition msg_jenis : string :=
  "jenis_biaya harus salah satu dari: pengeluaran, pemasukan".

(** [exports.createMasterBiaya] *)
Definition createMasterBiaya (b : req_body) : M reply :=
  let nama_biaya := field b "nama_biaya" in
  let jumlah := field b "jumlah" in
  let jenis_biaya := field b "jenis_biaya" in
  let deskripsi := field b "deskripsi" in
  guard (negb (truthy nama_biaya) || is_undefined jumlah || negb (truthy jenis_biaya))
        (fail_reply 400 "nama_biaya, jumlah, dan jenis_biaya wajib diisi") ;;
  guard (negb (includes_str jenis_biaya_values jenis_biaya)) (fail_reply 400 msg_jenis) ;;
  let jumlahFloat := parseFloat jumlah in
  guard (negb (num_positive jumlahFloat))
        (fail_reply 400 "jumlah harus berupa angka positif") ;;
  let desk := if truthy deskripsi then deskripsi else JNull in
  let* nama := col (varchar_col 100 nama_biaya) in
  let* c := col (decimal_col (JNum jumlahFloat)) in
  let* jn := col (jenis_of jenis_biaya) in
  let* d := col (opt_text_col desk) in
  let* k := create (mk_master_biaya nama c jn d None) in
  ret (ok_reply 201 "Master biaya berhasil dibuat"
         (obj_of [("biaya_id", JInt k); ("nama_biaya", nama_biaya);
                  ("jumlah", JNum jumlahFloat); ("jenis_biaya", jenis_biaya);
                  ("deskripsi", desk)])).

Definition createMasterBiaya_handler (b : req_body) : store → reply * store :=
  run_handler "Gagal membuat master biaya" (createMasterBiaya b).

(** The rows [getAllMasterBiaya] returns: with [?nama_biaya=x], those whose
    name is [LIKE '%x%']. *)
Definition master_biaya_search (q : jsval) (t : table master_biaya)
    : list (Z * master_biaya) :=
  List.filter (λ p, negb (truthy q) || like_str ("%" ++ to_string q ++ "%") (b_nama_biaya p.2))
    (tbl_list t).

(** [include: [{ model: Karyawan, as: 'karyawan', attributes: ['karyawan_id', 'nama'] }]] *)
Definition master_biaya_with_karyawan (s : store) (k : Z) (x : master_biaya) : json :=
  JsonObj (master_biaya_fields k x ++
    [("karyawan", opt_json (λ kid, opt_json (λ kr, JsonObj [("karyawan_id", json_int kid);
                                                          ("nama", JsonStr (kr_nama kr))])
                                      (tbl_find kid (st_karyawan s)))
                   (b_karyawan_id x))]).

(** [exports.getAllMasterBiaya] *)
Definition getAllMasterBiaya (q : jsval) : M reply :=
  list_all (λ s, JsonArr (map (λ p, master_biaya_with_karyawan s p.1 p.2)
                              (master_biaya_search q (st_master_biaya s)))).

Definition getAllMasterBiaya_handler (q : jsval) : store → reply * store :=
  run_handler "Gagal mengambil daftar master biaya" (getAllMasterBiaya q).

Definition master_biaya_view (s : store) (k : Z) : json :=
  include_row master_biaya_fields (st_master_biaya s) k.

(** [exports.getMasterBiayaById] *)
Definition getMasterBiayaById (id : jsval) : M reply :=
  get_by_id st_master_biaya id master_biaya_view "Master biaya tidak ditemukan".

Definition getMasterBiayaById_handler (id : jsval) : store → reply * store :=
  run_handler "Gagal mengambil data master biaya" (getMasterBiayaById id).

(** [exports.updateMasterBiaya] *)
Definition updateMasterBiaya (id : jsval) (b : req_body) : M reply :=
  let nama_biaya := field b "nama_biaya" in
  let jumlah := field b "jumlah" in
  let jenis_biaya := field b "jenis_biaya" in
  let deskripsi := field b "deskripsi" in
  let* found := find_pk st_master_biaya id in
  match found with
  | None => halt (fail_reply 404 "Master biaya tidak ditemukan")
  | Some x =>
    guard (negb (is_undefined jenis_biaya) && negb (includes_str jenis_biaya_values jenis_biaya))
          (fail_reply 400 msg_jenis) ;;
    let updatedJenis := if is_undefined jenis_biaya then JStr (jenis_str (b_jenis_biaya x))
                        else jenis_biaya in
    guard (negb (is_undefined jumlah) && negb (num_positive (parseFloat jumlah)))
          (fail_reply 400 "jumlah harus berupa angka positif") ;;
    let updatedJumlah := if is_undefined jumlah then decimal_val (b_jumlah x)
                         else JNum (parseFloat jumlah) in
    let* k := col (pk_of id) in
    let* nama := if truthy nama_biaya then col (varchar_col 100 nama_biaya) else ret (b_nama_biaya x) in
    let* c := col (decimal_col updatedJumlah) in
    let* jn := col (jenis_of updatedJenis) in
    let* d := if is_undefined deskripsi then ret (b_deskripsi x) else col (opt_text_col deskripsi) in
    save k (mk_master_biaya nama c jn d (b_karyawan_id x)) ;;
    let* v := view (λ s, master_biaya_view s k) in
    ret (ok_reply 200 "Master biaya berhasil diperbarui" v)
  end.

Definition updateMasterBiaya_handler (id : jsval) (b : req_body) : store → reply * store :=
  run_handler "Gagal memperbarui master biaya" (updateMasterBiaya id b).

(** [exports.deleteMasterBiaya] *)
Definition deleteMasterBiaya (id : jsval) : M reply :=
  delete_by_id (A:=master_biaya) id "Master biaya berhasil dihapus"
    "Master biaya tidak ditemukan".

Definition deleteMasterBiaya_handler (id : jsval) : store → reply * store :=
  run_handler "Gagal menghapus master biaya" (deleteMasterBiaya id).

End MasterBiayaController.
