(* ===== verification/Pemasukan.v ===== *)
(** * Income records: [controllers/PemasukanController.js]

    Income rows are created here directly by an administrator, or by the
    paid transition of [Tagihan.updateTagihan].  [countPemasukan] is the
    dashboard total: the store's [SUM(jumlah_bayar)]. *)

From stdpp Require Import base gmap strings list.
From Stdlib Require Import ZArith QArith Ascii String.
From S2P Require Import Prelude JsValue Validators Schema Store Erd Handler Views.

Local Open Scope Z_scope.
Local Open Scope kape_scope.

Module PemasukanController.

(** [Pemasukan.findByPk(k, { include: [{ model: Tagihan, as: 'tagihan' }] })] *)
Definition pemasukan_view (s : store) (k : Z) : json :=
  opt_json (λ p, JsonObj (pemasukan_fields k p ++
    [("tagihan", include_row tagihan_fields (st_tagihan s) (p_tagihan_id p))]))
    (tbl_find k (st_pemasukan s)).

(** [exports.createPemasukan] *)
Definition createPemasukan (b : req_body) : M reply :=
  let tagihan_id := field b "tagihan_id" in
  let jumlah_bayar := field b "jumlah_bayar" in
  let tgl_bayar := field b "tgl_bayar" in
  let metode_pembayaran := field b "metode_pembayaran" in
  guard (negb (truthy tagihan_id) || negb (truthy jumlah_bayar) || negb (truthy tgl_bayar)
         || negb (truthy metode_pembayaran))
        (fail_reply 400 "tagihan_id, jumlah_bayar, tgl_bayar, dan metode_pembayaran wajib diisi") ;;
  guard (negb (regex_test date_regex tgl_bayar)) (fail_reply 400 "Format tanggal harus YYYY-MM-DD") ;;
  let jumlahBayarFloat := parseFloat jumlah_bayar in
  guard (negb (num_positive jumlahBayarFloat))
        (fail_reply 400 "jumlah_bayar harus berupa angka positif") ;;
  let* tagihan := find_pk st_tagihan tagihan_id in
  guard (absent tagihan) (fail_reply 400 "tagihan_id tidak ditemukan") ;;
  let* tid := col (int_col tagihan_id) in
  let* c := col (decimal_col (JNum jumlahBayarFloat)) in
  let* tgl := col (date_col tgl_bayar) in
  let* metode := col (varchar_col 50 metode_pembayaran) in
  let* k := create (mk_pemasukan tid c tgl metode None) in
  let* v := view (λ s, pemasukan_view s k) in
  ret (ok_reply 201 "Pemasukan berhasil dibuat" v).

Definition createPemasukan_handler (b : req_body) : store → reply * store :=
  run_handler "Gagal membuat pemasukan" (createPemasukan b).

(** [SUM(jumlah_bayar)] in hundredths. *)
Definition sum_jumlah_bayar (t : table pemasukan) : Z :=
  foldr Z.add 0 (map (λ p, p_jumlah_bayar p.2) (tbl_list t)).

(** [exports.countPemasukan]: [{ success: true, total: total || 0 }]. *)
Definition countPemasukan : M reply :=
  let* total := view (λ s, JsonNum (sum_jumlah_bayar (st_pemasukan s) # 100)) in
  ret (mk_reply 200 (JsonObj [("success", JsonBool true); ("total", total)])).

Definition countPemasukan_handler : store → reply * store :=
  run_handler "Gagal menghitung total pemasukan" countPemasukan.

(** [exports.getAllPemasukan] *)
Definition getAllPemasukan : M reply :=
  list_all (λ s, JsonArr (map (λ p, pemasukan_view s p.1) (tbl_list (st_pemasukan s)))).

Definition getAllPemasukan_handler : store → reply * store :=
  run_handler "Gagal mengambil daftar pemasukan" getAllPemasukan.

(** [exports.getPemasukanById] *)
Definition getPemasukanById (id : jsval) : M reply :=
  get_by_id st_pemasukan id pemasukan_view "Pemasukan tidak ditemukan".

Definition getPemasukanById_handler (id : jsval) : store → reply * store :=
  run_handler "Gagal mengambil data pemasukan" (getPemasukanById id).

(** [exports.updatePemasukan] *)
Definition updatePemasukan (id : jsval) (b : req_body) : M reply :=
  let tagihan_id := field b "tagihan_id" in
  let jumlah_bayar := field b "jumlah_bayar" in
  let tgl_bayar := field b "tgl_bayar" in
  let metode_pembayaran := field b "metode_pembayaran" in
  let* found := find_pk st_pemasukan id in
  match found with
  | None => halt (fail_reply 404 "Pemasukan tidak ditemukan")
  | Some p =>
    guard (truthy tgl_bayar && negb (regex_test date_regex tgl_bayar))
          (fail_reply 400 "Format tanggal harus YYYY-MM-DD") ;;
    let updatedTgl := if truthy tgl_bayar then tgl_bayar else JStr (p_tgl_bayar p) in
    guard (negb (is_undefined jumlah_bayar) && negb (num_positive (parseFloat jumlah_bayar)))
          (fail_reply 400 "jumlah_bayar harus berupa angka positif") ;;
    let updatedJumlah := if is_undefined jumlah_bayar then decimal_val (p_jumlah_bayar p)
                         else JNum (parseFloat jumlah_bayar) in
    let tagihan_new := negb (is_undefined tagihan_id)
                       && negb (strict_eq tagihan_id (JInt (p_tagihan_id p))) in
    (if tagihan_new then
       let* t := find_pk st_tagihan tagihan_id in
       guard (absent t) (fail_reply 400 "tagihan_id tidak ditemukan")
     else ret tt) ;;
    let updatedTagihan := if tagihan_new then tagihan_id else JInt (p_tagihan_id p) in
    let* k := col (pk_of id) in
    let* tid := col (int_col updatedTagihan) in
    let* c := col (decimal_col updatedJumlah) in
    let* tgl := col (date_col updatedTgl) in
    let* metode := if truthy metode_pembayaran then col (varchar_col 50 metode_pembayaran)
                   else ret (p_metode_pembayaran p) in
    save k (mk_pemasukan tid c tgl metode (p_keterangan p)) ;;
    let* v := view (λ s, pemasukan_view s k) in
    ret (ok_reply 200 "Pemasukan berhasil diperbarui" v)
  end.

Definition updatePemasukan_handler (id : jsval) (b : req_body) : store → reply * store :=
  run_handler "Gagal memperbarui pemasukan" (updatePemasukan id b).

(** [exports.deletePemasukan] *)
Definition deletePemasukan (id : jsval) : M reply :=
  delete_by_id (A:=pemasukan) id "Pemasukan berhasil dihapus"
    "Pemasukan tidak ditemukan".

Definition deletePemasukan_handler (id : jsval) : store → reply * store :=
  run_handler "Gagal menghapus pemasukan" (deletePemasukan id).

End PemasukanController.
