(* ===== verification/Upload.v ===== *)
(** * Evidence uploads: [middleware/UploadMiddleware.js]

    [uploadFile(field)] runs multer's [upload.single(field)] before the
    expenditure handlers.  A file in another field, of a type outside the
    allow-list, or over 20 MiB is refused with a 400 whose message is the
    error's; an accepted file is written to [public/document] under the
    name [field-<Date.now()>-<round(random*1e9)><ext>] before the handler
    runs.  The clock and the random draw are inputs of the model. *)

From stdpp Require Import base gmap strings list.
From Stdlib Require Import ZArith Ascii String.
From S2P Require Import Prelude JsValue Store Handler.

Local Open Scope Z_scope.
Local Open Scope kape_scope.

(** The multipart file part multer parses. *)
Record upload := mk_upload {
  up_fieldname : string; up_originalname : string; up_mimetype : string; up_size : Z }.

Definition allowedTypes : list string :=
  ["image/jpeg"; "image/png"; "application/pdf"; "application/msword";
   "application/vnd.openxmlformats-officedocument.wordprocessingml.document"].

Definition max_file_size : Z := 20 * 1024 * 1024.

(** The part of a path after its last [/]. *)
Fixpoint basename_rev (l acc : list ascii) : list ascii :=
  match l with
  | [] => acc
  | c :: r => if Ascii.eqb c "/" then basename_rev r [] else basename_rev r (acc ++ [c])
  end.

(** [path.extname]: from the last [.] of the base name, unless every
    character before that dot is a dot. *)
Fixpoint last_dot (l : list ascii) (i : nat) (best : option nat) : option nat :=
  match l with
  | [] => best
  | c :: r => last_dot r (S i) (if Ascii.eqb c "." then Some i else best)
  end.

Definition extname (p : string) : string :=
  let b := basename_rev (list_ascii_of_string p) [] in
  match last_dot b 0 None with
  | Some i =>
      if forallb (λ c, Ascii.eqb c ".") (take i b) then ""
      else string_of_list_ascii (drop i b)
  | None => ""
  end%string.

(** [storage.filename] *)
Definition upload_filename (f : upload) (now rnd : Z) : string :=
  (up_fieldname f ++ "-" ++ z_to_dec now ++ "-" ++ z_to_dec rnd ++ extname (up_originalname f))%string.

(** [fileFilter] *)
Definition fileFilter (f : upload) : bool := existsb (String.eqb (up_mimetype f)) allowedTypes.

(** [uploadFile(fieldName)]: the name multer stored the file under
    ([req.file.filename]), if a file was sent. *)
Definition uploadFile (fieldName : string) (file : option upload) (now rnd : Z)
    : M (option string) :=
  match file with
  | None => ret None
  | Some f =>
      guard (negb (String.eqb (up_fieldname f) fieldName)) (fail_reply 400 "Unexpected field") ;;
      guard (negb (fileFilter f)) (fail_reply 400 "Jenis file tidak didukung") ;;
      guard (max_file_size <? up_size f) (fail_reply 400 "File too large") ;;
      let name := upload_filename f now rnd in
      (λ s, (Next (Some name), set_files (λ fs, {[ ("/document/" ++ name)%string ]} ∪ fs) s))
  end.

(** [if (fs.existsSync(p)) fs.unlinkSync(p)] on [public + path]. *)
Definition unlink_if_exists (path : string) : M unit :=
  λ s, (Next tt, set_files (λ fs, fs ∖ {[ path ]}) s).
