(* ===== verification/Frame.v ===== *)
(** * What a handler may change

    Three judgements on a computation [m : M A], each with its rules for
    the monad's combinators, so that a handler's property is proved by
    following its code:
    - [frames R m]: every run relates the store before to the store after
      by the preorder [R] (for [R = eq]: [m] only reads);
    - [nohalt m]: [m] never answers early;
    - [clean m]: when [m] answers early, it has written nothing. *)

From stdpp Require Import base gmap strings list.
From Stdlib Require Import ZArith QArith Ascii String.
From S2P Require Import Prelude JsValue Schema Store Erd Handler Upload.

Local Open Scope Z_scope.
Local Open Scope kape_scope.

Create HintDb frames discriminated.

Section frames.
Context (R : relation store) `{!PreOrder R}.

Definition frames {A} (m : M A) : Prop := ∀ s, R s (snd (m s)).

Lemma frames_ret {A} (a : A) : frames (ret a).
Proof. intros s. cbn. reflexivity. Qed.
Lemma frames_halt {A} r : frames (halt (A:=A) r).
Proof. intros s. cbn. reflexivity. Qed.
Lemma frames_throw {A} : frames (throw (A:=A)).
Proof. intros s. cbn. reflexivity. Qed.
Lemma frames_read {A} (f : store → A) : frames (read f).
Proof. intros s. cbn. reflexivity. Qed.
Lemma frames_guard c r : frames (guard c r).
Proof. destruct c; [apply frames_halt | apply frames_ret]. Qed.
Lemma frames_col {A} (o : option A) : frames (col o).
Proof. destruct o; [apply frames_ret | apply frames_throw]. Qed.

Lemma frames_bind {A B} (m : M A) (k : A → M B) :
  frames m → (∀ a, frames (k a)) → frames (bind m k).
Proof.
  intros Hm Hk s. unfold bind. specialize (Hm s).
  destruct (m s) as [[a| |] s1]; cbn in *; [|done|done]. etrans; [exact Hm | apply Hk].
Qed.

Lemma frames_try_ignore (m : M unit) : frames m → frames (try_ignore m).
Proof. intros Hm s. specialize (Hm s). unfold try_ignore. by destruct (m s) as [[]]. Qed.

Lemma run_handler_frames msg m s : frames m → R s (snd (run_handler msg m s)).
Proof. intros Hm. specialize (Hm s). unfold run_handler. by destruct (m s) as [[]]. Qed.

End frames.

#[export] Hint Resolve frames_ret frames_halt frames_throw frames_read frames_guard frames_col : frames.

Definition nohalt {A} (m : M A) : Prop := ∀ s, match fst (m s) with Halt _ => False | _ => True end.

Lemma nohalt_ret {A} (a : A) : nohalt (ret a).
Proof. done. Qed.
Lemma nohalt_throw {A} : nohalt (throw (A:=A)).
Proof. done. Qed.
Lemma nohalt_read {A} (f : store → A) : nohalt (read f).
Proof. done. Qed.
Lemma nohalt_col {A} (o : option A) : nohalt (col o).
Proof. by destruct o. Qed.
Lemma nohalt_create {A} `{Table A} (x : A) : nohalt (create x).
Proof. intros s. unfold create. destruct (trefs s x); [|done]. by destruct (tbl_insert x (tsel s)). Qed.
Lemma nohalt_save {A} `{Table A} k (x : A) : nohalt (save k x).
Proof. intros s. unfold save. by repeat destruct (_ : bool). Qed.
Lemma nohalt_destroy {A} `{Table A} k : nohalt (destroy (A:=A) k).
Proof. intros s. unfold destroy. by destruct (tdelete k s). Qed.
Lemma nohalt_unlink p : nohalt (unlink_if_exists p).
Proof. done. Qed.
Lemma nohalt_try_ignore m : nohalt m → nohalt (try_ignore m).
Proof. intros Hm s. specialize (Hm s). unfold try_ignore. by destruct (m s) as [[]]. Qed.
Lemma nohalt_bind {A B} (m : M A) (k : A → M B) : nohalt m → (∀ a, nohalt (k a)) → nohalt (bind m k).
Proof.
  intros Hm Hk s. specialize (Hm s). unfold bind. destruct (m s) as [[a| |] s1]; cbn in *; done || apply Hk.
Qed.

#[export] Hint Resolve nohalt_ret nohalt_throw nohalt_read nohalt_col nohalt_create nohalt_save
  nohalt_destroy nohalt_unlink : frames.

Definition clean {A} (m : M A) : Prop := ∀ s r s', m s = (Halt r, s') → s' = s.

Lemma clean_frames {A} (m : M A) : frames eq m → clean m.
Proof. intros Hm s r s' E. specialize (Hm s). rewrite E in Hm. done. Qed.
Lemma clean_nohalt {A} (m : M A) : nohalt m → clean m.
Proof. intros Hm s r s' E. specialize (Hm s). rewrite E in Hm. done. Qed.

(** Reading, then answering early: nothing is written. *)
Lemma clean_bind_read {A B} (m : M A) (k : A → M B) : frames eq m → (∀ a, clean (k a)) → clean (bind m k).
Proof.
  intros Hm Hk s r s' E. specialize (Hm s). unfold bind in E.
  destruct (m s) as [[a| |] s1] eqn:Em; cbn in *; subst; [by eapply Hk| by invc E|done].
Qed.

(** Writing only once no early answer can follow. *)
Lemma clean_bind_final {A B} (m : M A) (k : A → M B) : clean m → (∀ a, nohalt (k a)) → clean (bind m k).
Proof.
  intros Hm Hk s r s' E. unfold bind in E. destruct (m s) as [[a| |] s1] eqn:Em.
  - specialize (Hk a s1). rewrite E in Hk. done.
  - invc E. by eapply Hm.
  - done.
Qed.

#[export] Hint Resolve clean_frames clean_nohalt : frames.
#[export] Hint Extern 1 (PreOrder _) => typeclasses eauto : frames.

(** ** Following a handler's code *)

Ltac head_of t := lazymatch t with ?f _ => head_of f | _ => t end.

(** Unfold the function a goal's computation is an application of. *)
Ltac unfold_head m :=
  let h := head_of m in
  lazymatch h with
  | bind => fail | ret => fail | halt => fail | throw => fail | read => fail
  | _ => progress (unfold h); cbv zeta
  end.

Ltac frames_tac :=
  repeat match goal with
  | |- frames _ (bind _ _) => apply frames_bind; [typeclasses eauto| |intros ?]
  | |- frames _ (try_ignore _) => apply frames_try_ignore
  | |- frames _ (if ?c then _ else _) => destruct c
  | |- frames _ (match ?x with _ => _ end) => destruct x
  | |- frames _ _ => solve [eauto with frames]
  | |- frames _ ?m => unfold_head m
  end.

Ltac nohalt_tac :=
  repeat match goal with
  | |- nohalt (bind _ _) => apply nohalt_bind; [|intros ?]
  | |- nohalt (try_ignore _) => apply nohalt_try_ignore
  | |- nohalt (if ?c then _ else _) => destruct c
  | |- nohalt (match ?x with _ => _ end) => destruct x
  | |- nohalt _ => solve [eauto with frames]
  | |- nohalt ?m => unfold_head m
  end.

Ltac clean_tac :=
  repeat match goal with
  | |- clean (bind _ _) =>
      first [ apply clean_bind_read; [solve [frames_tac] | intros ?]
            | apply clean_bind_final; [| intros ?; solve [nohalt_tac]] ]
  | |- clean (if ?c then _ else _) => destruct c
  | |- clean (match ?x with _ => _ end) => destruct x
  | |- clean _ => solve [apply clean_frames; frames_tac | apply clean_nohalt; nohalt_tac]
  | |- clean ?m => unfold_head m
  end.

(** ** What a computation answers with when it runs to the end *)

Definition answers {A} (P : A → Prop) (m : M A) : Prop := ∀ s a s', m s = (Next a, s') → P a.

Lemma answers_ret {A} (P : A → Prop) a : P a → answers P (ret a).
Proof. intros HP s a' s' E. by invc E. Qed.
Lemma answers_halt {A} (P : A → Prop) r : answers P (halt r).
Proof. done. Qed.
Lemma answers_throw {A} (P : A → Prop) : answers P throw.
Proof. done. Qed.
Lemma answers_bind {A B} (P : B → Prop) (m : M A) (k : A → M B) :
  (∀ a, answers P (k a)) → answers P (bind m k).
Proof. intros Hk s b s' E. unfold bind in E. destruct (m s) as [[a| |] s1]; [by eapply Hk|done|done]. Qed.

Ltac answers_tac :=
  repeat match goal with
  | |- answers _ (bind _ _) => apply answers_bind; intros ?
  | |- answers _ (ret _) => apply answers_ret; cbn; lia
  | |- answers _ (halt _) => apply answers_halt
  | |- answers _ throw => apply answers_throw
  | |- answers _ (if ?c then _ else _) => destruct c
  | |- answers _ (match ?x with _ => _ end) => destruct x
  | |- answers _ ?m => unfold_head m
  end.

(** A controller refuses cleanly: its early answers write nothing, and
    it answers a success code when it runs to the end. *)
Definition refuses_cleanly (m : M reply) : Prop := clean m ∧ answers (λ r, code r < 400) m.

Ltac refuses_tac := split; [clean_tac | answers_tac].

(** A request answered with a client error has left the store as it was. *)
Definition client_error_clean (h : store → reply * store) : Prop :=
  ∀ s, 400 <= code (fst (h s)) < 500 → snd (h s) = s.

Lemma run_handler_client_error msg m : refuses_cleanly m → client_error_clean (run_handler msg m).
Proof.
  intros [Hc Ha] s Hcode. unfold run_handler in *. destruct (m s) as [[a|r|] s'] eqn:E; cbn in *.
  - specialize (Ha s a s' E). cbn in Ha. lia.
  - by eapply Hc.
  - lia.
Qed.

(** ** What a computation answers early with *)

Definition halts_with {A} (P : reply → Prop) (m : M A) : Prop := ∀ s r s', m s = (Halt r, s') → P r.

Lemma halts_with_bind {A B} P (m : M A) (k : A → M B) :
  halts_with P m → (∀ a, halts_with P (k a)) → halts_with P (bind m k).
Proof.
  intros Hm Hk s r s' E. unfold bind in E. destruct (m s) as [[a|r'|] s1] eqn:Em.
  - by eapply Hk. - invc E. by eapply Hm. - done.
Qed.
Lemma halts_with_nohalt {A} P (m : M A) : nohalt m → halts_with P m.
Proof. intros Hm s r s' E. specialize (Hm s). by rewrite E in Hm. Qed.
Lemma halts_with_halt {A} (P : reply → Prop) r : P r → halts_with P (halt (A:=A) r).
Proof. intros Hr s r' s' E. by invc E. Qed.
Lemma halts_with_guard P c r : P r → halts_with P (guard c r).
Proof. destruct c; [by apply halts_with_halt | intros _ s ?? E; by invc E]. Qed.

Ltac halts_tac :=
  repeat match goal with
  | |- halts_with _ (bind _ _) => apply halts_with_bind; [|intros ?]
  | |- halts_with _ (halt _) => apply halts_with_halt; cbn; lia
  | |- halts_with _ (guard _ _) => apply halts_with_guard; cbn; lia
  | |- halts_with _ (if ?c then _ else _) => destruct c
  | |- halts_with _ (match ?x with _ => _ end) => destruct x
  | |- halts_with _ _ => apply halts_with_nohalt; solve [nohalt_tac]
  | |- halts_with _ ?m => unfold_head m
  end.

(** A successful answer came from a run to the end. *)
Lemma run_handler_success msg m s r s' :
  halts_with (λ r, 400 <= code r) m → run_handler msg m s = (r, s') → code r < 400 →
  m s = (Next r, s').
Proof.
  intros Hh E Hc. unfold run_handler in E.
  destruct (m s) as [[a|r'|] s1] eqn:Em; injection E as <- <-; [done| |].
  - specialize (Hh s r' s1 Em). cbv beta in Hh. lia.
  - cbn in Hc. lia.
Qed.

(** ** The run to the end, step by step

    [nexts P m Q]: from a store satisfying [P], a run of [m] to the end
    answers [a] in a store satisfying [Q a].  Each rule below gives the
    strongest such [Q], so a handler is followed line by line and the facts
    its guards established accumulate. *)

Definition nexts {A} (P : store → Prop) (m : M A) (Q : A → store → Prop) : Prop :=
  ∀ s a s', P s → m s = (Next a, s') → Q a s'.

Section nexts.
Context (P : store → Prop).

Lemma nexts_bind {A B} (m : M A) (k : A → M B) Q R :
  nexts P m Q → (∀ a, nexts (Q a) (k a) R) → nexts P (bind m k) R.
Proof.
  intros Hm Hk s b s' HP E. unfold bind in E. destruct (m s) as [[a| |] s1] eqn:Em; [|done|done].
  eapply Hk; [|exact E]. by eapply Hm.
Qed.
(** The same, when the run's postcondition is still to be computed: it
    may mention the intermediate value. *)
Lemma nexts_bind_sp {A B} (m : M A) (k : A → M B) Q (R : A → B → store → Prop) :
  nexts P m Q → (∀ a, nexts (Q a) (k a) (R a)) → nexts P (bind m k) (λ b s, ∃ a, R a b s).
Proof.
  intros Hm Hk s b s' HP E. unfold bind in E. destruct (m s) as [[a| |] s1] eqn:Em; [|done|done].
  exists a. eapply Hk; [|exact E]. by eapply Hm.
Qed.
Lemma nexts_ret {A} (a : A) : nexts P (ret a) (λ b s, P s ∧ b = a).
Proof. intros s b s' HP E. by invc E. Qed.
Lemma nexts_read {A} (f : store → A) : nexts P (read f) (λ a s, P s ∧ a = f s).
Proof. intros s b s' HP E. by invc E. Qed.
Lemma nexts_guard c r : nexts P (guard c r) (λ _ s, P s ∧ c = false).
Proof. intros s b s' HP E. destruct c; by invc E. Qed.
Lemma nexts_col {A} (o : option A) : nexts P (col o) (λ a s, P s ∧ o = Some a).
Proof. intros s b s' HP E. destruct o; by invc E. Qed.
Lemma nexts_halt {A} r (Q : A → store → Prop) : nexts P (halt r) Q.
Proof. done. Qed.
Lemma nexts_throw {A} (Q : A → store → Prop) : nexts P throw Q.
Proof. done. Qed.
Lemma nexts_save {A} `{Table A} k (x : A) :
  nexts P (save k x) (λ _ s', ∃ s, P s ∧
    ((has_row (tsel s) k = true ∧ trefs s x = true ∧ s' = tset (tbl_put k x) s) ∨
     (has_row (tsel s) k = false ∧ s' = s))).
Proof.
  intros s b s' HP E. unfold save in E. exists s. split; [done|].
  destruct (has_row _ k) eqn:?; [destruct (trefs s x) eqn:?|]; invc E; auto.
Qed.
Lemma nexts_create {A} `{Table A} (x : A) :
  nexts P (create x) (λ k s', ∃ s, P s ∧ trefs s x = true ∧ k = next_id (tsel s) ∧
    s' = tset (λ _, snd (tbl_insert x (tsel s))) s).
Proof.
  intros s b s' HP E. unfold create in E. exists s. destruct (trefs s x) eqn:?; [|done]. by invc E.
Qed.
Lemma nexts_try_ignore (m : M unit) : nexts P (try_ignore m) (λ _ s', ∃ s, P s ∧ s' = snd (m s)).
Proof. intros s b s' HP E. unfold try_ignore in E. exists s. by destruct (m s) as [[]]; invc E. Qed.
Lemma nexts_weaken {A} (m : M A) (P' : store → Prop) Q : (∀ s, P s → P' s) → nexts P' m Q → nexts P m Q.
Proof. intros HP Hm s a s' Hs E. by eapply Hm; [apply HP|]. Qed.

Lemma nexts_conseq {A} (m : M A) Q Q' : nexts P m Q' → (∀ a s, Q' a s → Q a s) → nexts P m Q.
Proof. intros Hm HQ s a s' HP E. apply HQ. by eapply Hm. Qed.

Lemma nexts_if {A} c (m1 m2 : M A) Q1 Q2 :
  nexts (λ s, P s ∧ c = true) m1 Q1 → nexts (λ s, P s ∧ c = false) m2 Q2 →
  nexts P (if c then m1 else m2) (λ a s, Q1 a s ∨ Q2 a s).
Proof. intros H1 H2 s a s' HP E. destruct c; [left; eapply H1 | right; eapply H2]; eauto. Qed.

Lemma nexts_option {A B} (o : option B) (f : B → M A) (g : M A) Q1 Q2 :
  (∀ x, nexts (λ s, P s ∧ o = Some x) (f x) (Q1 x)) → nexts (λ s, P s ∧ o = None) g Q2 →
  nexts P (match o with Some x => f x | None => g end) (λ a s, (∃ x, Q1 x a s) ∨ Q2 a s).
Proof. intros H1 H2 s a s' HP E. destruct o as [x|]; [left; exists x; eapply H1 | right; eapply H2]; eauto. Qed.

End nexts.

Ltac nexts_leaf :=
  lazymatch goal with
  | |- nexts _ (ret _) _ => apply nexts_ret
  | |- nexts _ (read _) _ => apply nexts_read
  | |- nexts _ (guard _ _) _ => apply nexts_guard
  | |- nexts _ (col _) _ => apply nexts_col
  | |- nexts _ (save _ _) _ => apply nexts_save
  | |- nexts _ (create _) _ => apply nexts_create
  | |- nexts _ (try_ignore _) _ => apply nexts_try_ignore
  end.

(** A postcondition still to be computed: an evar, maybe applied to the
    values bound so far. *)
Ltac is_open Q := lazymatch Q with ?E _ => is_open E | _ => is_evar Q end.

Ltac nexts_tac :=
  repeat match goal with
  | |- nexts _ (bind _ _) ?Q => is_open Q; eapply nexts_bind_sp; [|intros ?]
  | |- nexts _ (bind _ _) _ => eapply nexts_bind; [|intros ?]
  | |- nexts _ (halt _) _ => apply nexts_halt
  | |- nexts _ throw _ => apply nexts_throw
  | |- nexts _ _ ?Q => is_open Q; nexts_leaf
  | |- nexts _ _ ?Q => eapply nexts_conseq; [nexts_leaf|]
  | |- nexts _ (if _ then _ else _) ?Q => is_open Q; apply nexts_if
  | |- nexts _ (match _ with Some _ => _ | None => _ end) ?Q => is_open Q; apply nexts_option; [intros ?|]
  | |- nexts _ (if ?c then _ else _) _ => destruct c eqn:?
  | |- nexts _ (match ?x with _ => _ end) _ => destruct x eqn:?
  | |- nexts _ ?m _ => unfold_head m
  end.

