(* ===== verification/Pengeluaran.v ===== *)
(** * Expenditures: [controllers/PengeluaranController.js]

    An expenditure references a catalogue entry of kind [pengeluaran] and a
    user that has a staff profile, and may carry an evidence file that the
    upload middleware already wrote.  [req_file] is [req.file.filename]
    after [Upload.uploadFile].  Updating with a new file unlinks the old
    one before the row is written; deleting unlinks the row's file. *)

From stdpp Require Import base gmap strings list.
From Stdlib Require Import ZArith QArith Ascii String.
From S2P Require Import Prelude JsValue Validators Schema Store Erd Handler Views Upload.

Local Open Scope Z_scope.
Local Open Scope kape_scope.

Module PengeluaranController.

Definition msg_biaya : string := "biaya_id tidak valid atau bukan tipe pengeluaran".
Definition msg_guru : string := "User (guru) tidak valid".

(** [!mb || mb.jenis_biaya !== 'pengeluaran'] *)
Definition bad_biaya (mb : option master_biaya) : bool :=
  match mb with Some x => bool_decide (b_jenis_biaya x ≠ JPengeluaran) | None => true end.

(** [User.findByPk(id, { include: karyawan })]: the user's staff profile. *)
Definition user_karyawan (s : store) (u : user) : option karyawan :=
  match u_karyawan_id u with Some kid => tbl_find kid (st_karyawan s) | None => None end.

(** [!guruUser || !guruUser.karyawan] *)
Definition find_guru (v : jsval) : M bool :=
  let* u := find_pk st_user v in
  read (λ s, match u with Some u => absent (user_karyawan s u) | None => true end).

Definition evidence_path (filename : string) : string := ("/document/" ++ filename)%string.

(** The include list of the list and create queries. *)
Definition pengeluaran_view (s : store) (k : Z) : json :=
  opt_json (λ g, JsonObj (pengeluaran_fields k g ++
    [("user", opt_json (λ uid, opt_json (λ u, JsonObj (user_fields uid u ++
        [("karyawan", opt_json (λ kr, JsonObj [("nama", JsonStr (kr_nama kr));
                                              ("posisi", JsonStr (kr_posisi kr))])
                                (user_karyawan s u))])) (tbl_find uid (st_user s)))
               (g_user_id g));
     ("masterBiaya", opt_json (λ bid, opt_json (λ b, JsonObj
        [("nama_biaya", JsonStr (b_nama_biaya b));
         ("jenis_biaya", JsonStr (jenis_str (b_jenis_biaya b)))]) (tbl_find bid (st_master_biaya s)))
        (g_biaya_id g))]))
    (tbl_find k (st_pengeluaran s)).

(** [exports.createPengeluaran] *)
Definition createPengeluaran (b : req_body) (req_file : option string) : M reply :=
  let deskripsi := field b "deskripsi" in
  let jumlah := field b "jumlah" in
  let tgl_pengeluaran := field b "tgl_pengeluaran" in
  let biaya_id := field b "biaya_id" in
  let guruId := field b "user_id" in
  guard (negb (truthy deskripsi) || is_undefined jumlah || negb (truthy tgl_pengeluaran)
         || negb (truthy biaya_id) || negb (truthy guruId))
        (fail_reply 400 "deskripsi, jumlah, tgl_pengeluaran, biaya_id, dan user_id (guru) wajib diisi") ;;
  guard (negb (regex_test date_regex tgl_pengeluaran))
        (fail_reply 400 "Format tanggal harus YYYY-MM-DD") ;;
  let jumlahFloat := parseFloat jumlah in
  guard (negb (num_positive jumlahFloat)) (fail_reply 400 "jumlah harus berupa angka positif") ;;
  let* mb := find_pk st_master_biaya biaya_id in
  guard (bad_biaya mb) (fail_reply 400 msg_biaya) ;;
  let* bad := find_guru guruId in
  guard bad (fail_reply 400 msg_guru) ;;
  let buktiPath := match req_file with Some fn => JStr (evidence_path fn) | None => JNull end in
  let* desk := col (text_col deskripsi) in
  let* c := col (decimal_col (JNum jumlahFloat)) in
  let* tgl := col (date_col tgl_pengeluaran) in
  let* bid := col (int_col (JNum (parseInt biaya_id))) in
  let* uid := col (int_col (JNum (parseInt guruId))) in
  let* bukti := col (opt_varchar_col 255 buktiPath) in
  let* k := create (mk_pengeluaran desk c tgl bukti (Some bid) (Some uid)) in
  let* v := view (λ s, pengeluaran_view s k) in
  ret (ok_reply 201 "Pengeluaran berhasil dibuat" v).

Definition createPengeluaran_handler (b : req_body) (req_file : option string)
    : store → reply * store :=
  run_handler "Gagal membuat pengeluaran" (createPengeluaran b req_file).

(** [exports.updatePengeluaran] *)
Definition updatePengeluaran (id : jsval) (b : req_body) (req_file : option string) : M reply :=
  let deskripsi := field b "deskripsi" in
  let jumlah := field b "jumlah" in
  let tgl_pengeluaran := field b "tgl_pengeluaran" in
  let newBiayaId := field b "biaya_id" in
  let newGuruId := field b "user_id" in
  let* found := find_pk st_pengeluaran id in
  match found with
  | None => halt (fail_reply 404 "Pengeluaran tidak ditemukan")
  | Some g =>
    (if truthy newBiayaId then
       let* mb := find_pk st_master_biaya newBiayaId in guard (bad_biaya mb) (fail_reply 400 msg_biaya)
     else ret tt) ;;
    (if truthy newGuruId then
       let* bad := find_guru newGuruId in guard bad (fail_reply 400 msg_guru)
     else ret tt) ;;
    guard (negb (is_undefined jumlah) && negb (num_positive (parseFloat jumlah)))
          (fail_reply 400 "jumlah harus berupa angka positif") ;;
    let updatedJumlah := if is_undefined jumlah then decimal_val (g_jumlah g)
                         else JNum (parseFloat jumlah) in
    guard (truthy tgl_pengeluaran && negb (regex_test date_regex tgl_pengeluaran))
          (fail_reply 400 "Format tanggal invalid") ;;
    let* bukti :=
      match req_file with
      | Some fn =>
          (match g_bukti_pengeluaran g with Some old => unlink_if_exists old | None => ret tt end) ;;
          col (opt_varchar_col 255 (JStr (evidence_path fn)))
      | None => ret (g_bukti_pengeluaran g)
      end in
    let* k := col (pk_of id) in
    let* desk := if truthy deskripsi then col (text_col deskripsi) else ret (g_deskripsi g) in
    let* c := col (decimal_col updatedJumlah) in
    let* tgl := if truthy tgl_pengeluaran then col (date_col tgl_pengeluaran)
                else ret (g_tgl_pengeluaran g) in
    let* bid := if truthy newBiayaId then col (Some <$> int_col (JNum (parseInt newBiayaId)))
                else ret (g_biaya_id g) in
    let* uid := if truthy newGuruId then col (Some <$> int_col (JNum (parseInt newGuruId)))
                else ret (g_user_id g) in
    save k (mk_pengeluaran desk c tgl bukti bid uid) ;;
    let* v := view (λ s, pengeluaran_view s k) in
    ret (ok_reply 200 "Pengeluaran berhasil di‐update" v)
  end.

Definition updatePengeluaran_handler (id : jsval) (b : req_body) (req_file : option string)
    : store → reply * store :=
  run_handler "Gagal update pengeluaran" (updatePengeluaran id b req_file).

(** [SUM(jumlah)] in hundredths. *)
Definition sum_jumlah (t : table pengeluaran) : Z :=
  foldr Z.add 0 (map (λ p, g_jumlah p.2) (tbl_list t)).

(** [exports.countPengeluaran] *)
Definition countPengeluaran : M reply :=
  let* total := view (λ s, JsonNum (sum_jumlah (st_pengeluaran s) # 100)) in
  ret (mk_reply 200 (JsonObj [("success", JsonBool true); ("total", total)])).

Definition countPengeluaran_handler : store → reply * store :=
  run_handler "Gagal menghitung total pengeluaran" countPengeluaran.

(** [exports.getAllPengeluaran] *)
Definition getAllPengeluaran : M reply :=
  list_all (λ s, JsonArr (map (λ p, pengeluaran_view s p.1) (tbl_list (st_pengeluaran s)))).

Definition getAllPengeluaran_handler : store → reply * store :=
  run_handler "Gagal mengambil data" getAllPengeluaran.

(** [Pengeluaran.findByPk(id, { include: [{ model: User, as: 'user' }] })]:
    the whole user row, its [password] column included. *)
Definition pengeluaran_user_view (s : store) (k : Z) : json :=
  opt_json (λ g, JsonObj (pengeluaran_fields k g ++
    [("user", opt_json (λ uid, include_row user_fields (st_user s) uid) (g_user_id g))]))
    (tbl_find k (st_pengeluaran s)).

(** [exports.getPengeluaranById] *)
Definition getPengeluaranById (id : jsval) : M reply :=
  get_by_id st_pengeluaran id pengeluaran_user_view "Data tidak ditemukan".

Definition getPengeluaranById_handler (id : jsval) : store → reply * store :=
  run_handler "Gagal mengambil detail" (getPengeluaranById id).

(** [exports.deletePengeluaran] *)
Definition deletePengeluaran (id : jsval) : M reply :=
  let* found := find_pk st_pengeluaran id in
  match found, pk_of id with
  | Some g, Some k =>
      (match g_bukti_pengeluaran g with Some p => unlink_if_exists p | None => ret tt end) ;;
      destroy (A:=pengeluaran) k ;;
      ret (msg_reply "Data terhapus")
  | _, _ => halt (fail_reply 404 "Data tidak ditemukan")
  end.

Definition deletePengeluaran_handler (id : jsval) : store → reply * store :=
  run_handler "Gagal menghapus" (deletePengeluaran id).

End PengeluaranController.
