(* ===== verification/Siswa.v ===== *)
(** * Students: [controllers/SiswaController.js]

    A student belongs to a class and to a parent record; both are checked to
    exist on create, and on update when they change.  The partial update
    keeps a field when its request value is falsy ([nama || siswa.nama]). *)

From stdpp Require Import base gmap strings list.
From Stdlib Require Import ZArith QArith Ascii String.
From S2P Require Import Prelude JsValue Validators Schema Store Erd Handler Views.

Local Open Scope Z_scope.
Local Open Scope kape_scope.

Module SiswaController.

Definition msg_jk : string := "Jenis kelamin harus L (Laki-laki) atau P (Perempuan)".

(** [include: [{ model: OrangTua, as: 'orangTua' }, { model: Kelas, as: 'kelas' }]] *)
Definition siswa_view (s : store) (k : Z) : json :=
  opt_json (λ x, JsonObj (siswa_fields k x ++
    [("orangTua", include_row orang_tua_fields (st_ortu s) (s_ortu_id x));
     ("kelas", include_row kelas_fields (st_kelas s) (s_kelas_id x))]))
    (tbl_find k (st_siswa s)).

(** [exports.createSiswa] *)
Definition createSiswa (b : req_body) : M reply :=
  let nama := field b "nama" in
  let tgl_lahir := field b "tgl_lahir" in
  let jk := field b "jk" in
  let alamat := field b "alamat" in
  let kelas_id := field b "kelas_id" in
  let ortu_id := field b "ortu_id" in
  guard (negb (truthy nama) || negb (truthy tgl_lahir) || negb (truthy jk) || negb (truthy alamat)
         || negb (truthy kelas_id) || negb (truthy ortu_id))
        (fail_reply 400 "Semua field wajib diisi") ;;
  guard (negb (includes_str jk_values jk)) (fail_reply 400 msg_jk) ;;
  guard (negb (regex_test date_regex tgl_lahir))
        (fail_reply 400 "Format tanggal lahir harus YYYY-MM-DD") ;;
  let* kelas := find_pk st_kelas kelas_id in
  guard (absent kelas) (fail_reply 400 "kelas_id tidak ditemukan") ;;
  let* ortu := find_pk st_ortu ortu_id in
  guard (absent ortu) (fail_reply 400 "ortu_id tidak ditemukan") ;;
  let* n := col (varchar_col 100 nama) in
  let* tgl := col (date_col tgl_lahir) in
  let* j := col (jk_of jk) in
  let* a := col (text_col alamat) in
  let* kid := col (int_col kelas_id) in
  let* oid := col (int_col ortu_id) in
  let* k := create (mk_siswa n tgl j a kid oid) in
  let* v := view (λ s, siswa_view s k) in
  ret (ok_reply 201 "Siswa berhasil dibuat" v).

Definition createSiswa_handler (b : req_body) : store → reply * store :=
  run_handler "Gagal membuat siswa" (createSiswa b).

(** [exports.countSiswa]: [Siswa.count()]. *)
Definition countSiswa : M reply :=
  let* total := view (λ s, json_int (Z.of_nat (List.length (tbl_list (st_siswa s))))) in
  ret (mk_reply 200 (JsonObj [("success", JsonBool true); ("total", total)])).

Definition countSiswa_handler : store → reply * store :=
  run_handler "Gagal menghitung total siswa" countSiswa.

(** [exports.getAllSiswa]: [?ortu_id=] filters on the parent. *)
Definition getAllSiswa (ortu_q : jsval) : M reply :=
  list_all (λ s, JsonArr (map (λ p, siswa_view s p.1)
    (List.filter (λ p, negb (truthy ortu_q) || bool_decide (pk_of ortu_q = Some (s_ortu_id p.2)))
                 (tbl_list (st_siswa s))))).

Definition getAllSiswa_handler (ortu_q : jsval) : store → reply * store :=
  run_handler "Gagal mengambil daftar siswa" (getAllSiswa ortu_q).

(** [exports.getSiswaById] *)
Definition getSiswaById (id : jsval) : M reply :=
  get_by_id st_siswa id siswa_view "Siswa tidak ditemukan".

Definition getSiswaById_handler (id : jsval) : store → reply * store :=
  run_handler "Gagal mengambil data siswa" (getSiswaById id).

(** [exports.updateSiswa] *)
Definition updateSiswa (id : jsval) (b : req_body) : M reply :=
  let nama := field b "nama" in
  let tgl_lahir := field b "tgl_lahir" in
  let jk := field b "jk" in
  let alamat := field b "alamat" in
  let kelas_id := field b "kelas_id" in
  let ortu_id := field b "ortu_id" in
  let* found := find_pk st_siswa id in
  match found with
  | None => halt (fail_reply 404 "Siswa tidak ditemukan")
  | Some x =>
    let jk_new := negb (is_undefined jk) && negb (strict_eq jk (JStr (jk_str (s_jk x)))) in
    guard (jk_new && negb (includes_str jk_values jk)) (fail_reply 400 msg_jk) ;;
    let tgl_new := truthy tgl_lahir && negb (strict_eq tgl_lahir (JStr (s_tgl_lahir x))) in
    guard (tgl_new && negb (regex_test date_regex tgl_lahir))
          (fail_reply 400 "Format tanggal lahir harus YYYY-MM-DD") ;;
    let kelas_new := truthy kelas_id && negb (strict_eq kelas_id (JInt (s_kelas_id x))) in
    (if kelas_new then
       let* r := find_pk st_kelas kelas_id in guard (absent r) (fail_reply 400 "kelas_id tidak ditemukan")
     else ret tt) ;;
    let ortu_new := truthy ortu_id && negb (strict_eq ortu_id (JInt (s_ortu_id x))) in
    (if ortu_new then
       let* r := find_pk st_ortu ortu_id in guard (absent r) (fail_reply 400 "ortu_id tidak ditemukan")
     else ret tt) ;;
    let* k := col (pk_of id) in
    let* n := if truthy nama then col (varchar_col 100 nama) else ret (s_nama x) in
    let* tgl := if tgl_new then col (date_col tgl_lahir) else ret (s_tgl_lahir x) in
    let* j := if jk_new then col (jk_of jk) else ret (s_jk x) in
    let* a := if truthy alamat then col (text_col alamat) else ret (s_alamat x) in
    let* kid := if kelas_new then col (int_col kelas_id) else ret (s_kelas_id x) in
    let* oid := if ortu_new then col (int_col ortu_id) else ret (s_ortu_id x) in
    save k (mk_siswa n tgl j a kid oid) ;;
    let* v := view (λ s, siswa_view s k) in
    ret (ok_reply 200 "Siswa berhasil diperbarui" v)
  end.

Definition updateSiswa_handler (id : jsval) (b : req_body) : store → reply * store :=
  run_handler "Gagal memperbarui siswa" (updateSiswa id b).

(** [exports.deleteSiswa] *)
Definition deleteSiswa (id : jsval) : M reply :=
  delete_by_id (A:=siswa) id "Siswa berhasil dihapus" "Siswa tidak ditemukan".

Definition deleteSiswa_handler (id : jsval) : store → reply * store :=
  run_handler "Gagal menghapus siswa" (deleteSiswa id).

End SiswaController.
