(* ===== verification/Kelas.v ===== *)
(** * Classes: [controllers/KelasController.js]

    A class has a capacity that must be a JSON number above zero, an
    academic year of the form [YYYY/YYYY] and a homeroom teacher that must
    exist.  The INTEGER column rounds a fractional capacity and refuses one
    beyond 32 bits, which makes the write throw. *)

From stdpp Require Import base gmap strings list.
From Stdlib Require Import ZArith QArith Ascii String.
From S2P Require Import Prelude JsValue Validators Schema Store Erd Handler Views.

Local Open Scope Z_scope.
Local Open Scope kape_scope.

Module KelasController.

Definition msg_kapasitas : string := "Kapasitas harus berupa angka positif".
Definition msg_tahun : string :=
  ("Format tahun_ajaran harus seperti " ++ dq ++ "2023/2024" ++ dq)%string.

(** [typeof kapasitas !== 'number' || kapasitas <= 0] *)
Definition bad_kapasitas (v : jsval) : bool :=
  match v with JNum n => num_le_zero n | _ => true end.

(** [include: [{ model: Karyawan, as: 'karyawan' }]] *)
Definition kelas_view (s : store) (k : Z) : json :=
  opt_json (λ x, JsonObj (kelas_fields k x ++
    [("karyawan", include_row karyawan_fields (st_karyawan s) (k_karyawan_id x))]))
    (tbl_find k (st_kelas s)).

(** [exports.createKelas] *)
Definition createKelas (b : req_body) : M reply :=
  let nama_kelas := field b "nama_kelas" in
  let kapasitas := field b "kapasitas" in
  let deskripsi := field b "deskripsi" in
  let tahun_ajaran := field b "tahun_ajaran" in
  let karyawan_id := field b "karyawan_id" in
  guard (negb (truthy nama_kelas) || negb (truthy kapasitas) || negb (truthy tahun_ajaran)
         || negb (truthy karyawan_id))
        (fail_reply 400 "nama_kelas, kapasitas, tahun_ajaran, dan karyawan_id wajib diisi") ;;
  guard (bad_kapasitas kapasitas) (fail_reply 400 msg_kapasitas) ;;
  guard (negb (regex_test tahun_ajaran_regex tahun_ajaran)) (fail_reply 400 msg_tahun) ;;
  let* kr := find_pk st_karyawan karyawan_id in
  guard (absent kr) (fail_reply 400 "karyawan_id tidak ditemukan") ;;
  let* n := col (varchar_col 50 nama_kelas) in
  let* kap := col (int_col kapasitas) in
  let* d := col (opt_text_col (if truthy deskripsi then deskripsi else JNull)) in
  let* ta := col (varchar_col 20 tahun_ajaran) in
  let* kid := col (int_col karyawan_id) in
  let* k := create (mk_kelas n kap d ta kid) in
  let* v := view (λ s, kelas_view s k) in
  ret (ok_reply 201 "Kelas berhasil dibuat" v).

Definition createKelas_handler (b : req_body) : store → reply * store :=
  run_handler "Gagal membuat kelas" (createKelas b).

(** [exports.getAllKelas] *)
Definition getAllKelas : M reply :=
  list_all (λ s, JsonArr (map (λ p, kelas_view s p.1) (tbl_list (st_kelas s)))).

Definition getAllKelas_handler : store → reply * store :=
  run_handler "Gagal mengambil daftar kelas" getAllKelas.

(** [exports.getKelasById] *)
Definition getKelasById (id : jsval) : M reply :=
  get_by_id st_kelas id kelas_view "Kelas tidak ditemukan".

Definition getKelasById_handler (id : jsval) : store → reply * store :=
  run_handler "Gagal mengambil data kelas" (getKelasById id).

(** [exports.updateKelas] *)
Definition updateKelas (id : jsval) (b : req_body) : M reply :=
  let nama_kelas := field b "nama_kelas" in
  let kapasitas := field b "kapasitas" in
  let deskripsi := field b "deskripsi" in
  let tahun_ajaran := field b "tahun_ajaran" in
  let karyawan_id := field b "karyawan_id" in
  let* found := find_pk st_kelas id in
  match found with
  | None => halt (fail_reply 404 "Kelas tidak ditemukan")
  | Some x =>
    guard (negb (is_undefined kapasitas) && bad_kapasitas kapasitas) (fail_reply 400 msg_kapasitas) ;;
    guard (negb (is_undefined tahun_ajaran) && negb (regex_test tahun_ajaran_regex tahun_ajaran))
          (fail_reply 400 msg_tahun) ;;
    (if negb (is_undefined karyawan_id) then
       let* kr := find_pk st_karyawan karyawan_id in
       guard (absent kr) (fail_reply 400 "karyawan_id tidak ditemukan")
     else ret tt) ;;
    let* k := col (pk_of id) in
    let* n := if truthy nama_kelas then col (varchar_col 50 nama_kelas) else ret (k_nama_kelas x) in
    let* kap := if is_undefined kapasitas then ret (k_kapasitas x) else col (int_col kapasitas) in
    let* d := if is_undefined deskripsi then ret (k_deskripsi x) else col (opt_text_col deskripsi) in
    let* ta := if is_undefined tahun_ajaran then ret (k_tahun_ajaran x)
               else col (varchar_col 20 tahun_ajaran) in
    let* kid := if is_undefined karyawan_id then ret (k_karyawan_id x)
                else col (int_col karyawan_id) in
    save k (mk_kelas n kap d ta kid) ;;
    let* v := view (λ s, kelas_view s k) in
    ret (ok_reply 200 "Kelas berhasil diperbarui" v)
  end.

Definition updateKelas_handler (id : jsval) (b : req_body) : store → reply * store :=
  run_handler "Gagal memperbarui kelas" (updateKelas id b).

(** [exports.deleteKelas] *)
Definition deleteKelas (id : jsval) : M reply :=
  delete_by_id (A:=kelas) id "Kelas berhasil dihapus" "Kelas tidak ditemukan".

Definition deleteKelas_handler (id : jsval) : store → reply * store :=
  run_handler "Gagal menghapus kelas" (deleteKelas id).

End KelasController.
