(* ===== verification/Karyawan.v ===== *)
(** * Staff: [controllers/KaryawanController.js]

    Staff records carry the salary ([gaji], DECIMAL(10,2)) and a phone
    number checked against [/^\+?[0-9]{10,15}$/].  Every field is required
    on create, so a salary of [0] is refused as missing; on update a falsy
    value keeps the stored one. *)

From stdpp Require Import base gmap strings list.
From Stdlib Require Import ZArith QArith Ascii String.
From S2P Require Import Prelude JsValue Validators Schema Store Erd Handler Views.

Local Open Scope Z_scope.
Local Open Scope kape_scope.

Module KaryawanController.

Definition msg_jk : string := "Jenis kelamin harus L (Laki-laki) atau P (Perempuan)".

Definition karyawan_view (s : store) (k : Z) : json := include_row karyawan_fields (st_karyawan s) k.

(** [exports.createKaryawan] *)
Definition createKaryawan (b : req_body) : M reply :=
  let nama := field b "nama" in
  let posisi := field b "posisi" in
  let tgl_lahir := field b "tgl_lahir" in
  let jk := field b "jk" in
  let alamat := field b "alamat" in
  let no_hp := field b "no_hp" in
  let gaji := field b "gaji" in
  guard (negb (truthy nama) || negb (truthy posisi) || negb (truthy tgl_lahir) || negb (truthy jk)
         || negb (truthy alamat) || negb (truthy no_hp) || negb (truthy gaji))
        (fail_reply 400 "Semua field wajib diisi") ;;
  guard (negb (includes_str jk_values jk)) (fail_reply 400 msg_jk) ;;
  guard (negb (regex_test date_regex tgl_lahir))
        (fail_reply 400 "Format tanggal lahir harus YYYY-MM-DD") ;;
  guard (negb (regex_test phone_regex no_hp)) (fail_reply 400 "Nomor telepon tidak valid") ;;
  let gajiFloat := parseFloat gaji in
  guard (negb (num_positive gajiFloat)) (fail_reply 400 "Gaji harus berupa angka positif") ;;
  let* n := col (varchar_col 100 nama) in
  let* p := col (varchar_col 50 posisi) in
  let* tgl := col (date_col tgl_lahir) in
  let* j := col (jk_of jk) in
  let* a := col (text_col alamat) in
  let* hp := col (varchar_col 20 no_hp) in
  let* g := col (decimal_col (JNum gajiFloat)) in
  let* k := create (mk_karyawan n p tgl j a hp g) in
  ret (ok_reply 201 "Karyawan berhasil dibuat"
         (obj_of [("karyawan_id", JInt k); ("nama", nama); ("posisi", posisi);
                  ("tgl_lahir", tgl_lahir); ("jk", jk); ("alamat", alamat); ("no_hp", no_hp);
                  ("gaji", JNum gajiFloat)])).

Definition createKaryawan_handler (b : req_body) : store → reply * store :=
  run_handler "Gagal membuat karyawan" (createKaryawan b).

(** [exports.countKaryawan] *)
Definition countKaryawan : M reply :=
  let* total := view (λ s, json_int (Z.of_nat (List.length (tbl_list (st_karyawan s))))) in
  ret (mk_reply 200 (JsonObj [("success", JsonBool true); ("total", total)])).

Definition countKaryawan_handler : store → reply * store :=
  run_handler "Gagal menghitung total karyawan" countKaryawan.

(** [exports.getAllKaryawan] *)
Definition getAllKaryawan : M reply :=
  list_all (λ s, JsonArr (map (λ p, JsonObj (karyawan_fields p.1 p.2)) (tbl_list (st_karyawan s)))).

Definition getAllKaryawan_handler : store → reply * store :=
  run_handler "Gagal mengambil daftar karyawan" getAllKaryawan.

(** [exports.getKaryawanById] *)
Definition getKaryawanById (id : jsval) : M reply :=
  get_by_id st_karyawan id karyawan_view "Karyawan tidak ditemukan".

Definition getKaryawanById_handler (id : jsval) : store → reply * store :=
  run_handler "Gagal mengambil data karyawan" (getKaryawanById id).

(** [v || stored] on a column with coercion [c]. *)
Definition or_keep (c : jsval → option string) (v : jsval) (stored : string) : M string :=
  if truthy v then col (c v) else ret stored.

(** [exports.updateKaryawan] *)
Definition updateKaryawan (id : jsval) (b : req_body) : M reply :=
  let nama := field b "nama" in
  let posisi := field b "posisi" in
  let tgl_lahir := field b "tgl_lahir" in
  let jk := field b "jk" in
  let alamat := field b "alamat" in
  let no_hp := field b "no_hp" in
  let gaji := field b "gaji" in
  let* found := find_pk st_karyawan id in
  match found with
  | None => halt (fail_reply 404 "Karyawan tidak ditemukan")
  | Some x =>
    guard (truthy jk && negb (includes_str jk_values jk)) (fail_reply 400 msg_jk) ;;
    guard (truthy tgl_lahir && negb (regex_test date_regex tgl_lahir))
          (fail_reply 400 "Format tanggal lahir harus YYYY-MM-DD") ;;
    guard (truthy no_hp && negb (regex_test phone_regex no_hp))
          (fail_reply 400 "Nomor telepon tidak valid") ;;
    guard (negb (is_undefined gaji) && negb (num_positive (parseFloat gaji)))
          (fail_reply 400 "Gaji harus berupa angka positif") ;;
    let gajiVal := if is_undefined gaji then decimal_val (kr_gaji x) else JNum (parseFloat gaji) in
    let* k := col (pk_of id) in
    let* n := or_keep (varchar_col 100) nama (kr_nama x) in
    let* p := or_keep (varchar_col 50) posisi (kr_posisi x) in
    let* tgl := or_keep date_col tgl_lahir (kr_tgl_lahir x) in
    let* j := if truthy jk then col (jk_of jk) else ret (kr_jk x) in
    let* a := or_keep text_col alamat (kr_alamat x) in
    let* hp := or_keep (varchar_col 20) no_hp (kr_no_hp x) in
    let* g := col (decimal_col gajiVal) in
    save k (mk_karyawan n p tgl j a hp g) ;;
    let* v := view (λ s, karyawan_view s k) in
    ret (ok_reply 200 "Karyawan berhasil diperbarui" v)
  end.

Definition updateKaryawan_handler (id : jsval) (b : req_body) : store → reply * store :=
  run_handler "Gagal memperbarui karyawan" (updateKaryawan id b).

(** [exports.deleteKaryawan] *)
Definition deleteKaryawan (id : jsval) : M reply :=
  delete_by_id (A:=karyawan) id "Karyawan berhasil dihapus" "Karyawan tidak ditemukan".

Definition deleteKaryawan_handler (id : jsval) : store → reply * store :=
  run_handler "Gagal menghapus karyawan" (deleteKaryawan id).

End KaryawanController.
