(* ===== verification/OrangTua.v ===== *)
(** * Parents: [controllers/OrangTuaController.js]

    Parent records hold the father's and mother's names and a phone number;
    [getOrangTuaById] also returns the first of the parent's students. *)

From stdpp Require Import base gmap strings list.
From Stdlib Require Import ZArith QArith Ascii String.
From S2P Require Import Prelude JsValue Validators Schema Store Erd Handler Views Karyawan.

Local Open Scope Z_scope.
Local Open Scope kape_scope.

Module OrangTuaController.

(** [exports.createOrangTua] *)
Definition createOrangTua (b : req_body) : M reply :=
  let nama_ayah := field b "nama_ayah" in
  let nama_ibu := field b "nama_ibu" in
  let no_hp := field b "no_hp" in
  guard (negb (truthy nama_ayah) || negb (truthy nama_ibu) || negb (truthy no_hp))
        (fail_reply 400 "Semua field wajib diisi") ;;
  guard (negb (regex_test phone_regex no_hp)) (fail_reply 400 "Nomor telepon tidak valid") ;;
  let* a := col (varchar_col 100 nama_ayah) in
  let* i := col (varchar_col 100 nama_ibu) in
  let* hp := col (varchar_col 20 no_hp) in
  let* k := create (mk_orang_tua a i hp) in
  ret (ok_reply 201 "Data orang tua berhasil dibuat"
         (obj_of [("ortu_id", JInt k); ("nama_ayah", nama_ayah); ("nama_ibu", nama_ibu);
                  ("no_hp", no_hp)])).

Definition createOrangTua_handler (b : req_body) : store → reply * store :=
  run_handler "Gagal membuat data orang tua" (createOrangTua b).

(** [exports.getAllOrangTua] *)
Definition getAllOrangTua : M reply :=
  list_all (λ s, JsonArr (map (λ p, JsonObj (orang_tua_fields p.1 p.2)) (tbl_list (st_ortu s)))).

Definition getAllOrangTua_handler : store → reply * store :=
  run_handler "Gagal mengambil daftar orang tua" getAllOrangTua.

(** The ids of the students of parent [k] ([hasMany] include). *)
Definition ortu_siswa_ids (s : store) (k : Z) : list Z :=
  (List.filter (λ p, bool_decide (s_ortu_id p.2 = k)) (tbl_list (st_siswa s))).*1.

(** [exports.getOrangTuaById]: [{ orangTua, siswaId }] with the first
    student's id, or [null]. *)
Definition getOrangTuaById (id : jsval) : M reply :=
  let* found := find_pk st_ortu id in
  match found, pk_of id with
  | Some o, Some k =>
      let* ids := read (λ s, ortu_siswa_ids s k) in
      ret (data_reply (JsonObj
        [("orangTua", JsonObj (orang_tua_fields k o ++
            [("siswa", JsonArr (map (λ i, JsonObj [("siswa_id", json_int i)]) ids))]));
         ("siswaId", match ids with i :: _ => json_int i | [] => JsonNull end)]))
  | _, _ => halt (fail_reply 404 "Data orang tua tidak ditemukan")
  end.

Definition getOrangTuaById_handler (id : jsval) : store → reply * store :=
  run_handler "Gagal mengambil data orang tua" (getOrangTuaById id).

(** [exports.updateOrangTua] *)
Definition updateOrangTua (id : jsval) (b : req_body) : M reply :=
  let nama_ayah := field b "nama_ayah" in
  let nama_ibu := field b "nama_ibu" in
  let no_hp := field b "no_hp" in
  let* found := find_pk st_ortu id in
  match found with
  | None => halt (fail_reply 404 "Data orang tua tidak ditemukan")
  | Some o =>
    guard (truthy no_hp && negb (regex_test phone_regex no_hp))
          (fail_reply 400 "Nomor telepon tidak valid") ;;
    let* k := col (pk_of id) in
    let* a := KaryawanController.or_keep (varchar_col 100) nama_ayah (o_nama_ayah o) in
    let* i := KaryawanController.or_keep (varchar_col 100) nama_ibu (o_nama_ibu o) in
    let* hp := KaryawanController.or_keep (varchar_col 20) no_hp (o_no_hp o) in
    save k (mk_orang_tua a i hp) ;;
    let* v := view (λ s, include_row orang_tua_fields (st_ortu s) k) in
    ret (ok_reply 200 "Data orang tua berhasil diperbarui" v)
  end.

Definition updateOrangTua_handler (id : jsval) (b : req_body) : store → reply * store :=
  run_handler "Gagal memperbarui data orang tua" (updateOrangTua id b).

(** [exports.deleteOrangTua] *)
Definition deleteOrangTua (id : jsval) : M reply :=
  delete_by_id (A:=orang_tua) id "Data orang tua berhasil dihapus" "Data orang tua tidak ditemukan".

Definition deleteOrangTua_handler (id : jsval) : store → reply * store :=
  run_handler "Gagal menghapus data orang tua" (deleteOrangTua id).

End OrangTuaController.
