(* ===== verification/UserCtl.v ===== *)
(** * User accounts: [controllers/UserController.js]

    An account has a username, a bcrypt hash, a role and at most the one
    profile key its role calls for.  The handlers are written against the
    [Hasher] interface of [Crypto]; the salt [bcrypt.genSalt] draws is an
    input.  [routes/UserRoute.js], which [index.js] mounts at [/api/users],
    is not part of the repository, so no route reaches these handlers. *)

From stdpp Require Import base gmap strings list.
From Stdlib Require Import ZArith QArith Ascii String.
From S2P Require Import Prelude JsValue Validators Schema Store Erd Handler Views Crypto.

Local Open Scope Z_scope.
Local Open Scope kape_scope.

Module UserController.

Definition msg_role : string :=
  "Role tidak valid. Harus salah satu dari: admin, kepsek, guru, orang_tua, siswa".

(** [const userData = user.toJSON(); delete userData.password;] *)
Definition user_public_fields (k : Z) (x : user) : list (string * json) :=
  List.filter (λ f, negb (String.eqb f.1 "password")) (user_fields k x).

(** [include: [siswa, ortu, karyawan]] without the password. *)
Definition user_view (s : store) (k : Z) : json :=
  opt_json (λ u, JsonObj (user_public_fields k u ++
    [("siswa", opt_json (include_row siswa_fields (st_siswa s)) (u_siswa_id u));
     ("ortu", opt_json (include_row orang_tua_fields (st_ortu s)) (u_ortu_id u));
     ("karyawan", opt_json (include_row karyawan_fields (st_karyawan s)) (u_karyawan_id u))]))
    (tbl_find k (st_user s)).

Section with_hasher.
Context `{Hasher}.

(** [await bcrypt.hash(password, salt)]: a password that is not a string
    makes [bcrypt] reject. *)
Definition hash_password (password : jsval) (salt : Z) : M string :=
  match password with JStr p => ret (bc_hash p salt) | _ => throw end.

(** [role === name] *)
Definition role_is (role : jsval) (name : string) : bool := strict_eq role (JStr name).

(** [exports.createUser] *)
Definition createUser (b : req_body) (salt : Z) : M reply :=
  let username := field b "username" in
  let password := field b "password" in
  let role := field b "role" in
  guard (negb (truthy username) || negb (truthy password) || negb (truthy role))
        (fail_reply 400 "Username, password, dan role harus diisi") ;;
  guard (negb (includes_str role_values role)) (fail_reply 400 msg_role) ;;
  let sid := if role_is role "siswa" then field b "siswa_id" else JNull in
  let oid := if role_is role "orang_tua" then field b "ortu_id" else JNull in
  let kid := if role_is role "guru" then field b "karyawan_id" else JNull in
  let* hashed := hash_password password salt in
  let* u := col (varchar_col 100 username) in
  let* pw := col (varchar_col 100 (JStr hashed)) in
  let* r := col (role_of role) in
  let* s := col (opt_int_col sid) in
  let* o := col (opt_int_col oid) in
  let* kk := col (opt_int_col kid) in
  let* k := create (mk_user u pw r s o kk) in
  ret (ok_reply 201 "Pengguna berhasil dibuat"
         (obj_of [("user_id", JInt k); ("username", username); ("role", role);
                  ("siswa_id", sid); ("ortu_id", oid); ("karyawan_id", kid)])).

Definition createUser_handler (b : req_body) (salt : Z) : store → reply * store :=
  run_handler "Gagal membuat pengguna" (createUser b salt).

(** [updateData]: for each column, the value to write, or [None] when the
    key is absent. *)
Record user_update := mk_user_update {
  uu_username : option jsval; uu_password : option string; uu_role : option jsval;
  uu_siswa : option jsval; uu_ortu : option jsval; uu_karyawan : option jsval }.

(** The profile keys the [if (role)] block sets, or the 400 it returns. *)
Definition role_keys (role : jsval) (b : req_body)
    : M (option jsval * option jsval * option jsval) :=
  let siswa_id := field b "siswa_id" in
  let ortu_id := field b "ortu_id" in
  let karyawan_id := field b "karyawan_id" in
  if negb (truthy role) then ret (None, None, None) else
  guard (negb (includes_str role_values role)) (fail_reply 400 msg_role) ;;
  if role_is role "siswa" then
    guard (negb (truthy siswa_id)) (fail_reply 400 "siswa_id diperlukan untuk role siswa") ;;
    ret (Some siswa_id, Some JNull, Some JNull)
  else if role_is role "orang_tua" then
    guard (negb (truthy ortu_id)) (fail_reply 400 "ortu_id diperlukan untuk role orang tua") ;;
    ret (Some JNull, Some ortu_id, Some JNull)
  else if role_is role "guru" then
    guard (negb (truthy karyawan_id)) (fail_reply 400 "karyawan_id diperlukan untuk role guru") ;;
    ret (Some JNull, Some JNull, Some karyawan_id)
  else ret (Some JNull, Some JNull, Some JNull).

(** [const currentRole = role || user.role; if (currentRole === 'siswa' && siswa_id) ...] *)
Definition current_role_keys (currentRole : jsval) (b : req_body)
    (ks : option jsval * option jsval * option jsval) : option jsval * option jsval * option jsval :=
  let '(s, o, k) := ks in
  let siswa_id := field b "siswa_id" in
  let ortu_id := field b "ortu_id" in
  let karyawan_id := field b "karyawan_id" in
  if role_is currentRole "siswa" && truthy siswa_id then (Some siswa_id, o, k)
  else if role_is currentRole "orang_tua" && truthy ortu_id then (s, Some ortu_id, k)
  else if role_is currentRole "guru" && truthy karyawan_id then (s, o, Some karyawan_id)
  else (s, o, k).

(** [user.update(updateData)] on the stored row [x]. *)
Definition apply_update (x : user) (d : user_update) : option user :=
  u ← (match uu_username d with Some v => varchar_col 100 v | None => Some (u_username x) end);
  p ← (match uu_password d with Some h => varchar_col 100 (JStr h) | None => Some (u_password x) end);
  r ← (match uu_role d with Some v => role_of v | None => Some (u_role x) end);
  s ← (match uu_siswa d with Some v => opt_int_col v | None => Some (u_siswa_id x) end);
  o ← (match uu_ortu d with Some v => opt_int_col v | None => Some (u_ortu_id x) end);
  k ← (match uu_karyawan d with Some v => opt_int_col v | None => Some (u_karyawan_id x) end);
  Some (mk_user u p r s o k).

(** [exports.updateUser] *)
Definition updateUser (id : jsval) (b : req_body) (salt : Z) : M reply :=
  let username := field b "username" in
  let password := field b "password" in
  let role := field b "role" in
  let* found := find_pk st_user id in
  match found with
  | None => halt (fail_reply 404 "Pengguna tidak ditemukan")
  | Some x =>
    let* ks := role_keys role b in
    let* pw := if truthy password then (let* h := hash_password password salt in ret (Some h))
               else ret None in
    let currentRole := if truthy role then role else JStr (role_str (u_role x)) in
    let '(s, o, kk) := current_role_keys currentRole b ks in
    let d := mk_user_update (if truthy username then Some username else None) pw
               (if truthy role then Some role else None) s o kk in
    let* k := col (pk_of id) in
    let* x' := col (apply_update x d) in
    save k x' ;;
    let* v := view (λ st, user_view st k) in
    ret (ok_reply 200 "Pengguna berhasil diperbarui" v)
  end.

Definition updateUser_handler (id : jsval) (b : req_body) (salt : Z) : store → reply * store :=
  run_handler "Gagal memperbarui pengguna" (updateUser id b salt).

End with_hasher.

(** [exports.getAllUsers] *)
Definition getAllUsers : M reply :=
  list_all (λ s, JsonArr (map (λ p, user_view s p.1) (tbl_list (st_user s)))).

Definition getAllUsers_handler : store → reply * store :=
  run_handler "Gagal mengambil daftar pengguna" getAllUsers.

(** [exports.getUserById] *)
Definition getUserById (id : jsval) : M reply :=
  get_by_id st_user id user_view "Pengguna tidak ditemukan".

Definition getUserById_handler (id : jsval) : store → reply * store :=
  run_handler "Gagal mengambil data pengguna" (getUserById id).

(** [exports.deleteUser] *)
Definition deleteUser (id : jsval) : M reply :=
  delete_by_id (A:=user) id "Pengguna berhasil dihapus" "Pengguna tidak ditemukan".

Definition deleteUser_handler (id : jsval) : store → reply * store :=
  run_handler "Gagal menghapus pengguna" (deleteUser id).

End UserController.
