(* ===== verification/Auth.v ===== *)
(** * Sessions: [controllers/AuthController.js] and [middleware/UserMiddleware.js]

    [login] checks a username and password against [tb_user] and issues a
    token valid for 24 hours; [verifyUser] turns an [Authorization: Bearer]
    header back into the user it names; [adminOnly] lets only the [admin]
    role through; [me] and [logout] answer for the verified user.  The
    clock [now] (in seconds, as [jsonwebtoken] counts) is an input. *)

From stdpp Require Import base gmap strings list.
From Stdlib Require Import ZArith QArith Ascii String.
From S2P Require Import Prelude JsValue Validators Schema Store Erd Handler Views Crypto.

Local Open Scope Z_scope.
Local Open Scope kape_scope.

Module AuthController.

(** [WHERE username = ?] under the case-insensitive collation. *)
Fixpoint ci_str_eq (a b : string) : bool :=
  match a, b with
  | EmptyString, EmptyString => true
  | String c a', String d b' => ci_eq c d && ci_str_eq a' b'
  | _, _ => false
  end.

(** [User.findOne({ where: { username } })]: the first matching row. *)
Definition find_username (name : string) (s : store) : option (Z * user) :=
  List.find (λ p, ci_str_eq (u_username p.2) name) (tbl_list (st_user s)).

Definition msg_credentials : string := "Username atau password salah".

(** [nama_pengguna]: the linked profile's name, the username for [admin]
    and [kepsek]. *)
Definition display_name (s : store) (u : user) : string :=
  match u_role u with
  | Siswa => default "" (s_nama <$> (u_siswa_id u ≫= λ k, tbl_find k (st_siswa s)))
  | OrangTua =>
      default "" ((λ o, if String.eqb (o_nama_ayah o) "" then o_nama_ibu o else o_nama_ayah o)
                    <$> (u_ortu_id u ≫= λ k, tbl_find k (st_ortu s)))
  | Guru => default "" (kr_nama <$> (u_karyawan_id u ≫= λ k, tbl_find k (st_karyawan s)))
  | Admin | Kepsek => u_username u
  end%string.

(** The answer to a successful login. *)
Definition login_reply (k : Z) (u : user) (nama token : string) : reply :=
  mk_reply 200 (JsonObj
    [("success", JsonBool true); ("message", JsonStr "Login berhasil");
     ("token", JsonStr token);
     ("data", JsonObj [("user_id", json_int k); ("username", JsonStr (u_username u));
                       ("nama_pengguna", JsonStr nama);
                       ("role", JsonStr (role_str (u_role u)))])]).

Section with_crypto.
Context `{Hasher} `{Jwt}.

(** [await bcrypt.compare(password, pengguna.password)]: a password that
    is not a string makes [bcrypt] reject. *)
Definition check_password (password : jsval) (hash : string) : M bool :=
  match password with JStr p => ret (bc_compare p hash) | _ => throw end.

(** [jwt.sign({ user_id, role }, JWT_SECRET, { expiresIn: '24h' })] *)
Definition issue (k : Z) (u : user) (now : Z) : string :=
  jwt_sign (mk_claims k (u_role u) (now + token_lifetime)).

(** [exports.login] *)
Definition login (b : req_body) (now : Z) : M reply :=
  let username := field b "username" in
  let password := field b "password" in
  guard (negb (truthy username) || negb (truthy password))
        (fail_reply 400 "Username dan password harus diisi") ;;
  let* name := col (text_col username) in
  let* found := read (find_username name) in
  match found with
  | None => halt (fail_reply 401 msg_credentials)
  | Some (k, u) =>
      let* ok := check_password password (u_password u) in
      guard (negb ok) (fail_reply 401 msg_credentials) ;;
      let* nama := read (λ s, display_name s u) in
      ret (login_reply k u nama (issue k u now))
  end.

Definition login_handler (b : req_body) (now : Z) : store → reply * store :=
  run_handler "Terjadi kesalahan server" (login b now).

(** [authHeader.split(' ')[1]] of a header that starts with [Bearer ]: the
    text after the first space, up to the next one. *)
Fixpoint upto_space (s : string) : string :=
  match s with
  | String c r => if Ascii.eqb c " " then EmptyString else String c (upto_space r)
  | EmptyString => EmptyString
  end.

Definition bearer_token (h : string) : string := upto_space (substring 7 (String.length h) h).

Definition msg_format : string := "Format token tidak valid".

(** [exports.verifyUser]: the verified user, [req.user], or the response. *)
Definition verifyUser (auth : option string) (now : Z) : M (Z * user) :=
  match auth with
  | Some h =>
      if String.prefix "Bearer " h then
        match jwt_verify (bearer_token h) now with
        | inr TokenExpiredError => halt (fail_reply 401 "Sesi telah kadaluarsa")
        | inr JsonWebTokenError => halt (fail_reply 401 "Token tidak valid")
        | inl c =>
            let* u := find_key st_user (cl_user_id c) in
            match u with
            | None => halt (fail_reply 401 "Akun tidak terdaftar")
            | Some u => ret (cl_user_id c, u)
            end
        end
      else halt (fail_reply 401 msg_format)
  | None => halt (fail_reply 401 msg_format)
  end.

End with_crypto.

(** [exports.adminOnly] *)
Definition adminOnly (req_user : option (Z * user)) : M unit :=
  match req_user with
  | Some (_, u) => guard (negb (bool_decide (u_role u = Admin))) (fail_reply 403 "Akses terbatas untuk admin")
  | None => halt (fail_reply 403 "Akses terbatas untuk admin")
  end.

(** [exports.me].  [req.user.nama_pengguna] is not a column of [tb_user]:
    it is [undefined], and [JSON.stringify] drops the key. *)
Definition me (req_user : option (Z * user)) : M reply :=
  match req_user with
  | None => halt (fail_reply 401 "Tidak terautentikasi")
  | Some (uid, _) =>
      let* p := find_key st_user uid in
      match p with
      | None => halt (fail_reply 404 "User tidak ditemukan")
      | Some u =>
          let* ortu := read (λ s, match u_ortu_id u with
                                  | Some k => if has_row (st_ortu s) k then Some k else None
                                  | None => None end) in
          ret (data_reply (JsonObj
            ([("user_id", json_int uid); ("username", JsonStr (u_username u));
              ("role", JsonStr (role_str (u_role u)))] ++
             match ortu with
             | Some k => if Z.eqb k 0 then [] else [("ortu_id", json_int k)]
             | None => []
             end)))
      end
  end.

Definition me_handler (req_user : option (Z * user)) : store → reply * store :=
  run_handler "Kesalahan server" (me req_user).

(** [exports.logout] *)
Definition logout : M reply := ret (msg_reply "Logout berhasil. Hapus token di client.").

End AuthController.
