(* ===== verification/Session.v ===== *)
(** * Sessions: what [login] and [verifyUser] guarantee

    The theorems hold for every implementation of the [Hasher] and [Jwt]
    interfaces that satisfies their laws: a token issued at login verifies
    back to the same account for 24 hours and then expires; every failed
    login answers the same message.  The order in which [jsonwebtoken]
    checks a token (signature, then expiry) is a law of the interface
    ([jwt_verify_unsigned]), not a property of this code. *)

From stdpp Require Import base gmap strings list.
From Stdlib Require Import ZArith QArith Ascii String.
From S2P Require Import Prelude JsValue Validators Schema Store Erd Handler Views Crypto Frame.
From S2P Require Import UserCtl Auth.

Local Open Scope Z_scope.
Local Open Scope kape_scope.

Import AuthController.

(** ** Reading the bearer token *)
Lemma upto_space_free t : space_free t = true → upto_space t = t.
Proof.
  induction t as [|c t IH]; [done|]. unfold space_free. cbn. intros [Hc Ht]%andb_prop.
  apply negb_true_iff in Hc. rewrite Hc. f_equal. by apply IH.
Qed.

Lemma substring_all t m : (String.length t <= m)%nat → substring 0 m t = t.
Proof.
  revert m. induction t as [|c t IH]; intros [|m] Hm; cbn in *; [done|done|lia|].
  f_equal. apply IH. lia.
Qed.

Lemma bearer_token_app t : space_free t = true → bearer_token ("Bearer " ++ t)%string = t.
Proof.
  intros Ht. unfold bearer_token. rewrite !string_app_cons, string_app_nil. cbn.
  rewrite substring_all by lia. by apply upto_space_free.
Qed.

Lemma prefix_app p t : String.prefix p (p ++ t) = true.
Proof.
  induction p as [|a p IH]; [by destruct t|]. rewrite string_app_cons. cbn.
  destruct (ascii_dec a a); [done|congruence].
Qed.

Lemma find_username_find name s k u : find_username name s = Some (k, u) → tbl_find k (st_user s) = Some u.
Proof. unfold find_username. intros [Hin _]%find_some. by apply tbl_list_In. Qed.

Section session.
Context `{HasherLaws} `{JwtLaws}.

(** Login, then verification.  A user who logs in with the right
    password receives a token that, presented as [Bearer <token>] at any
    time in the next 24 hours, [verifyUser] resolves back to the same
    account; login writes nothing. *)
Theorem login_verify_roundtrip b name p now now' s k u :
  field b "username" = JStr name → name ≠ "" → field b "password" = JStr p → p ≠ "" →
  find_username name s = Some (k, u) → bc_compare p (u_password u) = true →
  now <= now' < now + token_lifetime →
  ∃ t, t ≠ ""%string ∧ login_handler b now s = (login_reply k u (display_name s u) t, s) ∧
       verifyUser (Some ("Bearer " ++ t)%string) now' s = (Next (k, u), s).
Proof.
  intros Hn Hname Hp Hpw Hf Hc Hnow. exists (issue k u now). split; [apply jwt_sign_nonempty|]. split.
  - unfold login_handler, run_handler, login. rewrite Hn, Hp. cbn.
    rewrite (proj2 (String.eqb_neq _ _) Hname), (proj2 (String.eqb_neq _ _) Hpw). cbn.
    by rewrite Hf, Hc.
  - unfold verifyUser. rewrite prefix_app, bearer_token_app by apply jwt_sign_space_free.
    unfold issue. rewrite jwt_verify_sign by (cbn; lia). unfold bind, find_key, read. cbn [cl_user_id].
    by rewrite (find_username_find _ _ _ _ Hf).
Qed.

(** C4: a failed login (an unknown username, or a known one with the
    wrong password) always answers 401 with the same message, so the
    answer does not tell which of the two failed, and it writes nothing:
    no attempt counter, no lockout. *)
Theorem login_failure_uniform b name p now s :
  field b "username" = JStr name → name ≠ "" → field b "password" = JStr p → p ≠ "" →
  match find_username name s with
  | None => True
  | Some (_, u) => bc_compare p (u_password u) = false
  end →
  login_handler b now s = (fail_reply 401 msg_credentials, s).
Proof.
  intros Hn Hname Hp Hpw Hf. unfold login_handler, run_handler, login. rewrite Hn, Hp. cbn.
  rewrite (proj2 (String.eqb_neq _ _) Hname), (proj2 (String.eqb_neq _ _) Hpw). cbn.
  destruct (find_username name s) as [[k u]|]; [|done]. cbn. by rewrite Hf.
Qed.

(** C6: 24 hours after login the token is refused as expired. *)
Theorem verifyUser_expired k u now now' s :
  now + token_lifetime <= now' →
  verifyUser (Some ("Bearer " ++ issue k u now)%string) now' s =
  (Halt (fail_reply 401 "Sesi telah kadaluarsa"), s).
Proof.
  intros Hnow. unfold verifyUser. rewrite prefix_app, bearer_token_app by apply jwt_sign_space_free.
  unfold issue. by rewrite jwt_verify_expired by (cbn; lia).
Qed.

End session.

(** ** An account to log in with *)

Definition demo_users : store :=
  snd (UserController.createUser_handler
         [("username", JStr "admin"); ("password", JStr "rahasia"); ("role", JStr "admin")] 10
         empty_store).

Definition demo_admin : user := mk_user "admin" (toy_hash "rahasia" 10) Admin None None None.

Definition demo_login : req_body := [("username", JStr "admin"); ("password", JStr "rahasia")].

Lemma login_failure_uniform_witness :
  login_handler [("username", JStr "admin"); ("password", JStr "salah")] 1000 demo_users =
  (fail_reply 401 msg_credentials, demo_users).
Proof.
  apply (login_failure_uniform _ "admin" "salah"); try reflexivity; try discriminate;
    try (vm_compute; reflexivity).
Defined.

Lemma verifyUser_expired_witness :
  verifyUser (Some ("Bearer " ++ issue 1 demo_admin 1000)%string) 90000 demo_users =
  (Halt (fail_reply 401 "Sesi telah kadaluarsa"), demo_users).
Proof. apply verifyUser_expired. unfold token_lifetime. lia. Defined.

