(* ===== verification/Routes.v ===== *)
(** * The HTTP surface: [routes/*.js] and the mounts of [index.js]

    A request is its method, its path split at [/], its
    [Authorization] header, its query, its JSON body, its multipart file,
    the clock [Date.now()] in milliseconds and multer's random draw.  Each
    router is a function from method and remaining path to the handler the
    first matching [router.<method>(path, ...)] line names, in the order
    the lines are written: a [/count] registered after [/:id] is never
    reached.  A router is its list of lines, as Express keeps it.  Middleware chains ([verifyUser], [uploadFile(..)]) run in the
    order the route lists them; one that answers ends the chain.
    [serve_all] runs a sequence of requests one after the other on the
    store. *)

From stdpp Require Import base gmap strings list.
From Stdlib Require Import ZArith QArith Ascii String.
From S2P Require Import Prelude JsValue Validators Schema Store Clock Erd Handler Views Crypto.
From S2P Require Import Tagihan MasterBiaya Pemasukan Upload Pengeluaran Siswa Kelas Karyawan OrangTua Auth.

Local Open Scope Z_scope.
Local Open Scope kape_scope.

Inductive meth := GET | POST | PUT | DELETE.

Record request := mk_request {
  rq_method : meth; rq_path : list string; rq_auth : option string;
  rq_query : req_body; rq_body : req_body; rq_file : option upload;
  rq_now : Z; rq_rnd : Z }.

Definition handler := store → reply * store.

(** A middleware that goes on with a value, answers, or throws into its
    own [catch]. *)
Definition then_mw {A} (mw : M A) (msg500 : string) (k : A → handler) : handler :=
  λ s, match mw s with
       | (Next a, s') => k a s'
       | (Halt r, s') => (r, s')
       | (Throw, s') => (fail_reply 500 msg500, s')
       end.

(** [jsonwebtoken] reads the clock in whole seconds. *)
Definition now_seconds (r : request) : Z := rq_now r / 1000.

(** A path pattern segment: a literal, or a parameter such as [:id]. *)
Inductive seg := Lit (s : string) | Param.

(** One [router.<method>(pattern, ...handlers)] line; the handler receives
    the path parameters in order. *)
Record route := mk_route {
  rt_method : meth; rt_pattern : list seg; rt_handler : list string → request → handler }.

Definition meth_eqb (a b : meth) : bool :=
  match a, b with GET, GET | POST, POST | PUT, PUT | DELETE, DELETE => true | _, _ => false end.

(** The parameters a path binds, if it matches the pattern. *)
Fixpoint match_pattern (pat : list seg) (p : list string) : option (list string) :=
  match pat, p with
  | [], [] => Some []
  | Lit l :: pat', x :: p' => if String.eqb l x then match_pattern pat' p' else None
  | Param :: pat', x :: p' => (λ ps, x :: ps) <$> match_pattern pat' p'
  | _, _ => None
  end.

(** Express's dispatch: the first line whose method and pattern match. *)
Fixpoint dispatch (rts : list route) (r : request) (p : list string) : option handler :=
  match rts with
  | [] => None
  | rt :: rts' =>
      if meth_eqb (rt_method rt) (rq_method r) then
        match match_pattern (rt_pattern rt) p with
        | Some ps => Some (rt_handler rt ps r)
        | None => dispatch rts' r p
        end
      else dispatch rts' r p
  end.

(** [req.params.id] *)
Definition param (ps : list string) : jsval := JStr (default "" (head ps)).

Section routes.
Context `{Hasher} `{Jwt}.

(** [verifyUser] ahead of a handler that receives [req.user]. *)
Definition with_user (r : request) (k : Z * user → handler) : handler :=
  then_mw (AuthController.verifyUser (rq_auth r) (now_seconds r)) "Kesalahan server" k.

(** [uploadFile('bukti_pengeluaran')] ahead of a handler that reads [req.file]. *)
Definition with_upload (r : request) (k : option string → handler) : handler :=
  then_mw (uploadFile "bukti_pengeluaran" (rq_file r) (rq_now r) (rq_rnd r)) "" k.

(** [routes/AuthRoute.js] *)
Definition AuthRoute : list route :=
  [mk_route POST [Lit "login"] (λ _ r, AuthController.login_handler (rq_body r) (now_seconds r));
   mk_route GET [Lit "me"] (λ _ r, with_user r (λ ru, AuthController.me_handler (Some ru)));
   mk_route POST [Lit "logout"]
     (λ _ r, with_user r (λ _, run_handler "Terjadi kesalahan server" AuthController.logout))].

(** [routes/PengeluaranRoute.js]: the writes pass [verifyUser], then the
    upload; [adminOnly] is imported but on no line. *)
Definition PengeluaranRoute : list route :=
  [mk_route GET [Lit "total"] (λ _ _, PengeluaranController.countPengeluaran_handler);
   mk_route GET [] (λ _ _, PengeluaranController.getAllPengeluaran_handler);
   mk_route GET [Param] (λ ps _, PengeluaranController.getPengeluaranById_handler (param ps));
   mk_route POST [] (λ _ r, with_user r (λ _, with_upload r (λ f,
     PengeluaranController.createPengeluaran_handler (rq_body r) f)));
   mk_route PUT [Param] (λ ps r, with_user r (λ _, with_upload r (λ f,
     PengeluaranController.updatePengeluaran_handler (param ps) (rq_body r) f)));
   mk_route DELETE [Param] (λ ps r, with_user r (λ _,
     PengeluaranController.deletePengeluaran_handler (param ps)))].

End routes.

(** [routes/KaryawanRoute.js] *)
Definition KaryawanRoute : list route :=
  [mk_route GET [Lit "count"] (λ _ _, KaryawanController.countKaryawan_handler);
   mk_route GET [] (λ _ _, KaryawanController.getAllKaryawan_handler);
   mk_route GET [Param] (λ ps _, KaryawanController.getKaryawanById_handler (param ps));
   mk_route POST [] (λ _ r, KaryawanController.createKaryawan_handler (rq_body r));
   mk_route PUT [Param] (λ ps r, KaryawanController.updateKaryawan_handler (param ps) (rq_body r));
   mk_route DELETE [Param] (λ ps _, KaryawanController.deleteKaryawan_handler (param ps))].

(** [routes/KelasRoute.js] *)
Definition KelasRoute : list route :=
  [mk_route GET [] (λ _ _, KelasController.getAllKelas_handler);
   mk_route GET [Param] (λ ps _, KelasController.getKelasById_handler (param ps));
   mk_route POST [] (λ _ r, KelasController.createKelas_handler (rq_body r));
   mk_route PUT [Param] (λ ps r, KelasController.updateKelas_handler (param ps) (rq_body r));
   mk_route DELETE [Param] (λ ps _, KelasController.deleteKelas_handler (param ps))].

(** [routes/MasterBiayaRoute.js] *)
Definition MasterBiayaRoute : list route :=
  [mk_route GET [] (λ _ r, MasterBiayaController.getAllMasterBiaya_handler (field (rq_query r) "nama_biaya"));
   mk_route GET [Param] (λ ps _, MasterBiayaController.getMasterBiayaById_handler (param ps));
   mk_route POST [] (λ _ r, MasterBiayaController.createMasterBiaya_handler (rq_body r));
   mk_route PUT [Param] (λ ps r, MasterBiayaController.updateMasterBiaya_handler (param ps) (rq_body r));
   mk_route DELETE [Param] (λ ps _, MasterBiayaController.deleteMasterBiaya_handler (param ps))].

(** [routes/OrangTuaRoute.js] *)
Definition OrangTuaRoute : list route :=
  [mk_route GET [] (λ _ _, OrangTuaController.getAllOrangTua_handler);
   mk_route GET [Param] (λ ps _, OrangTuaController.getOrangTuaById_handler (param ps));
   mk_route POST [] (λ _ r, OrangTuaController.createOrangTua_handler (rq_body r));
   mk_route PUT [Param] (λ ps r, OrangTuaController.updateOrangTua_handler (param ps) (rq_body r));
   mk_route DELETE [Param] (λ ps _, OrangTuaController.deleteOrangTua_handler (param ps))].

(** [routes/PemasukanRoute.js] *)
Definition PemasukanRoute : list route :=
  [mk_route GET [Lit "total"] (λ _ _, PemasukanController.countPemasukan_handler);
   mk_route GET [] (λ _ _, PemasukanController.getAllPemasukan_handler);
   mk_route GET [Param] (λ ps _, PemasukanController.getPemasukanById_handler (param ps));
   mk_route POST [] (λ _ r, PemasukanController.createPemasukan_handler (rq_body r));
   mk_route PUT [Param] (λ ps r, PemasukanController.updatePemasukan_handler (param ps) (rq_body r));
   mk_route DELETE [Param] (λ ps _, PemasukanController.deletePemasukan_handler (param ps))].

(** [routes/SiswaRoute.js] *)
Definition SiswaRoute : list route :=
  [mk_route GET [Lit "count"] (λ _ _, SiswaController.countSiswa_handler);
   mk_route GET [] (λ _ r, SiswaController.getAllSiswa_handler (field (rq_query r) "ortu_id"));
   mk_route GET [Param] (λ ps _, SiswaController.getSiswaById_handler (param ps));
   mk_route POST [] (λ _ r, SiswaController.createSiswa_handler (rq_body r));
   mk_route PUT [Param] (λ ps r, SiswaController.updateSiswa_handler (param ps) (rq_body r));
   mk_route DELETE [Param] (λ ps _, SiswaController.deleteSiswa_handler (param ps))].

(** [routes/TagihanRoute.js]: no authentication on any line; the date
    [updateTagihan] stamps is today's. *)
Definition TagihanRoute : list route :=
  [mk_route GET [] (λ _ r, TagihanController.getAllTagihan_handler (field (rq_query r) "siswa_id"));
   mk_route GET [Param] (λ ps _, TagihanController.getTagihanById_handler (param ps));
   mk_route POST [] (λ _ r, TagihanController.createTagihan_handler (rq_body r));
   mk_route PUT [Param] (λ ps r,
     TagihanController.updateTagihan_handler (param ps) (rq_body r) (iso_date (rq_now r)));
   mk_route DELETE [Param] (λ ps _, TagihanController.deleteTagihan_handler (param ps))].

Section app.
Context `{Hasher} `{Jwt}.

(** [router.use('/<prefix>', <Router>)] under [app.use('/api', router)], in
    the order of [index.js].  The [/users] mount names
    [./routes/UserRoute], a file the repository does not contain. *)
Definition mounts : list (string * list route) :=
  [("auth", AuthRoute); ("karyawan", KaryawanRoute); ("kelas", KelasRoute);
   ("masterbiaya", MasterBiayaRoute); ("orangtua", OrangTuaRoute);
   ("pemasukan", PemasukanRoute); ("pengeluaran", PengeluaranRoute);
   ("siswa", SiswaRoute); ("tagihan", TagihanRoute)].

Definition app (r : request) : option handler :=
  match rq_path r with
  | a :: prefix :: p =>
      if String.eqb a "api" then assoc prefix mounts ≫= λ rts, dispatch rts r p else None
  | _ => None
  end.

(** Express's final handler for a path no route matches. *)
Definition not_found : reply := mk_reply 404 JsonNull.

Definition serve (r : request) (s : store) : reply * store :=
  match app r with Some h => h s | None => (not_found, s) end.

(** Requests served one after the other. *)
Fixpoint serve_all (rs : list request) (s : store) : list reply * store :=
  match rs with
  | [] => ([], s)
  | r :: rs' => let '(rep, s1) := serve r s in
                let '(reps, s2) := serve_all rs' s1 in (rep :: reps, s2)
  end.

End app.

(** ** Finding the line that answers *)
Lemma meth_eqb_eq a b : meth_eqb a b = true → a = b.
Proof. by destruct a, b. Qed.

Lemma dispatch_elem rts r p h :
  dispatch rts r p = Some h →
  ∃ rt ps, rt ∈ rts ∧ rt_method rt = rq_method r ∧ h = rt_handler rt ps r.
Proof.
  induction rts as [|rt rts IH]; cbn; [done|].
  destruct (meth_eqb _ _) eqn:Em; [destruct (match_pattern _ _) as [ps|]|]; intros E.
  - invc E. exists rt, ps. split; [left|]. by split; [apply meth_eqb_eq|].
  - destruct (IH E) as (rt' & ps & ? & ?). exists rt', ps. split; [right|]; done.
  - destruct (IH E) as (rt' & ps & ? & ?). exists rt', ps. split; [right|]; done.
Qed.

(** Split a membership in a concrete list of routes into one goal per line. *)
Ltac by_route Hin :=
  repeat (apply elem_of_cons in Hin as [->|Hin]); [..|by apply elem_of_nil in Hin].

Section app_lemmas.
Context `{Hasher} `{Jwt}.

(** Every route of the application. *)
Definition all_routes : list route := mounts ≫= snd.

Lemma app_route r h :
  app r = Some h → ∃ rt ps, rt ∈ all_routes ∧ rt_method rt = rq_method r ∧ h = rt_handler rt ps r.
Proof.
  unfold app. destruct (rq_path r) as [|a [|prefix p]]; [done|done|].
  destruct (String.eqb a "api"); [|done].
  destruct (assoc prefix mounts) as [rts|] eqn:E; [|done]. cbn [mbind option_bind]. intros Hd.
  destruct (dispatch_elem _ _ _ _ Hd) as (rt & ps & Hin & Hm & ->). exists rt, ps. split; [|done].
  apply list_elem_of_bind. exists (prefix, rts). split; [done|]. by apply assoc_elem.
Qed.

Lemma app_mount r prefix p rts :
  rq_path r = "api" :: prefix :: p → assoc prefix mounts = Some rts → app r = dispatch rts r p.
Proof. intros Hp Hm. unfold app. rewrite Hp, Hm. done. Qed.

End app_lemmas.
