(* ===== verification/Api.v ===== *)
(** * Properties of the whole API

    Theorems over every line of every router that [index.js] mounts: what
    a refused request may change, what a read may change, and the
    authentication boundary of the expenditure routes. *)

From stdpp Require Import base gmap strings list.
From Stdlib Require Import ZArith QArith Ascii String.
From S2P Require Import Prelude JsValue Validators Schema Store Clock Erd Handler Views Crypto.
From S2P Require Import Tagihan MasterBiaya Pemasukan Upload Frame Pengeluaran Siswa Kelas Karyawan OrangTua Auth Routes.

Local Open Scope Z_scope.
Local Open Scope kape_scope.

Section api.
Context `{Hasher} `{Jwt}.

Lemma then_mw_client_error {A} (mw : M A) msg (k : A → handler) :
  frames eq mw → (∀ a, client_error_clean (k a)) → client_error_clean (then_mw mw msg k).
Proof.
  intros Hm Hk s. specialize (Hm s). unfold then_mw. destruct (mw s) as [[a|r|] s1]; cbn in *; subst.
  - apply Hk.
  - done.
  - lia.
Qed.

(** A handler that changes nothing. *)
Definition readonly (h : handler) : Prop := ∀ s, snd (h s) = s.

Lemma run_handler_readonly msg m : frames eq m → readonly (run_handler msg m).
Proof. intros Hm s. symmetry. by apply run_handler_frames. Qed.

Lemma then_mw_frames {A} (mw : M A) msg (k : A → handler) :
  frames eq mw → (∀ a, readonly (k a)) → readonly (then_mw mw msg k).
Proof.
  intros Hm Hk s. specialize (Hm s). unfold then_mw.
  destruct (mw s) as [[a|r|] s1]; cbn in Hm |- *; subst; [apply Hk|done|done].
Qed.

Lemma upload_none_frames f now rnd : frames eq (uploadFile f None now rnd).
Proof. apply frames_ret, _. Qed.

Lemma verifyUser_frames auth now : frames eq (AuthController.verifyUser auth now).
Proof. frames_tac. Qed.

Lemma all_routes_client_error rt ps r :
  rt ∈ all_routes → rq_file r = None → client_error_clean (rt_handler rt ps r).
Proof.
  intros Hin Hf. cbn in Hin. by_route Hin; cbn [rt_handler];
    repeat first
      [ apply run_handler_client_error; refuses_tac
      | apply then_mw_client_error; [apply verifyUser_frames|intros ?]
      | unfold with_upload; rewrite Hf; apply then_mw_client_error;
          [apply upload_none_frames|intros ?]
      | unfold with_user ].
Qed.

(** C2: a client error leaves the store as it was. *)
Theorem serve_client_error_no_write r s :
  rq_file r = None → 400 <= code (fst (serve r s)) < 500 → snd (serve r s) = s.
Proof.
  intros Hf. unfold serve. destruct (app r) as [h|] eqn:E; [|done].
  destruct (app_route r h E) as (rt & ps & Hin & _ & ->). by apply all_routes_client_error.
Qed.

Lemma all_routes_get_readonly rt ps r :
  rt ∈ all_routes → rt_method rt = GET → readonly (rt_handler rt ps r).
Proof.
  intros Hin Hm. cbn in Hin. by_route Hin; try discriminate Hm; cbn [rt_handler];
    first [ apply run_handler_readonly; frames_tac
          | unfold with_user; apply then_mw_frames; [apply verifyUser_frames|];
            intros ?; apply run_handler_readonly; frames_tac ].
Qed.

(** C16: a [GET] request changes nothing. *)
Theorem serve_get_readonly r s : rq_method r = GET → snd (serve r s) = s.
Proof.
  intros Hm. unfold serve. destruct (app r) as [h|] eqn:E; [|done].
  destruct (app_route r h E) as (rt & ps & Hin & Hrm & ->). apply all_routes_get_readonly; congruence.
Qed.

(** Every refusal of [verifyUser] is a 401. *)
Lemma verifyUser_refusal auth now s rep :
  fst (AuthController.verifyUser auth now s) = Halt rep → code rep = 401.
Proof.
  unfold AuthController.verifyUser. destruct auth as [h|]; [|by intros [= <-]].
  destruct (String.prefix _ _); [|by intros [= <-]].
  destruct (jwt_verify _ _) as [c|[]]; try by intros [= <-].
  unfold bind, find_key, read. cbn. by destruct (tbl_find _ _); cbn; [|intros [= <-]].
Qed.

(** C5: the expenditure writes are behind [verifyUser]: a [POST], [PUT]
    or [DELETE] on [/api/pengeluaran] whose token [verifyUser] refuses
    (no [Authorization] header, no [Bearer] prefix, a bad signature, an
    expired token, or an account that no longer exists) is answered with
    that refusal, a 401, before the upload or the handler runs, and the
    store is unchanged. *)
Theorem pengeluaran_write_needs_token r s p rep :
  rq_method r ≠ GET → rq_path r = "api" :: "pengeluaran" :: p → app r ≠ None →
  fst (AuthController.verifyUser (rq_auth r) (now_seconds r) s) = Halt rep →
  serve r s = (rep, s) ∧ code rep = 401.
Proof.
  intros Hm Hp Happ Hv. split; [|exact (verifyUser_refusal _ _ _ _ Hv)].
  pose proof (verifyUser_frames (rq_auth r) (now_seconds r) s) as Hs. cbn in Hs.
  destruct (AuthController.verifyUser _ _ s) as [o s'] eqn:Ev. cbn in Hv, Hs. subst o s'.
  unfold serve. rewrite (app_mount r "pengeluaran" p PengeluaranRoute Hp eq_refl) in *.
  destruct (dispatch _ r p) as [h|] eqn:E; [|done].
  destruct (dispatch_elem _ _ _ _ E) as (rt & ps & Hin & Hrm & ->).
  by_route Hin; cbn in Hrm; try (rewrite <- Hrm in Hm; congruence);
    cbn [rt_handler]; unfold with_user, then_mw; rewrite Ev; reflexivity.
Qed.

(** C7: the bill routes carry no authentication: any client, without a
    token, reaches [updateTagihan], and with it the paid transition. *)
Theorem tagihan_update_unauthenticated r s id :
  rq_path r = ["api"; "tagihan"; id] → rq_method r = PUT →
  serve r s = TagihanController.updateTagihan_handler (JStr id) (rq_body r) (iso_date (rq_now r)) s.
Proof.
  intros Hp Hm. unfold serve. rewrite (app_mount r "tagihan" [id] TagihanRoute Hp eq_refl).
  cbn [dispatch TagihanRoute rt_method rt_pattern rt_handler match_pattern]. rewrite Hm. done.
Qed.

End api.

Definition anonymous_request (m : meth) (path : list string) (b : req_body) (f : option upload) : request :=
  mk_request m path None [] b f 1710000000000 42.

(** A forged token: a [Bearer] header that does not verify. *)
Definition forged_request : request :=
  mk_request POST ["api"; "pengeluaran"] (Some "Bearer forged") [] [] None 1710000000000 42.

Lemma pengeluaran_write_needs_token_witness :
  serve forged_request empty_store = (fail_reply 401 "Token tidak valid", empty_store) ∧
  code (fail_reply 401 "Token tidak valid") = 401.
Proof.
  apply (pengeluaran_write_needs_token _ _ []); try reflexivity; try discriminate;
    vm_compute; first [discriminate | reflexivity].
Defined.

Lemma tagihan_update_unauthenticated_witness :
  serve (anonymous_request PUT ["api"; "tagihan"; "1"] [("status", JStr "lunas")] None) empty_store =
  TagihanController.updateTagihan_handler (JStr "1") [("status", JStr "lunas")]
    (iso_date 1710000000000) empty_store.
Proof. apply tagihan_update_unauthenticated; reflexivity. Defined.

Lemma serve_client_error_no_write_witness :
  snd (serve (anonymous_request POST ["api"; "tagihan"] [] None) empty_store) = empty_store.
Proof.
  apply serve_client_error_no_write; [reflexivity|].
  assert (code (fst (serve (anonymous_request POST ["api"; "tagihan"] [] None) empty_store)) = 400)
    as -> by (vm_compute; reflexivity).
  lia.
Defined.

Lemma serve_get_readonly_witness :
  snd (serve (anonymous_request GET ["api"; "tagihan"] [] None) empty_store) = empty_store.
Proof. apply serve_get_readonly. reflexivity. Defined.
