(* ===== verification/Wf.v ===== *)
(** * Every request keeps the store well formed

    [Store.store_wf] is the shape every table of the database has: its
    auto-increment counter is positive and above every key in use, so that
    the next [INSERT] gets a fresh key.  This file shows that every write
    the handlers do (an insert, an update of an existing row, a delete with
    its ON DELETE actions, an evidence file written or removed) keeps that
    shape, through a class of laws each table's [Table] instance satisfies,
    and then that every line of every router keeps it. *)

From stdpp Require Import base gmap strings list.
From Stdlib Require Import ZArith QArith Ascii String.
From S2P Require Import Prelude JsValue Validators Schema Store Clock Erd Handler Views Crypto.
From S2P Require Import Tagihan MasterBiaya Pemasukan Upload Frame Pengeluaran Siswa Kelas Karyawan OrangTua.
From S2P Require Import Auth Routes Api.

Local Open Scope Z_scope.
Local Open Scope kape_scope.

(** A run that starts well formed ends well formed. *)
Definition wf_step (s s' : store) : Prop := store_wf s → store_wf s'.

#[export] Instance wf_step_preorder : PreOrder wf_step.
Proof. unfold wf_step. split; [by intros s|]. intros s1 s2 s3 H12 H23 H. by apply H23, H12. Qed.

(** ** Tables *)
Lemma tbl_filter_wf {A} (p : A → bool) t : tbl_wf t → tbl_wf (tbl_filter p t).
Proof.
  intros [Hn Hb]. split; [done|]. intros k x Hk. cbn in Hk.
  apply map_lookup_filter_Some in Hk as [Hk _]. by apply (Hb k x).
Qed.

Lemma tbl_map_wf {A} (f : A → A) t : tbl_wf t → tbl_wf (tbl_map f t).
Proof.
  intros [Hn Hb]. split; [done|]. intros k x Hk. cbn in Hk.
  apply lookup_fmap_Some in Hk as (y & _ & Hk). by apply (Hb k y).
Qed.

(** What a table's place in the store promises: updating it touches
    nothing else, and its delete, cascades included, keeps the store well
    formed. *)
Class TableWf (A : Type) `{Table A} := {
  tsel_wf s : store_wf s → tbl_wf (tsel s);
  tset_wf f s : store_wf s → tbl_wf (f (tsel s)) → store_wf (tset f s);
  tdelete_wf k s s' : tdelete k s = Some s' → store_wf s → store_wf s'
}.

Ltac store_wf_tac :=
  intros; unfold store_wf in *; cbn in *;
  repeat match goal with H : _ ∧ _ |- _ => destruct H end;
  repeat match goal with |- _ ∧ _ => split end; auto using tbl_delete_wf, tbl_filter_wf, tbl_map_wf.

Lemma cascade_users_wf p s : store_wf s → store_wf (cascade_users p s).
Proof. unfold cascade_users. store_wf_tac. Qed.

Lemma set_files_wf f s : store_wf s → store_wf (set_files f s).
Proof. store_wf_tac. Qed.

Ltac table_wf_tac :=
  split;
  [ intros s Hs; store_wf_tac
  | intros f s Hs Hf; store_wf_tac
  | intros k s s' Hd Hs; cbn in Hd; unfold del_siswa, del_ortu, del_kelas, del_karyawan, del_user,
      del_tagihan, del_pemasukan, del_pengeluaran, del_master_biaya in Hd;
    repeat destruct (referenced _ _ _); try discriminate; injection Hd as <-;
    try apply cascade_users_wf; store_wf_tac ].

#[export] Instance siswa_wf : TableWf siswa. Proof. table_wf_tac. Qed.
#[export] Instance ortu_wf : TableWf orang_tua. Proof. table_wf_tac. Qed.
#[export] Instance kelas_wf : TableWf kelas. Proof. table_wf_tac. Qed.
#[export] Instance karyawan_wf : TableWf karyawan. Proof. table_wf_tac. Qed.
#[export] Instance user_wf : TableWf user. Proof. table_wf_tac. Qed.
#[export] Instance tagihan_wf : TableWf tagihan. Proof. table_wf_tac. Qed.
#[export] Instance pemasukan_wf : TableWf pemasukan. Proof. table_wf_tac. Qed.
#[export] Instance pengeluaran_wf : TableWf pengeluaran. Proof. table_wf_tac. Qed.
#[export] Instance master_biaya_wf : TableWf master_biaya. Proof. table_wf_tac. Qed.

(** ** The writes of the handler monad *)

Section writes.
Context {A} `{TableWf A}.

Lemma frames_create_wf (x : A) : frames wf_step (create x).
Proof.
  intros s Hs. unfold create. destruct (trefs s x); [|done].
  pose proof (tbl_insert_wf (tsel s) x (tsel_wf s Hs)) as Hi.
  destruct (tbl_insert x (tsel s)) as [k t]. by apply tset_wf.
Qed.

Lemma frames_save_wf k (x : A) : frames wf_step (save k x).
Proof.
  intros s Hs. unfold save. destruct (has_row (tsel s) k) eqn:Eh; [|done].
  destruct (trefs s x); [|done]. apply tset_wf; [done|].
  apply tbl_put_wf; [by apply tsel_wf|]. by apply has_row_some.
Qed.

Lemma frames_destroy_wf k : frames wf_step (destroy (A:=A) k).
Proof.
  intros s Hs. unfold destroy. destruct (tdelete k s) as [s'|] eqn:E; [|done].
  by apply (tdelete_wf k s s').
Qed.

End writes.

Lemma frames_files_wf {B} (b : B) g : frames wf_step (λ s, (Next b, set_files g s)).
Proof. intros s Hs. exact (set_files_wf _ s Hs). Qed.

Lemma frames_unlink_wf p : frames wf_step (unlink_if_exists p).
Proof. intros s Hs. exact (set_files_wf _ s Hs). Qed.

#[export] Hint Resolve frames_unlink_wf frames_files_wf : frames.
#[export] Hint Extern 1 (frames wf_step (create _)) => apply frames_create_wf : frames.
#[export] Hint Extern 1 (frames wf_step (save _ _)) => apply frames_save_wf : frames.
#[export] Hint Extern 1 (frames wf_step (destroy _)) => apply frames_destroy_wf : frames.

(** ** Every route *)
Lemma frames_eq_wf {A} (m : M A) : frames eq m → frames wf_step m.
Proof. intros Hm s. rewrite <-(Hm s). by intros ?. Qed.

Section routes.
Context `{Hasher} `{Jwt}.

(** A handler that keeps the store well formed. *)
Definition keeps_wf (h : handler) : Prop := ∀ s, wf_step s (snd (h s)).

Lemma run_handler_wf msg m : frames wf_step m → keeps_wf (run_handler msg m).
Proof. intros Hm s. exact (run_handler_frames wf_step msg m s Hm). Qed.

Lemma then_mw_wf {A} (mw : M A) msg (k : A → handler) :
  frames wf_step mw → (∀ a, keeps_wf (k a)) → keeps_wf (then_mw mw msg k).
Proof.
  intros Hm Hk s. specialize (Hm s). unfold then_mw.
  destruct (mw s) as [[a|r|] s1]; cbn in Hm |- *; [|done|done]. etrans; [exact Hm | apply Hk].
Qed.

Lemma uploadFile_wf f file now rnd : frames wf_step (uploadFile f file now rnd).
Proof. unfold uploadFile. destruct file; frames_tac. Qed.

Lemma all_routes_wf rt ps r : rt ∈ all_routes → keeps_wf (rt_handler rt ps r).
Proof.
  intros Hin. cbn in Hin. by_route Hin; cbn [rt_handler];
    repeat first
      [ apply run_handler_wf; frames_tac
      | unfold with_user; apply then_mw_wf; [apply frames_eq_wf, verifyUser_frames|intros ?]
      | unfold with_upload; apply then_mw_wf; [apply uploadFile_wf|intros ?] ].
Qed.

End routes.

Lemma empty_store_wf : store_wf empty_store.
Proof. store_wf_tac; split; try done; intros k x Hk; by rewrite lookup_empty in Hk. Qed.

