(* ===== verification/Billing.v ===== *)
(** * The billing lifecycle and the update that implements it

    The lifecycle of a bill (spec §4.4) is a relation between its status
    before and after an update and the number of income rows the update
    adds: the unpaid-to-paid transition adds one, every other change adds
    none, including paid back to unpaid, which the update accepts.
    [updateTagihan_refines] shows that every successful run of
    [TagihanController.updateTagihan] is a step of this relation, with the
    income row it adds written out.  [createPemasukan_refines] does the
    same for a payment recorded by hand: one income row, with the amount
    rounded to hundredths, so that a positive amount below 0.005 is
    stored as zero. *)

From stdpp Require Import base gmap strings list.
From Stdlib Require Import ZArith QArith Ascii String.
From S2P Require Import Prelude JsValue Validators Schema Store Erd Handler Views Tagihan MasterBiaya.
From S2P Require Import Siswa Kelas Karyawan OrangTua Pemasukan Frame.

Local Open Scope Z_scope.
Local Open Scope kape_scope.

Inductive lifecycle : status → status → nat → Prop :=
| lc_pay : lifecycle BelumLunas Lunas 1
| lc_keep st : lifecycle st st 0
| lc_reopen : lifecycle Lunas BelumLunas 0.

(** The income rows an update of bill [k] added: none, or the one the
    transition synthesises from the bill's amount [c] and its fee
    catalogue entry [bid]. *)
Definition incomes_added (k bid c : Z) (today : string) (s s' : store) (n : nat) : Prop :=
  match n with
  | O => st_pemasukan s' = st_pemasukan s
  | S _ => ∃ bi, tbl_find bid (st_master_biaya s) = Some bi ∧
           st_pemasukan s' = snd (tbl_insert (TagihanController.auto_pemasukan k c today bi) (st_pemasukan s))
  end.

Definition paid_transition (before after : status) : bool :=
  bool_decide (before = BelumLunas ∧ after = Lunas).

Lemma lifecycle_total p q : lifecycle p q (if paid_transition p q then 1 else 0)%nat.
Proof. destruct p, q; constructor. Qed.

(** [prevStatus !== 'lunas' && updatedStatus === 'lunas'] is the transition. *)
Lemma transition_cond p u st :
  status_of u = Some st →
  negb (String.eqb (status_str p) "lunas") && strict_eq u (JStr "lunas") = paid_transition p st.
Proof. intros Hu. apply enum_of_some in Hu as ->. by destruct p, st. Qed.

(** The synthesised income is written when its bill and fee exist. *)
Lemma date_col_valid d : valid_date d = true → date_col (JStr d) = Some d.
Proof. intros Hd. unfold date_col. cbn. by rewrite Hd. Qed.

Lemma record_income_run k bi J c today s :
  valid_date today = true → has_row (st_tagihan s) k = true → decimal_col J = Some c →
  snd (TagihanController.record_income k (Some bi) J today s) =
  set_pemasukan (λ _, snd (tbl_insert (TagihanController.auto_pemasukan k c today bi) (st_pemasukan s))) s.
Proof.
  intros Hd Hk HJ. unfold TagihanController.record_income, create, bind, col, ret.
  rewrite HJ, date_col_valid by done.
  cbn [trefs pemasukan_table]. unfold pemasukan_refs. cbn [TagihanController.auto_pemasukan p_tagihan_id].
  by rewrite Hk.
Qed.

Lemma tagihan_refs_biaya s x :
  tagihan_refs s x = true → ∃ bi, tbl_find (t_biaya_id x) (st_master_biaya s) = Some bi.
Proof. unfold tagihan_refs. intros [_ H]%andb_prop. by apply has_row_some. Qed.

(** What a successful update of bill [id] did to the store [s]. *)
Definition update_post (id : jsval) (today : string) (s s' : store) : Prop :=
  ∃ k t t', pk_of id = Some k ∧ tbl_find k (st_tagihan s) = Some t ∧
    tbl_find k (st_tagihan s') = Some t' ∧
    ∃ n, lifecycle (t_status t) (t_status t') n ∧ incomes_added k (t_biaya_id t') (t_jumlah t') today s s' n.

Section close.
Context (id : jsval) (today : string) (s : store) (k : Z) (t x : tagihan) (U J : jsval).
Hypotheses (Hday : valid_date today = true) (Hid : pk_of id = Some k) (Ht : tbl_find k (st_tagihan s) = Some t)
  (HU : status_of U = Some (t_status x)) (HJ : decimal_col J = Some (t_jumlah x))
  (Hrefs : tagihan_refs s x = true).

Lemma close_pay :
  negb (String.eqb (status_str (t_status t)) "lunas") && strict_eq U (JStr "lunas") = true →
  update_post id today s (snd (TagihanController.record_income k
    (tbl_find (t_biaya_id x) (st_master_biaya (set_tagihan (tbl_put k x) s))) J today
    (set_tagihan (tbl_put k x) s))).
Proof.
  rewrite (transition_cond _ _ _ HU). intros Hp.
  destruct (tagihan_refs_biaya _ _ Hrefs) as [bi Hbi]. cbn [st_master_biaya set_tagihan]. rewrite Hbi.
  rewrite record_income_run with (c := t_jumlah x) by (cbn; eauto using has_row_find, tbl_put_find).
  exists k, t, x. split; [done|]. split; [done|]. split; [apply tbl_put_find|].
  exists 1%nat. pose proof (lifecycle_total (t_status t) (t_status x)) as Hl. rewrite Hp in Hl.
  split; [done|]. by exists bi.
Qed.

Lemma close_keep :
  negb (String.eqb (status_str (t_status t)) "lunas") && strict_eq U (JStr "lunas") = false →
  update_post id today s (set_tagihan (tbl_put k x) s).
Proof.
  rewrite (transition_cond _ _ _ HU). intros Hp.
  exists k, t, x. do 2 (split; [done|]). split; [apply tbl_put_find|].
  exists 0%nat. pose proof (lifecycle_total (t_status t) (t_status x)) as Hl. rewrite Hp in Hl.
  by split.
Qed.

End close.

(** ** A successful update is a step of the lifecycle *)
Lemma updateTagihan_post id b today s0 :
  valid_date today = true →
  nexts (λ s, s = s0) (TagihanController.updateTagihan id b today) (λ _ s', update_post id today s0 s').
Proof.
  intros Hday. nexts_tac. intros r s' H. cbv beta in H.
  repeat match goal with H : ∃ _, _ |- _ => destruct H | H : _ ∧ _ |- _ => destruct H
                       | H : _ ∨ _ |- _ => destruct H end; subst; cbn [tsel tset trefs tagihan_table] in *.
  all: repeat match goal with Hp : pk_of ?i = Some _, Hf : context [match pk_of ?i with _ => _ end] |- _ =>
                rewrite Hp in Hf end.
  all: repeat match goal with H : Some _ = _ |- _ => symmetry in H end.
  all: first
    [ match goal with Hf : tbl_find ?k ?t = Some _, Hh : has_row ?t ?k = false |- _ =>
        rewrite (has_row_find _ _ _ Hf) in Hh; discriminate end
    | eapply close_keep; eassumption
    | match goal with |- update_post _ _ _ (snd (TagihanController.record_income _ _ _ _
                           (set_tagihan (tbl_put _ ?x) _))) =>
        eapply (close_pay _ _ _ _ _ x); eassumption end ].
Qed.

(** C1: every update of a bill that succeeds (200) is a step of the
    billing lifecycle: the bill [id] existed with status [p] and now has
    status [q]; when [p] is unpaid and [q] paid, exactly one income row
    was added, for the bill's new amount, today's date, the default
    payment method and a note from the bill's fee catalogue entry; in
    every other case, paid back to unpaid included, the income table is
    unchanged. *)
Theorem updateTagihan_refines id b today s r s' :
  valid_date today = true →
  TagihanController.updateTagihan_handler id b today s = (r, s') → code r = 200 →
  update_post id today s s'.
Proof.
  intros Hday E Hc. apply run_handler_success in E; [|halts_tac|lia].
  by eapply updateTagihan_post.
Qed.

(** ** A payment recorded by hand *)

(** What a successful [createPemasukan] did to the store [s]: it inserted
    one income row [x] for an existing bill, with the request's amount
    [q] rounded to hundredths, and nothing else. *)
Definition payment_post (b : req_body) (s s' : store) : Prop :=
  ∃ q x, parseFloat (field b "jumlah_bayar") = Fin q ∧ (0 < q)%Q ∧
    p_jumlah_bayar x = round_cents q ∧ int_col (field b "tagihan_id") = Some (p_tagihan_id x) ∧
    has_row (st_tagihan s) (p_tagihan_id x) = true ∧ date_col (field b "tgl_bayar") = Some (p_tgl_bayar x) ∧
    varchar_col 50 (field b "metode_pembayaran") = Some (p_metode_pembayaran x) ∧ p_keterangan x = None ∧
    s' = set_pemasukan (λ t, snd (tbl_insert x t)) s.

Lemma createPemasukan_post b s0 :
  nexts (λ s, s = s0) (PemasukanController.createPemasukan b) (λ _ s', payment_post b s0 s').
Proof.
  nexts_tac. intros r s' H. cbv beta in H.
  repeat match goal with H : ∃ _, _ |- _ => destruct H | H : _ ∧ _ |- _ => destruct H end; subst.
  match goal with Hp : negb (num_positive ?n) = false, Hc : decimal_col (JNum ?n) = Some _ |- _ =>
    destruct n as [| | |q] eqn:Eq; try discriminate Hp; try discriminate Hc end.
  match goal with Hp : negb (num_positive (Fin q)) = false, Hc : decimal_col (JNum (Fin q)) = Some ?c |- _ =>
    unfold decimal_col in Hc; cbn in Hc; destruct (Z.abs (round_cents q) <? decimal_limit); [|discriminate Hc];
    injection Hc as <-; cbn in Hp; apply negb_false_iff, negb_true_iff in Hp end.
  match goal with |- payment_post _ _ (tset (λ _, snd (tbl_insert ?x _)) _) => exists q, x end.
  split_and!; [exact Eq| |reflexivity|eassumption| |eassumption|eassumption|reflexivity|reflexivity].
  - apply Qnot_le_lt. intros Hq%Qle_bool_iff. congruence.
  - match goal with Hr : trefs _ _ = true |- _ => exact Hr end.
Qed.

(** Rounding to hundredths sends every amount below half a hundredth to 0. *)
Lemma round_cents_small q : (0 < q)%Q → (q < 1 # 200)%Q → round_cents q = 0.
Proof.
  destruct q as [n d]. unfold Qlt. cbn. intros Hpos Hlt. unfold round_cents. cbn.
  rewrite (proj2 (Z.ltb_ge _ _)) by lia. apply Z.div_small. lia.
Qed.

(** C8: a payment recorded through [POST /api/pemasukan] that succeeds
    (201) inserted exactly one income row, for an existing bill, with the
    request's date and method and its amount [q], which passed the check
    [q > 0], rounded to hundredths by the DECIMAL(10,2) column; nothing
    else changed.  An amount below 0.005 passes the check and is stored
    as 0.00. *)
Theorem createPemasukan_refines b s r s' :
  PemasukanController.createPemasukan_handler b s = (r, s') → code r = 201 →
  payment_post b s s' ∧
  ∀ q, parseFloat (field b "jumlah_bayar") = Fin q → (q < 1 # 200)%Q →
    ∃ x, s' = set_pemasukan (λ t, snd (tbl_insert x t)) s ∧ p_jumlah_bayar x = 0.
Proof.
  intros E Hc. apply run_handler_success in E; [|halts_tac|lia].
  pose proof (createPemasukan_post b s s r s' eq_refl E) as Hp. split; [done|].
  intros q Hq Hsmall. destruct Hp as (q' & x & Hq' & Hpos & Hx & _ & _ & _ & _ & _ & ->).
  rewrite Hq in Hq'. injection Hq' as <-. exists x. split; [done|]. rewrite Hx. by apply round_cents_small.
Qed.


(** ** A school with one unpaid bill *)

Definition demo_school : store :=
  let s := snd (KaryawanController.createKaryawan_handler
    [("nama", JStr "Budi"); ("posisi", JStr "Guru"); ("tgl_lahir", JStr "1980-01-01");
     ("jk", JStr "L"); ("alamat", JStr "Jl. Mawar 1"); ("no_hp", JStr "081234567890");
     ("gaji", JInt 3000000)] empty_store) in
  let s := snd (KelasController.createKelas_handler
    [("nama_kelas", JStr "1A"); ("kapasitas", JInt 30); ("tahun_ajaran", JStr "2024/2025");
     ("karyawan_id", JInt 1)] s) in
  let s := snd (OrangTuaController.createOrangTua_handler
    [("nama_ayah", JStr "Ahmad"); ("nama_ibu", JStr "Siti"); ("no_hp", JStr "081298765432")] s) in
  let s := snd (SiswaController.createSiswa_handler
    [("nama", JStr "Ani"); ("tgl_lahir", JStr "2015-05-05"); ("jk", JStr "P");
     ("alamat", JStr "Jl. Mawar 1"); ("kelas_id", JInt 1); ("ortu_id", JInt 1)] s) in
  let s := snd (MasterBiayaController.createMasterBiaya_handler
    [("nama_biaya", JStr "SPP Bulanan"); ("jumlah", JInt 150000); ("jenis_biaya", JStr "pemasukan")] s) in
  snd (TagihanController.createTagihan_handler
    [("siswa_id", JInt 1); ("biaya_id", JInt 1); ("jumlah", JInt 150000);
     ("tgl_jatuh_tempo", JStr "2024-03-10"); ("status", JStr "belum_lunas")] s).

Definition pay_body : req_body := [("status", JStr "lunas")].

Lemma updateTagihan_refines_witness :
  update_post (JStr "1") "2024-03-11" demo_school
    (snd (TagihanController.updateTagihan_handler (JStr "1") pay_body "2024-03-11" demo_school)).
Proof.
  apply (updateTagihan_refines (JStr "1") pay_body "2024-03-11" demo_school
    (fst (TagihanController.updateTagihan_handler (JStr "1") pay_body "2024-03-11" demo_school))).
  - reflexivity.
  - apply surjective_pairing.
  - vm_compute. reflexivity.
Defined.

(** A payment of a tenth of a hundredth on the bill of [demo_school]. *)
Definition tiny_payment : req_body :=
  [("tagihan_id", JInt 1); ("jumlah_bayar", JStr "0.001"); ("tgl_bayar", JStr "2024-03-12");
   ("metode_pembayaran", JStr "Tunai")].

Lemma createPemasukan_refines_witness :
  code (fst (PemasukanController.createPemasukan_handler tiny_payment demo_school)) = 201 ∧
  payment_post tiny_payment demo_school (snd (PemasukanController.createPemasukan_handler tiny_payment demo_school)) ∧
  ∀ q, parseFloat (field tiny_payment "jumlah_bayar") = Fin q → (q < 1 # 200)%Q →
    ∃ x, snd (PemasukanController.createPemasukan_handler tiny_payment demo_school) =
         set_pemasukan (λ t, snd (tbl_insert x t)) demo_school ∧ p_jumlah_bayar x = 0.
Proof.
  assert (Hc : code (fst (PemasukanController.createPemasukan_handler tiny_payment demo_school)) = 201)
    by (vm_compute; reflexivity).
  split; [exact Hc|].
  exact (createPemasukan_refines tiny_payment demo_school _ _ (surjective_pairing _) Hc).
Defined.
