(* ===== verification/Menu.v ===== *)
(** * The client's pages and menu: [frontend/src/App.js] and
      [frontend/src/components/Sidebar.jsx]

    [App.js] maps the browser path to a page: the login form at [/], the
    registration form, and the pages under the [Layout] route, which
    renders the [Sidebar] beside the page's [Outlet].  The sidebar shows the
    groups and items of [groupedMenuConfig] whose [roles] list is empty or
    contains the signed-in user's [role]; it hides itself while the session
    is loading or when nobody is signed in, and then sends the browser to
    [/].  Icons and the collapsed/expanded display state are not modelled:
    they decide how an item is drawn, not whether it is there. *)

From stdpp Require Import base strings list.
From Stdlib Require Import ZArith QArith String.
From S2P Require Import Prelude Handler.

(** JavaScript truthiness of a decoded JSON value: [null], [false], [0]
    and [""] are falsy, every array and object is truthy. *)
Definition json_truthy (j : json) : bool :=
  match j with
  | JsonNull => false
  | JsonBool b => b
  | JsonNum q => negb (Qeq_bool q 0)
  | JsonStr s => negb (String.eqb s "")
  | JsonArr _ | JsonObj _ => true
  end.

(** [!!x] of a React state holding [null], [undefined] ([None]) or a value. *)
Definition opt_truthy (o : option json) : bool := default false (json_truthy <$> o).

Module Sidebar.

Record menu_item := mk_item { it_label : string; it_to : string; it_end : bool; it_roles : list string }.
Record menu_group := mk_group { g_label : string; g_roles : list string; g_items : list menu_item }.

(** [groupedMenuConfig] *)
Definition groupedMenuConfig : list menu_group :=
  [mk_group "Umum" []
     [mk_item "Dashboard" "/dashboard" true []];
   mk_group "Transaksi & Tagihan" ["admin"; "siswa"; "orang_tua"]
     [mk_item "Tagihan" "/list-tagihan" true ["siswa"; "orang_tua"];
      mk_item "Kelola Biaya" "/kelola-biaya" false ["admin"];
      mk_item "Kelola Tagihan Siswa" "/kelola-tagihan" false ["admin"];
      mk_item "Kelola Pemasukan" "/kelola-pemasukan" false ["admin"];
      mk_item "Kelola Pengeluaran" "/kelola-pengeluaran" false ["admin"]];
   mk_group "Manajemen" ["admin"; "orang_tua"; "guru"]
     [mk_item "Kelola Guru" "/kelola-karyawan" false ["admin"];
      mk_item "Kelola Orang Tua" "/kelola-orangtua" false ["admin"];
      mk_item "Kelola Siswa" "/kelola-siswa" false ["admin"; "orang_tua"; "guru"];
      mk_item "Data Gaji" "/gaji" false ["admin"; "guru"];
      mk_item "Kelola Kelas" "/kelola-kelas" false ["admin"; "guru"];
      mk_item "Kelola Akun" "/kelola-akun" false ["admin"]];
   mk_group "Laporan" ["admin"; "kepsek"]
     [mk_item "Kelola Laporan" "/kelola-laporan" false ["admin"; "kepsek"]]].

(** [roles.includes(user.role)]: [user.role] is a JSON value, a string
    only when the session object carries one. *)
Definition includes_role (roles : list string) (role : option json) : bool :=
  match role with
  | Some (JsonStr r) => existsb (String.eqb r) roles
  | _ => false
  end.

(** [roles.length === 0 || roles.includes(user.role)] *)
Definition role_allowed (roles : list string) (role : option json) : bool :=
  match roles with [] => true | _ => includes_role roles role end.

(** One group of [visibleGroups]: [null] when the group's roles exclude the
    user or none of its items is left. *)
Definition visible_group (role : option json) (g : menu_group) : option menu_group :=
  if negb (role_allowed (g_roles g) role) then None else
  let visibleItems := List.filter (λ it, role_allowed (it_roles it) role) (g_items g) in
  match visibleItems with
  | [] => None
  | _ => Some (mk_group (g_label g) (g_roles g) visibleItems)
  end.

(** [groupedMenuConfig.map(...).filter(Boolean)] *)
Definition visibleGroups (user : json) : list menu_group :=
  omap (visible_group (field_of "role" user)) groupedMenuConfig.

(** The paths the rendered menu links to. *)
Definition menu_links (user : json) : list string :=
  visibleGroups user ≫= λ g, it_to <$> g_items g.

(** [if (isLoading || !user) return null]: the menu shown, if any. *)
Definition sidebar (isLoading : bool) (user : option json) : option (list menu_group) :=
  if isLoading || negb (opt_truthy user) then None else
  match user with Some u => Some (visibleGroups u) | None => None end.

(** The effect [if (isLoading) return; if (!user) navigate('/')]. *)
Definition sidebar_redirect (isLoading : bool) (user : option json) : option string :=
  if isLoading then None else if opt_truthy user then None else Some "/".

End Sidebar.

Module App.

Inductive page :=
| FormLogin | FormRegister | DashboardAdmin | DashboardOrtu | KelolaTagihanPage
| MasterBiayaPage | PemasukanPage | PengeluaranPage | LaporanPage | KelolaKaryawanPage
| ListUser | KelolaOrangTuaPage | KelolaSiswaPage | KelolaKelasPage | KelolaGajiPage
| ListTagihan.

(** The routes at the top of [<Routes>], then the children of the [Layout]
    route. *)
Definition top_routes : list (string * page) :=
  [("/", FormLogin); ("/register", FormRegister)].

Definition layout_routes : list (string * page) :=
  [("/dashboard-admin", DashboardAdmin); ("/dashboard", DashboardOrtu);
   ("/kelola-tagihan", KelolaTagihanPage); ("/kelola-biaya", MasterBiayaPage);
   ("/kelola-pemasukan", PemasukanPage); ("/kelola-pengeluaran", PengeluaranPage);
   ("/kelola-laporan", LaporanPage); ("/kelola-karyawan", KelolaKaryawanPage);
   ("/kelola-akun", ListUser); ("/kelola-orangtua", KelolaOrangTuaPage);
   ("/kelola-siswa", KelolaSiswaPage); ("/kelola-kelas", KelolaKelasPage);
   ("/gaji", KelolaGajiPage); ("/list-tagihan", ListTagihan)].

(** What the browser shows at [path]: a page on its own, or a page in the
    layout with the sidebar's answer beside it.  No route carries a guard:
    the [Outlet] renders the page whatever the session holds. *)
Inductive screen :=
| Bare (p : page)
| InLayout (menu : option (list Sidebar.menu_group)) (p : page)
| NoMatch.

Definition render (isLoading : bool) (user : option json) (path : string) : screen :=
  match assoc path top_routes with
  | Some p => Bare p
  | None =>
      match assoc path layout_routes with
      | Some p => InLayout (Sidebar.sidebar isLoading user) p
      | None => NoMatch
      end
  end.

End App.

(** ** What the menu shows *)

Section menu.
Import Sidebar.

Lemma visible_group_items role g g' it :
  visible_group role g = Some g' →
  it ∈ g_items g' ↔ it ∈ g_items g ∧ role_allowed (g_roles g) role = true ∧
                     role_allowed (it_roles it) role = true.
Proof.
  unfold visible_group. destruct (role_allowed (g_roles g) role) eqn:Eg; [|done].
  cbn. destruct (List.filter _ _) as [|i l] eqn:Ef; [done|]. intros [= <-]. cbn.
  rewrite <-Ef, !list_elem_of_In, filter_In. naive_solver.
Qed.

Lemma visible_group_none role g it :
  visible_group role g = None → it ∈ g_items g →
  role_allowed (g_roles g) role = true → role_allowed (it_roles it) role = false.
Proof.
  unfold visible_group. intros Hv Hit Hg. rewrite Hg in Hv. cbn in Hv.
  destruct (role_allowed (it_roles it) role) eqn:Ei; [|done].
  assert (it ∈ List.filter (λ it, role_allowed (it_roles it) role) (g_items g)) as Hin
    by (apply list_elem_of_In, filter_In; rewrite <-list_elem_of_In; auto).
  revert Hin Hv. destruct (List.filter _ _); [intros Hin; by apply not_elem_of_nil in Hin | done].
Qed.

(** the sidebar links to a path exactly when some item of
    [groupedMenuConfig] goes there and both its group's and its own
    [roles] admit the user's role (an empty list admits every role). *)
Theorem menu_links_spec user p :
  p ∈ menu_links user ↔
  ∃ g it, g ∈ groupedMenuConfig ∧ it ∈ g_items g ∧ it_to it = p ∧
          role_allowed (g_roles g) (field_of "role" user) = true ∧
          role_allowed (it_roles it) (field_of "role" user) = true.
Proof.
  unfold menu_links, visibleGroups. set (role := field_of "role" user).
  rewrite list_elem_of_bind. split.
  - intros (g' & Hp & Hg'). apply list_elem_of_omap in Hg' as (g & Hg & Hv).
    apply list_elem_of_fmap in Hp as (it & -> & Hit).
    destruct (proj1 (visible_group_items _ _ _ it Hv) Hit) as (? & ? & ?). eauto 10.
  - intros (g & it & Hg & Hit & <- & Hrg & Hri).
    destruct (visible_group role g) as [g'|] eqn:Hv.
    + exists g'. split; [apply list_elem_of_fmap; exists it; split; [done|]|].
      * by apply (visible_group_items _ _ _ it Hv).
      * apply list_elem_of_omap. eauto.
    + by rewrite (visible_group_none _ _ _ Hv Hit Hrg) in Hri.
Qed.

(** The sidebar of a loaded session with a signed-in user. *)
Lemma sidebar_signed_in u : json_truthy u = true → sidebar false (Some u) = Some (visibleGroups u).
Proof. intros Hu. unfold sidebar, opt_truthy. cbn [fmap option_fmap option_map default]. by rewrite Hu. Qed.

(** Every item of the configuration, one case per item. *)
Lemma config_items_cases (P : menu_item → Prop) :
  Forall (λ g, Forall P (g_items g)) groupedMenuConfig →
  ∀ g it, g ∈ groupedMenuConfig → it ∈ g_items g → P it.
Proof. intros Hall g it Hg Hit. rewrite Forall_forall in Hall. exact (proj1 (Forall_forall _ _) (Hall g Hg) it Hit). Qed.

Lemma layout_route_not_top path pg :
  assoc path App.layout_routes = Some pg → assoc path App.top_routes = None.
Proof.
  intros Hl%assoc_elem. unfold App.layout_routes in Hl.
  repeat (apply elem_of_cons in Hl as [Hl|Hl]; [injection Hl as -> ->; reflexivity|]).
  by apply not_elem_of_nil in Hl.
Qed.

(** C17: every link of the sidebar opens a page of the layout, for every
    user: no menu item points at a path [App.js] does not route. *)
Theorem menu_links_resolve user p :
  json_truthy user = true → p ∈ menu_links user → ∃ pg, App.render false (Some user) p = App.InLayout (Some (visibleGroups user)) pg.
Proof.
  intros Hu. rewrite menu_links_spec. intros (g & it & Hg & Hit & <- & _).
  unfold App.render. rewrite sidebar_signed_in by done.
  revert g it Hg Hit. apply config_items_cases.
  repeat constructor; eexists; reflexivity.
Qed.

End menu.

Definition guru_session : json :=
  JsonObj [("user_id", json_int 2); ("username", JsonStr "budi"); ("role", JsonStr "guru")].

Lemma menu_links_resolve_witness :
  ∃ pg, App.render false (Some guru_session) "/gaji" =
        App.InLayout (Some (Sidebar.visibleGroups guru_session)) pg.
Proof. apply menu_links_resolve; [reflexivity|]. apply list_elem_of_In. vm_compute. tauto. Defined.

