(* ===== verification/Client.v ===== *)
(** * The client session: [frontend/src/components/AppContext.jsx] and
      [frontend/src/pages/FormLogin.jsx]

    The session lives in three places: [localStorage]'s [token] (it
    survives a reload), axios's default [Authorization] header, and the
    React state [user] and [isLoading] of [AppProvider] (both reset by a
    reload).  [fetchUser] runs once when the provider mounts; it awaits
    [GET /api/auth/me], so other events can happen between the request
    and its answer: the model splits it into [fetch_start] (up to the
    [await]) and [fetch_finish] (the rest), and [pending] records that the
    request is in flight.  axios resolves a request answered 2xx and
    rejects every other answer and a network failure ([None]).

    [FormLogin.handleLogin] does not call the context's [login]: it writes
    the token to [localStorage] and the header itself and reloads the
    page, which aborts a request in flight and mounts a fresh provider. *)

From stdpp Require Import base gmap strings list.
From Stdlib Require Import ZArith QArith Ascii String.
From S2P Require Import Prelude JsValue Validators Schema Store Erd Handler Views Crypto Frame.
From S2P Require Import UserCtl Auth Session Routes Menu.

Local Open Scope Z_scope.

Module AppContext.

Record client := mk_client {
  c_token : option string;      (* localStorage.getItem('token') *)
  c_header : option string;     (* axios.defaults.headers.common['Authorization'] *)
  c_user : option json;         (* user: null or undefined is None *)
  c_loading : bool;             (* isLoading *)
  c_pending : bool }.           (* the /me request of fetchUser is in flight *)

Definition bearer (t : string) : string := ("Bearer " ++ t)%string.

(** A page load: [useState(null)], [useState(true)], axios's defaults
    empty, [localStorage] as it was. *)
Definition page_load (stored : option string) : client := mk_client stored None None true false.

(** axios's [validateStatus]: the promise resolves for a 2xx answer. *)
Definition axios_ok (r : reply) : bool := (200 <=? code r) && (code r <? 300).

(** The stored token as [if (!token)] reads it: [null] and [""] are no
    token. *)
Definition truthy_token (o : option string) : option string :=
  match o with Some t => if String.eqb t "" then None else Some t | None => None end.

(** [fetchUser] up to its [await]: the client, and the [Authorization]
    header of the request it sends, if it sends one.  Without a token it
    only ends the loading; [localStorage] keeps what it holds. *)
Definition fetch_start (c : client) : client * option string :=
  match truthy_token (c_token c) with
  | None => (mk_client (c_token c) (c_header c) (c_user c) false (c_pending c), None)
  | Some t => (mk_client (c_token c) (Some (bearer t)) (c_user c) (c_loading c) true, Some (bearer t))
  end.

(** The rest of [fetchUser]: [setUser(res.data.data)] on success; on any
    failure the [catch] removes the token and the header; [finally] ends
    the loading. *)
Definition fetch_finish (resp : option reply) (c : client) : client :=
  match resp with
  | Some r => if axios_ok r then mk_client (c_token c) (c_header c) (reply_data r) false false
              else mk_client None None (c_user c) false false
  | None => mk_client None None (c_user c) false false
  end.

(** The context's [login(token, userData)]. *)
Definition login (t : string) (userData : json) (c : client) : client :=
  mk_client (Some t) (Some (bearer t)) (Some userData) (c_loading c) (c_pending c).

(** The context's [logout()]. *)
Definition logout (c : client) : client :=
  mk_client None None None (c_loading c) (c_pending c).

End AppContext.

Module FormLogin.
Import AppContext.

(** [String(v)] of the [token] field as [localStorage.setItem] and the
    template literal store it: a string as it is, a missing field as
    ["undefined"]. *)
Definition token_string (v : option json) : string :=
  match v with
  | Some (JsonStr s) => s
  | Some JsonNull => "null"
  | Some (JsonBool b) => if b then "true" else "false"
  | Some (JsonNum q) => num_to_string (Fin q)
  | Some (JsonArr _) => ""
  | Some (JsonObj _) => "[object Object]"
  | None => "undefined"
  end%string.

(** The credentials object [{ username, password }] of the form. *)
Definition credentials (username password : string) : req_body :=
  [("username", JStr username); ("password", JStr password)].

(** [handleLogin] after its [await]: on a 2xx answer whose [success] is
    truthy, store the token, set the header and reload; otherwise only the
    error message changes. *)
Definition handleLogin (resp : option reply) (c : client) : client :=
  match resp with
  | Some r =>
      if axios_ok r && opt_truthy (field_of "success" (body r)) then
        let t := token_string (field_of "token" (body r)) in
        page_load (Some t)
      else c
  | None => c
  end.

(** [setError(err.response?.data?.message || 'Koneksi ke server gagal')] *)
Definition login_error (resp : option reply) : option string :=
  match resp with
  | Some r =>
      if axios_ok r then None else
      match field_of "message" (body r) with
      | Some (JsonStr m) => if String.eqb m "" then Some "Koneksi ke server gagal" else Some m
      | _ => Some "Koneksi ke server gagal"
      end
  | None => Some "Koneksi ke server gagal"
  end%string.

(** The effect [if (user) navigate('/dashboard')]. *)
Definition login_redirect (user : option json) : option string :=
  if opt_truthy user then Some "/dashboard" else None.

End FormLogin.

(** ** The client's events *)

Section steps.
Import AppContext.

(** One event of the browser: the mount effect's request, its answer,
    the sidebar's logout (the sidebar is shown only to a signed-in user),
    a login submitted on the form, a reload. *)
Inductive cstep : client → client → Prop :=
| cs_fetch_start c :
    c_loading c = true → c_pending c = false → cstep c (fst (fetch_start c))
| cs_fetch_finish c resp :
    c_pending c = true → cstep c (fetch_finish resp c)
| cs_logout c ms :
    Sidebar.sidebar (c_loading c) (c_user c) = Some ms → cstep c (logout c)
| cs_login c resp : cstep c (FormLogin.handleLogin resp c)
| cs_reload c : cstep c (page_load (c_token c)).

Definition reachable (c : client) : Prop := ∃ stored, rtc cstep (page_load stored) c.

(** What the session keeps consistent. *)
Definition session_ok (c : client) : Prop :=
  (c_pending c = true → c_loading c = true ∧
     ∃ t, truthy_token (c_token c) = Some t ∧ c_header c = Some (bearer t)) ∧
  (c_loading c = true → c_user c = None) ∧
  (c_loading c = true → c_pending c = false → c_header c = None) ∧
  (c_loading c = false → c_header c = bearer <$> truthy_token (c_token c)) ∧
  (is_Some (c_user c) → is_Some (truthy_token (c_token c))).

Lemma page_load_ok stored : session_ok (page_load stored).
Proof. repeat split; cbn; done. Qed.

Lemma sidebar_shown l u ms : Sidebar.sidebar l u = Some ms → l = false.
Proof. unfold Sidebar.sidebar. by destruct l. Qed.

Lemma cstep_ok c c' : cstep c c' → session_ok c → session_ok c'.
Proof.
  unfold session_ok. intros Hs (Hp & Hl & Hh0 & Hh & Hu).
  destruct Hs as [c Hlo Hpe|c resp Hpe|c ms Hsb|c resp|c].
  - unfold fetch_start. destruct (truthy_token (c_token c)) as [t|] eqn:Ht; cbn; rewrite ?(Hl Hlo), ?Hpe, ?Ht;
      split_and!; try done; eauto; try by intros [].
  - destruct (Hp Hpe) as (Hlo & t & Ht & Hhd).
    destruct resp as [r|]; cbn; [destruct (axios_ok r)|]; cbn; rewrite ?(Hl Hlo), ?Ht, ?Hhd;
      split_and!; try done; by intros [].
  - apply sidebar_shown in Hsb. cbn. rewrite Hsb. split_and!; try done; try by intros []. intros Hpc. destruct (Hp Hpc) as [E _]. congruence.
  - destruct resp as [r|]; cbn; [destruct (_ && _)|]; [apply page_load_ok| |]; by split_and!.
  - apply page_load_ok.
Qed.

(** C9: the session stays consistent through every sequence of events
    (mount, the answer of [/api/auth/me], logout, login, reload): a
    request in flight carries [Bearer <stored token>]; nobody is signed in
    while the session loads; once loaded, axios's [Authorization] header
    is exactly [Bearer] and the token [localStorage] holds when that token
    is not empty, and absent when it is missing or [""] (which
    [if (!token)] reads as no token), so every page's request carries the
    stored token; a signed-in user always has a non-empty one. *)
Theorem session_invariant c : reachable c → session_ok c.
Proof.
  intros [stored Hr]. exact (rtc_invariant _ _ _ _ cstep_ok Hr (page_load_ok stored)).
Qed.

End steps.

(** ** Signing in, end to end *)

Module Requests.
(** [axios.post(`${REACT_APP_BACKEND}/api/auth/login`, credentials)] *)
Definition login_request (auth : option string) (username password : string) (now : Z) : request :=
  mk_request POST ["api"; "auth"; "login"] auth [] (FormLogin.credentials username password) None now 0.

(** [axios.get(`${REACT_APP_BACKEND}/api/auth/me`)] with the default header. *)
Definition me_request (auth : option string) (now : Z) : request :=
  mk_request GET ["api"; "auth"; "me"] auth [] [] None now 0.
End Requests.

Section sign_in.
Context `{HasherLaws} `{JwtLaws}.
Import AppContext AuthController Requests.

Lemma serve_login auth name p now s :
  serve (login_request auth name p now) s = login_handler (FormLogin.credentials name p) (now / 1000) s.
Proof. reflexivity. Qed.

Lemma serve_me auth now s :
  serve (me_request auth now) s =
  then_mw (verifyUser auth (now / 1000)) "Kesalahan server" (λ ru, me_handler (Some ru)) s.
Proof. reflexivity. Qed.

(** [me] for a verified user: the answer [{ success, data }] with the
    account's id, username and role. *)
Lemma me_handler_found k u s :
  tbl_find k (st_user s) = Some u →
  ∃ j, me_handler (Some (k, u)) s = (data_reply j, s) ∧ json_truthy j = true ∧
       field_of "user_id" j = Some (json_int k) ∧ field_of "role" j = Some (JsonStr (role_str (u_role u))).
Proof.
  intros Hk. unfold me_handler, run_handler, me, bind, find_key, read. cbn. rewrite Hk.
  eexists. split; [reflexivity|]. by split_and!.
Qed.

Lemma fetch_finish_data j c :
  fetch_finish (Some (data_reply j)) c = mk_client (c_token c) (c_header c) (Some j) false false.
Proof. reflexivity. Qed.

Lemma handleLogin_reply k u nama t c :
  FormLogin.handleLogin (Some (login_reply k u nama t)) c = page_load (Some t).
Proof. reflexivity. Qed.

(** C3: signing in works end to end.  A user who submits the right
    username and password on the login form at time [T] gets, once the
    reloaded page's [fetchUser] has had its answer at any later time [T']
    within the token's 24 hours, a loaded session that holds the issued
    token, sends it as [Bearer <token>], and whose [user] is the account
    [/api/auth/me] names, with its id and role, so that the sidebar shows
    that role's menu; neither request writes to the store. *)
Theorem sign_in_session c0 auth name p T T' s k u :
  name ≠ "" → p ≠ "" → find_username name s = Some (k, u) → bc_compare p (u_password u) = true →
  T <= T' → T' / 1000 < T / 1000 + token_lifetime →
  let '(r1, s1) := serve (login_request auth name p T) s in
  let '(c2, hdr) := fetch_start (FormLogin.handleLogin (Some r1) c0) in
  let '(r2, s2) := serve (me_request hdr T') s1 in
  let c3 := fetch_finish (Some r2) c2 in
  s2 = s ∧ ∃ t j, c_token c3 = Some t ∧ c_header c3 = Some (bearer t) ∧ c_user c3 = Some j ∧
    c_loading c3 = false ∧ field_of "user_id" j = Some (json_int k) ∧
    field_of "role" j = Some (JsonStr (role_str (u_role u))) ∧
    Sidebar.sidebar (c_loading c3) (c_user c3) = Some (Sidebar.visibleGroups j).
Proof.
  intros Hn Hp Hf Hc HT HT'.
  destruct (login_verify_roundtrip (FormLogin.credentials name p) name p (T / 1000) (T' / 1000) s k u)
    as (t & Ht & Hl & Hv); try done.
  { split; [apply Z.div_le_mono|]; lia. }
  rewrite serve_login, Hl, handleLogin_reply. unfold fetch_start, truthy_token. cbn [page_load c_token].
  rewrite (proj2 (String.eqb_neq _ _) Ht). cbn [fst snd].
  rewrite serve_me. unfold then_mw, bearer. rewrite Hv.
  destruct (me_handler_found k u s) as (j & Hm & Htr & Hid & Hrole); [by eapply find_username_find|].
  rewrite Hm, fetch_finish_data. split; [done|]. exists t, j.
  cbn [c_token c_header c_user c_loading page_load]. split_and!; try done.
  by apply sidebar_signed_in.
Qed.

End sign_in.

(** Signing in as the administrator of [Session.demo_users]. *)
Lemma sign_in_session_witness :
  let '(r1, s1) := serve (Requests.login_request None "admin" "rahasia" 1000000) demo_users in
  let '(c2, hdr) := AppContext.fetch_start (FormLogin.handleLogin (Some r1) (AppContext.page_load None)) in
  let '(r2, s2) := serve (Requests.me_request hdr 5000000) s1 in
  let c3 := AppContext.fetch_finish (Some r2) c2 in
  s2 = demo_users ∧ ∃ t j, AppContext.c_token c3 = Some t ∧ AppContext.c_header c3 = Some (AppContext.bearer t) ∧
    AppContext.c_user c3 = Some j ∧ AppContext.c_loading c3 = false ∧
    field_of "user_id" j = Some (json_int 1) ∧ field_of "role" j = Some (JsonStr (role_str (u_role demo_admin))) ∧
    Sidebar.sidebar (AppContext.c_loading c3) (AppContext.c_user c3) = Some (Sidebar.visibleGroups j).
Proof.
  apply (sign_in_session (AppContext.page_load None) None "admin" "rahasia" 1000000 5000000 demo_users 1 demo_admin);
    try discriminate; try (vm_compute; reflexivity); try (unfold token_lifetime; lia).
Defined.

(** A session that has loaded with a stored token. *)
Lemma session_invariant_witness :
  reachable (AppContext.fetch_finish None (fst (AppContext.fetch_start (AppContext.page_load (Some "t")))))
  ∧ session_ok (AppContext.fetch_finish None (fst (AppContext.fetch_start (AppContext.page_load (Some "t"))))).
Proof.
  assert (reachable (AppContext.fetch_finish None (fst (AppContext.fetch_start (AppContext.page_load (Some "t"))))))
    as Hr.
  { exists (Some "t"). eapply rtc_l; [apply cs_fetch_start; reflexivity|].
    eapply rtc_l; [apply cs_fetch_finish; reflexivity|]. apply rtc_refl. }
  split; [exact Hr|]. apply session_invariant. exact Hr.
Defined.
