(* ===== verification/Report.v ===== *)
(** * The financial report: [frontend/src/pages/LaporanPage.jsx] and
      [frontend/src/pages/PrintLaporan.jsx]

    The report fetches [/api/pemasukan] and [/api/pengeluaran] together,
    turns every row into a transaction [{ id, type, date, amount,
    description }] with [parseAmount], sorts the list by date, newest
    first, and shows the table re-sorted by the column the user picked,
    with the total income, the total expenditure and their difference
    under it.  The printable view computes the same three sums; no page
    imports it.

    An amount is read exactly ([parseAmount] yields a rational); the
    engine holds it as the nearest double ([to_double]), and the totals
    are the page's [reduce], a left fold of IEEE double additions in the
    order of the sorted table.  [String.prototype.localeCompare] with the
    [id-ID] collation is a library routine, an input of the model
    ([collate]). *)

From stdpp Require Import base gmap strings list sorting.
From Stdlib Require Import ZArith QArith Ascii String.
From S2P Require Import Prelude JsValue Validators Schema Store Clock Erd Handler Views Crypto.
From S2P Require Import Pemasukan Pengeluaran Routes Menu Client.
From Stdlib Require Floats Uint63.
From Stdlib Require Import Lqa.

Local Open Scope Z_scope.

(** ** Number arithmetic of JavaScript *)

(** [a + b] on numbers. *)
Definition num_add (a b : jsnum) : jsnum :=
  match a, b with
  | Fin x, Fin y => Fin (x + y)
  | NaN, _ | _, NaN => NaN
  | PInf, NInf | NInf, PInf => NaN
  | PInf, _ | _, PInf => PInf
  | NInf, _ | _, NInf => NInf
  end.

Definition num_neg (a : jsnum) : jsnum :=
  match a with Fin x => Fin (- x) | PInf => NInf | NInf => PInf | NaN => NaN end.

(** [a - b] *)
Definition num_sub (a b : jsnum) : jsnum := num_add a (num_neg b).

(** [a < b]: false whenever one side is NaN. *)
Definition num_lt (a b : jsnum) : bool :=
  match a, b with
  | Fin x, Fin y => negb (Qle_bool y x)
  | NInf, Fin _ | NInf, PInf | Fin _, PInf => true
  | _, _ => false
  end.

(** How [Array.prototype.sort] reads a comparator's result: NaN counts as
    [+0], and [a] goes before [b] unless the result is positive. *)
Definition cmp_le (r : jsnum) : bool := negb (num_lt (Fin 0) r).

(** The double the engine holds for a number: [p / q] rounded once, to
    nearest even, when [|p|] and [q] are at most [2^53] (both are then
    doubles, and the IEEE division is the only rounding).  Every value a
    DECIMAL(10,2) column holds ([|p| < 10^12], [q] dividing 100) is such
    a number, and so is every date in milliseconds. *)
Definition to_double (n : jsnum) : PrimFloat.float :=
  match n with
  | Fin q =>
      let m := PrimFloat.div (PrimFloat.of_uint63 (Uint63.of_Z (Z.abs (Qnum q))))
                             (PrimFloat.of_uint63 (Uint63.of_Z (Zpos (Qden q)))) in
      if Qnum q <? 0 then PrimFloat.opp m else m
  | NaN => PrimFloat.nan
  | PInf => PrimFloat.infinity
  | NInf => PrimFloat.neg_infinity
  end.

(** [xs.reduce((sum, x) => sum + x, 0)] on doubles. *)
Definition dsum (xs : list jsnum) : PrimFloat.float :=
  fold_left (λ sum x, PrimFloat.add sum (to_double x)) xs PrimFloat.zero.

(** ** [String(raw)] of a decoded JSON value *)
Fixpoint json_to_string (j : json) : string :=
  match j with
  | JsonNull => "null"
  | JsonBool b => if b then "true" else "false"
  | JsonNum q => num_to_string (Fin q)
  | JsonStr s => s
  | JsonArr l =>
      (fix go (l : list json) : string :=
         match l with
         | [] => ""
         | [x] => match x with JsonNull => "" | _ => json_to_string x end
         | x :: r => (match x with JsonNull => "" | _ => json_to_string x end) ++ "," ++ go r
         end) l
  | JsonObj _ => "[object Object]"
  end%string.

Definition opt_to_string (o : option json) : string :=
  match o with Some j => json_to_string j | None => "undefined" end.

Fixpoint drop_spaces (l : list ascii) : list ascii :=
  match l with c :: r => if is_js_space c then drop_spaces r else l | [] => [] end.

(** [String.prototype.trim]: JavaScript white space off both ends. *)
Definition trim (s : string) : string :=
  string_of_list_ascii (rev (drop_spaces (rev (list_ascii_of_string (trim_start s))))).

Module LaporanPage.

(** The characters [/[^0-9.,-]/g] keeps. *)
Definition amount_char (c : ascii) : bool :=
  is_digit c || Ascii.eqb c "." || Ascii.eqb c "," || Ascii.eqb c "-".

(** [parseAmount]: a number as it is; otherwise its string with every
    character but digits, [.], [,] and [-] removed; when a comma is left,
    dots are thousands separators and the comma is the decimal point;
    then [parseFloat], with NaN read as 0. *)
Definition parseAmount (raw : option json) : jsnum :=
  match raw with
  | Some (JsonNum q) => Fin q
  | _ =>
      let l := List.filter amount_char (list_ascii_of_string (trim (opt_to_string raw))) in
      let l := if existsb (λ c, Ascii.eqb c ",") l
               then map (λ c, if Ascii.eqb c "," then "."%char else c)
                        (List.filter (λ c, negb (Ascii.eqb c ".")) l)
               else l in
      match parse_float_str (string_of_list_ascii l) with NaN => Fin 0 | n => n end
  end.

Record transaction := mk_tx {
  tx_id : option json; tx_type : string; tx_date : option json; tx_amount : jsnum;
  tx_description : json }.

(** [a || b] of two object fields. *)
Definition or_field (a b : option json) : option json :=
  if opt_truthy a then a else b.

(** One row of [/api/pemasukan] as a transaction; [null.x] throws. *)
Definition income_tx (item : json) : option transaction :=
  match item with
  | JsonNull => None
  | _ => Some (mk_tx (field_of "pemasukan_id" item) "pemasukan"
                 (or_field (field_of "tgl_bayar" item) (field_of "createdAt" item))
                 (parseAmount (field_of "jumlah_bayar" item))
                 (default (JsonStr "-") (or_field (field_of "keterangan" item) (Some (JsonStr "-")))))
  end.

(** One row of [/api/pengeluaran] as a transaction. *)
Definition expense_tx (item : json) : option transaction :=
  match item with
  | JsonNull => None
  | _ => Some (mk_tx (field_of "pengeluaran_id" item) "pengeluaran"
                 (or_field (field_of "tgl_pengeluaran" item) (field_of "createdAt" item))
                 (parseAmount (field_of "jumlah" item))
                 (default (JsonStr "-") (or_field (field_of "deskripsi" item) (Some (JsonStr "-")))))
  end.

(** [res.data?.data || []]: the rows, or a [TypeError] ([None]) when
    [.map] meets something that is not an array. *)
Definition rows_of (r : reply) : option (list json) :=
  match reply_data r with
  | Some (JsonArr l) => Some l
  | Some j => if json_truthy j then None else Some []
  | None => Some []
  end.

(** [new Date(x)]: a string through [Clock.date_parse], [null] as the
    epoch, a number as itself, anything else invalid. *)
Definition js_date (x : option json) : jsnum :=
  match x with
  | Some (JsonStr s) => date_parse s
  | Some JsonNull => Fin 0
  | Some (JsonNum q) => Fin q
  | _ => NaN
  end.

(** The engine's [Array.prototype.sort] with a comparator: a stable sort
    that puts [a] before [b] when [cmp a b] is not positive. *)
Definition sort_by (cmp : transaction → transaction → jsnum) (l : list transaction) : list transaction :=
  @merge_sort _ (λ a b, cmp_le (cmp a b) = true) (λ a b, decide (cmp_le (cmp a b) = true)) l.

(** [(a, b) => new Date(b.date) - new Date(a.date)] *)
Definition by_date_desc (a b : transaction) : jsnum := num_sub (js_date (tx_date b)) (js_date (tx_date a)).

(** [fetchTransactions] once both requests are settled: the transactions,
    newest first, or the error message. *)
Definition fetchTransactions (pemasukanRes pengeluaranRes : option reply) : list transaction + string :=
  match pemasukanRes, pengeluaranRes with
  | Some r1, Some r2 =>
      if AppContext.axios_ok r1 && AppContext.axios_ok r2 then
        match rows_of r1 ≫= mapM income_tx, rows_of r2 ≫= mapM expense_tx with
        | Some l1, Some l2 => inl (sort_by by_date_desc (l1 ++ l2))
        | _, _ => inr "Gagal memuat data transaksi"
        end
      else inr (default "Gagal memuat data transaksi"
                  (match field_of "message" (body (if AppContext.axios_ok r1 then r2 else r1)) with
                   | Some (JsonStr m) => if String.eqb m "" then None else Some m
                   | _ => None end))
  | _, _ => inr "Gagal memuat data transaksi"
  end%string.

Section sorting.
(** [a.localeCompare(b, 'id-ID', { sensitivity: 'base' })] *)
Variable collate : string → string → Z.

(** [if (aVal < bVal) return asc ? -1 : 1; if (aVal > bVal) return asc ? 1 : -1; return 0] *)
Definition compare_nums (asc : bool) (a b : jsnum) : jsnum :=
  if num_lt a b then Fin (if asc then -1 else 1)%Q
  else if num_lt b a then Fin (if asc then 1 else -1)%Q
  else Fin 0.

Definition compare_strs (asc : bool) (a b : string) : jsnum :=
  Fin (inject_Z (if asc then collate a b else collate b a)).

(** [a.description || ''] as the string [localeCompare] receives (the
    backend's descriptions are strings). *)
Definition description_str (t : transaction) : string :=
  if json_truthy (tx_description t) then json_to_string (tx_description t) else "".

(** The comparator of [getSortedData] for a column. *)
Definition column_cmp (sortField : string) (asc : bool) (a b : transaction) : jsnum :=
  if String.eqb sortField "date" then compare_nums asc (js_date (tx_date a)) (js_date (tx_date b))
  else if String.eqb sortField "type" then compare_strs asc (tx_type a) (tx_type b)
  else if String.eqb sortField "description" then compare_strs asc (description_str a) (description_str b)
  else if String.eqb sortField "amount" then compare_nums asc (tx_amount a) (tx_amount b)
  else Fin 0.

(** [getSortedData()] *)
Definition getSortedData (sortField sortOrder : string) (transactions : list transaction) : list transaction :=
  if String.eqb sortField "" then transactions
  else sort_by (column_cmp sortField (String.eqb sortOrder "asc")) transactions.

(** [handleSort(field)]: the new [(sortField, sortOrder)]. *)
Definition handleSort (sortField sortOrder field : string) : string * string :=
  if String.eqb sortField field then (sortField, if String.eqb sortOrder "asc" then "desc" else "asc")
  else (field, "asc").

End sorting.

(** [sortedData.filter(t => t.type === kind).reduce((sum, t) => sum + t.amount, 0)] *)
Definition total (kind : string) (data : list transaction) : PrimFloat.float :=
  dsum (map tx_amount (List.filter (λ t, String.eqb (tx_type t) kind) data)).

(** [saldoAkhir = totalPemasukan - totalPengeluaran] *)
Definition saldoAkhir (data : list transaction) : PrimFloat.float :=
  PrimFloat.sub (total "pemasukan" data) (total "pengeluaran" data).

End LaporanPage.

Module PrintLaporan.
Import LaporanPage.

(** [t.amount || 0]: NaN and 0 read as 0. *)
Definition amount_or_0 (n : jsnum) : jsnum :=
  match n with Fin q => Fin q | NaN => Fin 0 | _ => n end.

Definition total (kind : string) (data : list transaction) : PrimFloat.float :=
  dsum (map (λ t, amount_or_0 (tx_amount t)) (List.filter (λ t, String.eqb (tx_type t) kind) data)).

Definition saldoAkhir (data : list transaction) : PrimFloat.float :=
  PrimFloat.sub (total "pemasukan" data) (total "pengeluaran" data).

End PrintLaporan.

(** ** What the report reads from a DECIMAL string *)

Fixpoint str_all (p : ascii → bool) (s : string) : bool :=
  match s with String c r => p c && str_all p r | EmptyString => true end.

Lemma str_all_app p s t : str_all p (s ++ t)%string = str_all p s && str_all p t.
Proof. induction s as [|c s IH]; [by rewrite string_app_nil|]. rewrite string_app_cons. cbn. by rewrite IH, andb_assoc. Qed.

(** A character the amount filter keeps that is not a comma. *)
Definition plain_char (c : ascii) : bool := LaporanPage.amount_char c && negb (Ascii.eqb c ",").

Lemma digit_plain d : 0 <= d < 10 → plain_char (digit_char d) = true.
Proof.
  intros Hd. assert (d = 0 ∨ d = 1 ∨ d = 2 ∨ d = 3 ∨ d = 4 ∨ d = 5 ∨ d = 6 ∨ d = 7 ∨ d = 8 ∨ d = 9)
    as Hc by lia.
  by repeat destruct Hc as [->|Hc]; [..|subst].
Qed.

Lemma pos_digits_plain f n acc :
  0 <= n → str_all plain_char acc = true → str_all plain_char (pos_digits f n acc) = true.
Proof.
  revert n acc. induction f as [|f IH]; intros n acc Hn Hacc; cbn; [done|].
  assert (Hc : str_all plain_char (String (digit_char (n mod 10)) acc) = true).
  { cbn. rewrite digit_plain by (apply Z.mod_pos_bound; lia). done. }
  destruct (n <? 10); [done|]. apply IH; [apply Z.div_pos; lia | done].
Qed.

Lemma decimal_string_plain c : str_all plain_char (decimal_string c) = true.
Proof.
  unfold decimal_string, unsigned_decimal, nat_digits, two_digits.
  rewrite !str_all_app, pos_digits_plain by first [done | apply Z.div_pos; lia].
  assert (0 <= Z.abs c mod 100 < 100) by (apply Z.mod_pos_bound; lia).
  cbn. rewrite !digit_plain; [destruct (c <? 0); done| |].
  - apply Z.mod_pos_bound; lia.
  - split; [apply Z.div_pos; lia | apply Z.div_lt_upper_bound; lia].
Qed.

Lemma filter_plain s :
  str_all plain_char s = true → List.filter LaporanPage.amount_char (list_ascii_of_string s) = list_ascii_of_string s.
Proof.
  induction s as [|c s IH]; cbn; [done|]. unfold plain_char at 1.
  destruct (LaporanPage.amount_char c); cbn; [|done]. intros [_ Hs]%andb_prop. by rewrite IH.
Qed.

Lemma no_comma s :
  str_all plain_char s = true → existsb (λ c, Ascii.eqb c ",") (list_ascii_of_string s) = false.
Proof.
  induction s as [|c s IH]; cbn; [done|]. unfold plain_char at 1.
  intros [[_ Hc]%andb_prop Hs]%andb_prop. apply negb_true_iff in Hc. by rewrite Hc, IH.
Qed.

(** Spaces are not kept by the amount filter, so [trim] does not change
    what it keeps. *)
Lemma space_not_amount c : is_js_space c = true → LaporanPage.amount_char c = false.
Proof.
  destruct c as [[] [] [] [] [] [] [] []]; cbn; try discriminate; done.
Qed.

Lemma filter_drop_spaces l :
  List.filter LaporanPage.amount_char (drop_spaces l) = List.filter LaporanPage.amount_char l.
Proof.
  induction l as [|c l IH]; cbn; [done|]. destruct (is_js_space c) eqn:E; [|done].
  by rewrite IH, space_not_amount.
Qed.

Lemma filter_trim_start s :
  List.filter LaporanPage.amount_char (list_ascii_of_string (trim_start s)) =
  List.filter LaporanPage.amount_char (list_ascii_of_string s).
Proof.
  induction s as [|c s IH]; cbn; [done|]. destruct (is_js_space c) eqn:E; [|done].
  by rewrite IH, space_not_amount.
Qed.

Lemma filter_rev (p : ascii → bool) l : List.filter p (rev l) = rev (List.filter p l).
Proof.
  induction l as [|c l IH]; cbn; [done|]. rewrite List.filter_app, IH. cbn. by destruct (p c); rewrite ?app_nil_r.
Qed.

Lemma filter_trim s :
  List.filter LaporanPage.amount_char (list_ascii_of_string (trim s)) =
  List.filter LaporanPage.amount_char (list_ascii_of_string s).
Proof.
  unfold trim. rewrite list_ascii_of_string_of_list_ascii, filter_rev, filter_drop_spaces, filter_rev,
    rev_involutive. apply filter_trim_start.
Qed.

(** [parseAmount] of the string a DECIMAL(10,2) column reads back as is
    [parseFloat] of it: the amount in hundredths over 100. *)
Lemma parseAmount_decimal c :
  ∃ q, LaporanPage.parseAmount (Some (JsonStr (decimal_string c))) = Fin q ∧ (q == c # 100)%Q.
Proof.
  destruct (parse_decimal_string_val c) as (q & Hq & Heq). exists q. split; [|done].
  unfold LaporanPage.parseAmount. cbn [opt_to_string json_to_string].
  rewrite filter_trim, filter_plain, no_comma by apply decimal_string_plain.
  by rewrite string_of_list_ascii_of_string, Hq.
Qed.

(** ** The report against the backend *)

Module ReportRequests.
(** [axios.get(`${REACT_APP_BACKEND}/api/<prefix>`)] and the dashboard's
    [axios.get(`.../api/<prefix>/total`)]. *)
Definition list_request (prefix : string) (auth : option string) (now : Z) : request :=
  mk_request GET ["api"; prefix] auth [] [] None now 0.
Definition total_request (prefix : string) (auth : option string) (now : Z) : request :=
  mk_request GET ["api"; prefix; "total"] auth [] [] None now 0.
End ReportRequests.

Section backend.
Context `{Hasher} `{Jwt}.
Import LaporanPage ReportRequests.

Lemma serve_pemasukan_list a n s :
  serve (list_request "pemasukan" a n) s =
  (data_reply (JsonArr (map (λ p, PemasukanController.pemasukan_view s p.1) (tbl_list (st_pemasukan s)))), s).
Proof. reflexivity. Qed.

Lemma serve_pengeluaran_list a n s :
  serve (list_request "pengeluaran" a n) s =
  (data_reply (JsonArr (map (λ p, PengeluaranController.pengeluaran_view s p.1) (tbl_list (st_pengeluaran s)))), s).
Proof. reflexivity. Qed.

Lemma serve_pemasukan_total a n s :
  serve (total_request "pemasukan" a n) s =
  (mk_reply 200 (JsonObj [("success", JsonBool true);
     ("total", JsonNum (PemasukanController.sum_jumlah_bayar (st_pemasukan s) # 100))]), s).
Proof. reflexivity. Qed.

Lemma serve_pengeluaran_total a n s :
  serve (total_request "pengeluaran" a n) s =
  (mk_reply 200 (JsonObj [("success", JsonBool true);
     ("total", JsonNum (PengeluaranController.sum_jumlah (st_pengeluaran s) # 100))]), s).
Proof. reflexivity. Qed.

End backend.


(** ** The report lists the backend's rows *)

Section rows.
Import LaporanPage.

(** A transaction carries the key, the kind and the amount of a row. *)
Definition tx_matches (t : transaction) (r : option json * string * Q) : Prop :=
  tx_id t = r.1.1 ∧ tx_type t = r.1.2 ∧ ∃ q, tx_amount t = Fin q ∧ (q == r.2)%Q.

Lemma rows_transactions {A} (t : table A) (view : Z → json) (conv : json → option transaction)
    (info : Z * A → option json * string * Q) :
  (∀ k x, tbl_find k t = Some x → ∃ tx, conv (view k) = Some tx ∧ tx_matches tx (info (k, x))) →
  ∃ l, mapM conv (map (λ p, view p.1) (tbl_list t)) = Some l ∧ Forall2 tx_matches l (map info (tbl_list t)).
Proof.
  intros Hrow. assert (Hin : ∀ p, p ∈ tbl_list t → tbl_find p.1 t = Some p.2)
    by (intros [k x] Hp; by apply tbl_list_find).
  induction (tbl_list t) as [|[k x] l IH]; [by exists []|].
  destruct (Hrow k x) as (tx & Hc & Hm); [apply (Hin (k, x)); left|].
  destruct IH as (l1 & Hl & Hf); [intros p Hp; apply Hin; by right|].
  exists (tx :: l1). cbn. rewrite Hc, Hl. split; [done|by constructor].
Qed.

(** Newest first is a total order for [merge_sort]: of two dates, one is
    not after the other (NaN compares as equal). *)
Lemma cmp_le_sub_total x y : cmp_le (num_sub y x) = true ∨ cmp_le (num_sub x y) = true.
Proof.
  unfold num_sub, cmp_le. destruct x as [| | |x], y as [| | |y]; cbn; auto.
  rewrite !negb_involutive. destruct (Qlt_le_dec x y) as [Hxy|Hyx]; [right|left]; apply Qle_bool_iff; lra.
Qed.

#[export] Instance by_date_desc_total : Total (λ a b, cmp_le (by_date_desc a b) = true).
Proof. intros a b. apply cmp_le_sub_total. Qed.

End rows.

Section lists.
Context `{Hasher} `{Jwt}.
Import LaporanPage ReportRequests.

Lemma axios_ok_data j : AppContext.axios_ok (data_reply j) = true.
Proof. reflexivity. Qed.

Lemma rows_of_data l : rows_of (data_reply (JsonArr l)) = Some l.
Proof. reflexivity. Qed.

(** What an income row and an expenditure row are to the report: key,
    kind, and the stored amount in hundredths. *)
Definition income_info (p : Z * pemasukan) : option json * string * Q :=
  (Some (json_int p.1), "pemasukan"%string, p_jumlah_bayar p.2 # 100).
Definition expense_info (p : Z * pengeluaran) : option json * string * Q :=
  (Some (json_int p.1), "pengeluaran"%string, g_jumlah p.2 # 100).

Lemma income_row s k x :
  tbl_find k (st_pemasukan s) = Some x →
  ∃ tx, income_tx (PemasukanController.pemasukan_view s k) = Some tx ∧ tx_matches tx (income_info (k, x)).
Proof.
  intros Hk. unfold PemasukanController.pemasukan_view. rewrite Hk. eexists. split; [reflexivity|].
  split_and!; [done|done|]. apply parseAmount_decimal.
Qed.

Lemma expense_row s k x :
  tbl_find k (st_pengeluaran s) = Some x →
  ∃ tx, expense_tx (PengeluaranController.pengeluaran_view s k) = Some tx ∧ tx_matches tx (expense_info (k, x)).
Proof.
  intros Hk. unfold PengeluaranController.pengeluaran_view. rewrite Hk. eexists. split; [reflexivity|].
  split_and!; [done|done|]. apply parseAmount_decimal.
Qed.

(** C10: the report shows exactly the backend's rows.  For every state of
    the database, the report built from [GET /api/pemasukan] and [GET
    /api/pengeluaran] loads; up to order it has one transaction per
    income row and one per expenditure row, each with the row's key, its
    kind, and the stored amount read back exactly; and it is ordered
    newest first. *)
Theorem report_lists_rows a n s :
  ∃ txs l,
    fetchTransactions (Some (fst (serve (list_request "pemasukan" a n) s)))
                      (Some (fst (serve (list_request "pengeluaran" a n) s))) = inl txs ∧
    txs ≡ₚ l ∧
    Forall2 tx_matches l (map income_info (tbl_list (st_pemasukan s)) ++
                          map expense_info (tbl_list (st_pengeluaran s))) ∧
    Sorted (λ x y, cmp_le (by_date_desc x y) = true) txs.
Proof.
  rewrite serve_pemasukan_list, serve_pengeluaran_list.
  destruct (rows_transactions (st_pemasukan s) (PemasukanController.pemasukan_view s) income_tx income_info
              (income_row s)) as (l1 & Hm1 & Hf1).
  destruct (rows_transactions (st_pengeluaran s) (PengeluaranController.pengeluaran_view s) expense_tx
              expense_info (expense_row s)) as (l2 & Hm2 & Hf2).
  exists (sort_by by_date_desc (l1 ++ l2)), (l1 ++ l2). cbn [fst].
  unfold fetchTransactions. rewrite !axios_ok_data, !rows_of_data. cbn [andb mbind option_bind].
  rewrite Hm1, Hm2. split_and!; [done| apply merge_sort_Permutation | by apply Forall2_app |].
  apply Sorted_merge_sort, _.
Qed.

End lists.

(** ** Double sums and the backend's exact sum *)

(** Two payments of 0.10 and 0.20 on the same day. *)
Definition cents_books : store :=
  set_pemasukan (λ t, snd (tbl_insert (mk_pemasukan 1 20 "2024-07-01" "Tunai" None)
                             (snd (tbl_insert (mk_pemasukan 1 10 "2024-07-01" "Tunai" None) t))))
    empty_store.

(** The report adds the doubles 0.1 and 0.2 and shows 0.30000000000000004,
    while [GET /api/pemasukan/total] sums the DECIMAL column exactly and
    the dashboard shows 0.3: the two totals differ in the last bit. *)
Lemma report_total_rounding :
  match LaporanPage.fetchTransactions
          (Some (fst (serve (ReportRequests.list_request "pemasukan" None 0) cents_books)))
          (Some (fst (serve (ReportRequests.list_request "pengeluaran" None 0) cents_books))),
        field_of "total" (body (fst (serve (ReportRequests.total_request "pemasukan" None 0) cents_books))) with
  | inl txs, Some (JsonNum q) => PrimFloat.eqb (LaporanPage.total "pemasukan" txs) (to_double (Fin q)) = false
  | _, _ => False
  end.
Proof. vm_compute. reflexivity. Qed.
