(* ===== verification/Dashboard.v ===== *)
(** * The dashboards: [frontend/src/pages/DashboardAdmin.jsx]

    [DashboardAdmin] shows four counters read from the backend's
    [/count] and [/total] routes and a bar chart of the income and
    expenditure of the last six calendar months, computed in the browser
    from the full lists [GET /api/pemasukan] and [GET /api/pengeluaran].
    The current month is read from [new Date()] in the browser's time
    zone, an input of the model ([y] and [m], as [getFullYear()] and
    [getMonth()] return them).  [Promise.all] rejects with the rejection
    that happens first; the model takes the answers to settle in the order
    of the requests.  The chart's sums are sums of doubles
    ([Report.dsum]), in the order the backend lists the rows. *)

From stdpp Require Import base gmap strings list.
From Stdlib Require Import ZArith QArith Ascii String.
From S2P Require Import Prelude JsValue Validators Schema Store Clock Erd Handler Views Crypto.
From S2P Require Import Pemasukan Pengeluaran Siswa Karyawan Routes Menu Client Report.
From Stdlib Require Floats.

Local Open Scope Z_scope.

(** [err.response?.data?.message || fallback] of a rejected request:
    [None] is a network failure or an exception of the page's own code,
    which have no [response]. *)
Definition error_message (fallback : string) (err : option reply) : string :=
  match err ≫= λ r, field_of "message" (body r) with
  | Some j => if json_truthy j then json_to_string j else fallback
  | None => fallback
  end.

(** The rejection [Promise.all] of axios requests settles with: the first
    answer that is missing or not 2xx. *)
Fixpoint first_rejected (rs : list (option reply)) : option (option reply) :=
  match rs with
  | [] => None
  | Some r :: rs' => if AppContext.axios_ok r then first_rejected rs' else Some (Some r)
  | None :: _ => Some None
  end.

(** [parseFloat(x)] of a JSON value: a number as it is, anything else
    through [ToString]. *)
Definition parse_json_float (o : option json) : jsnum :=
  match o with Some (JsonNum q) => Fin q | _ => parse_float_str (opt_to_string o) end.

(** [s.padStart(n, c)] *)
Definition pad_start (n : nat) (c : ascii) (s : string) : string :=
  (string_of_list_ascii (repeat c (n - String.length s)) ++ s)%string.

Module DashboardAdmin.

Definition allowedRoles : list string := ["admin"; "guru"; "kepsek"; "wali"].

Definition monthNames : list (string * string) :=
  [("01", "Jan"); ("02", "Feb"); ("03", "Mar"); ("04", "Apr"); ("05", "Mei"); ("06", "Jun");
   ("07", "Jul"); ("08", "Agu"); ("09", "Sep"); ("10", "Okt"); ("11", "Nov"); ("12", "Des")]%string.

(** [new Date(y, m, 1)]: a year from 0 to 99 means 19xx; the month
    index wraps into the year. *)
Definition make_full_year (y : Z) : Z := if (0 <=? y) && (y <=? 99) then 1900 + y else y.

Definition month_start (y m : Z) : Z * Z := (make_full_year y + m / 12, m mod 12).

(** [`${yyyy}-${mm}`] with [mm = String(getMonth() + 1).padStart(2, '0')]. *)
Definition ym_string (yyyy mon : Z) : string :=
  (z_to_dec yyyy ++ "-" ++ pad_start 2 "0" (z_to_dec (mon + 1)))%string.

(** The loop [for (let i = 5; i >= 0; i--)] of [fetchDashboardData]. *)
Definition lastSixMonths (y m : Z) : list string :=
  map (λ i, let '(yyyy, mon) := month_start y (m - i) in ym_string yyyy mon) [5; 4; 3; 2; 1; 0].

(** [item.<f>?.slice(0, 7) === ym]; [None] is a [TypeError]: [null.<f>],
    or [slice] called on a number, a boolean or a plain object (an
    array's [slice] is an array, never equal to a string). *)
Definition in_month (f ym : string) (item : json) : option bool :=
  match item with
  | JsonNull => None
  | _ => match field_of f item with
         | None | Some JsonNull | Some (JsonArr _) => Some false
         | Some (JsonStr s) => Some (String.eqb (substring 0 7 s) ym)
         | Some _ => None
         end
  end.

(** [Array.prototype.filter] with a predicate that may throw. *)
Fixpoint filter_throw (p : json → option bool) (l : list json) : option (list json) :=
  match l with
  | [] => Some []
  | x :: r => p x ≫= λ b : bool, filter_throw p r ≫= λ r' : list json, Some (if b then x :: r' else r')
  end.

(** [.filter(item => item.<f>?.slice(0, 7) === ym)
     .reduce((sum, item) => sum + (parseFloat(item.<a>) || 0), 0)] *)
Definition month_sum (f a ym : string) (l : list json) : option PrimFloat.float :=
  filter_throw (in_month f ym) l ≫= λ l',
    Some (dsum (map (λ item, PrintLaporan.amount_or_0 (parse_json_float (field_of a item))) l')).

Record chart_entry := mk_entry {
  ch_month : option string; ch_pemasukan : PrimFloat.float; ch_pengeluaran : PrimFloat.float }.

(** [lastSixMonths.map(ym => ({ month, pemasukan, pengeluaran }))] *)
Definition combined (y m : Z) (pemasukanList pengeluaranList : list json) : option (list chart_entry) :=
  mapM (λ ym,
    month_sum "tgl_bayar" "jumlah_bayar" ym pemasukanList ≫= λ pi,
    month_sum "tgl_pengeluaran" "jumlah" ym pengeluaranList ≫= λ pe,
    Some (mk_entry (assoc (substring 5 (String.length ym - 5) ym) monthNames) pi pe))
    (lastSixMonths y m).

Record stats := mk_stats {
  totalKaryawan : option json; totalSiswa : option json;
  totalPemasukan : option json; totalPengeluaran : option json }.

Record dash := mk_dash {
  d_stats : stats; d_chart : list chart_entry; d_loading : bool; d_error : string }.

Definition init : dash :=
  mk_dash (mk_stats (Some (json_int 0)) (Some (json_int 0)) (Some (json_int 0)) (Some (json_int 0))) [] true "".

(** [const { data: x } = res; x.total]: [null.total] throws. *)
Definition total_of (r : option reply) : option (option json) :=
  match r with
  | Some r => match body r with JsonNull => None | j => Some (field_of "total" j) end
  | None => None
  end.

Definition fallback : string := "Gagal memuat data dashboard".

(** [fetchDashboardData()] once every request is settled: the counters'
    answers, the lists' answers, the current month. *)
Definition fetchDashboardData (rk rs rpi rpe rli rle : option reply) (y m : Z) (d : dash) : dash :=
  let fail st e := mk_dash st (d_chart d) false (error_message fallback e) in
  match first_rejected [rk; rs; rpi; rpe] with
  | Some e => fail (d_stats d) e
  | None =>
      match total_of rk, total_of rs, total_of rpi, total_of rpe with
      | Some k, Some sw, Some pi, Some pe =>
          let st := mk_stats k sw pi pe in
          match first_rejected [rli; rle] with
          | Some e => fail st e
          | None =>
              match rli ≫= LaporanPage.rows_of, rle ≫= LaporanPage.rows_of with
              | Some l1, Some l2 =>
                  match combined y m l1 l2 with
                  | Some c => mk_dash st c false (d_error d)
                  | None => fail st None
                  end
              | _, _ => fail st None
              end
          end
      | _, _, _, _ => fail (d_stats d) None
      end
  end.

(** The effect on [[user]]: fetch for an allowed role, otherwise stop
    loading. *)
Definition load (user : option json) (rk rs rpi rpe rli rle : option reply) (y m : Z) (d : dash) : dash :=
  if Sidebar.includes_role allowedRoles (user ≫= field_of "role")
  then fetchDashboardData rk rs rpi rpe rli rle y m d
  else mk_dash (d_stats d) (d_chart d) false (d_error d).

(** What the page shows. *)
Inductive screen :=
| Denied
| Spinner (error : string)
| Board (error : string) (cards : list (string * option json)) (chart : option (list chart_entry)).

(** [item.pemasukan === 0 && item.pengeluaran === 0] *)
Definition num_is_zero (n : PrimFloat.float) : bool := PrimFloat.eqb n PrimFloat.zero.

Definition empty_chart (c : list chart_entry) : bool :=
  forallb (λ e, num_is_zero (ch_pemasukan e) && num_is_zero (ch_pengeluaran e)) c.

Definition render (user : option json) (d : dash) : screen :=
  let role := user ≫= field_of "role" in
  if negb (Sidebar.includes_role allowedRoles role) then Denied
  else if d_loading d then Spinner (d_error d)
  else Board (d_error d)
         (List.app (if Sidebar.includes_role ["admin"; "kepsek"]%string role
               then [("Total Karyawan"%string, totalKaryawan (d_stats d))] else [])
              [("Total Siswa"%string, totalSiswa (d_stats d)); ("Total Pemasukan"%string, totalPemasukan (d_stats d));
               ("Total Pengeluaran"%string, totalPengeluaran (d_stats d))])
         (if empty_chart (d_chart d) then None else Some (d_chart d)).

End DashboardAdmin.

(** ** The six months are six different months *)
Lemma str_length_app (a b : string) : String.length (a ++ b)%string = (String.length a + String.length b)%nat.
Proof.
  induction a as [|c a IH]; [by rewrite string_app_nil|]. rewrite string_app_cons. cbn. by rewrite IH.
Qed.

(** Two strings that end with suffixes of the same length are equal only
    if their suffixes are. *)
Lemma string_app_inj_r (a b p q : string) :
  String.length p = String.length q → (a ++ p)%string = (b ++ q)%string → p = q.
Proof.
  revert b. induction a as [|c a IH]; intros [|d b] Hl E; rewrite ?string_app_nil, ?string_app_cons in E;
    try done.
  - subst. cbn in Hl. rewrite str_length_app in Hl. lia.
  - subst. cbn in Hl. rewrite str_length_app in Hl. lia.
  - injection E as _ E. by apply (IH b).
Qed.

Lemma NoDup_map_suffix {B} (F X P : B → string) l :
  (∀ i, F i = (X i ++ P i)%string) → Forall (λ i, String.length (P i) = 2%nat) l →
  NoDup (map P l) → NoDup (map F l).
Proof.
  intros HF. induction l as [|i l IH]; intros Hl Hn; cbn; [constructor|].
  apply Forall_cons in Hl as [Hi Hl]. apply NoDup_cons in Hn as [Hni Hn].
  constructor; [|by apply IH]. intros Hin. apply Hni.
  apply list_elem_of_In, in_map_iff in Hin as (j & Hj & Hjl). apply list_elem_of_In, in_map_iff.
  exists j. split; [|done]. rewrite Forall_forall in Hl.
  apply (string_app_inj_r (X j) (X i)); [rewrite Hi; apply Hl, list_elem_of_In, Hjl|].
  by rewrite <-!HF.
Qed.

Section months.
Import DashboardAdmin.

Definition month_suffix (m i : Z) : string := pad_start 2 "0" (z_to_dec ((m - i) mod 12 + 1)).

Lemma month_suffixes m :
  Forall (λ i, String.length (month_suffix m i) = 2%nat) [5; 4; 3; 2; 1; 0] ∧
  NoDup (map (month_suffix m) [5; 4; 3; 2; 1; 0]).
Proof.
  unfold month_suffix. setoid_rewrite <-(Zminus_mod_idemp_l m).
  assert (0 <= m mod 12 < 12) as Hr by (apply Z.mod_pos_bound; lia).
  revert Hr. generalize (m mod 12) as r. intros r Hr.
  assert (r = 0 ∨ r = 1 ∨ r = 2 ∨ r = 3 ∨ r = 4 ∨ r = 5 ∨ r = 6 ∨ r = 7 ∨ r = 8 ∨ r = 9 ∨
          r = 10 ∨ r = 11) as Hc by lia.
  destruct_or! Hc; subst; split; (apply (bool_decide_unpack _); vm_compute; reflexivity).
Qed.

Lemma lastSixMonths_NoDup y m : NoDup (lastSixMonths y m).
Proof.
  destruct (month_suffixes m) as [Hl Hn]. unfold lastSixMonths.
  apply (NoDup_map_suffix _ (λ i, z_to_dec (fst (month_start y (m - i))) ++ "-")%string (month_suffix m));
    [|done|done].
  intros i. unfold month_start, ym_string, month_suffix. cbn. by rewrite string_app_assoc.
Qed.

End months.

(** ** One month of the chart *)
Lemma Forall2_map_diag {B C} (P : B → C → Prop) (g : B → C) l :
  Forall (λ x, P x (g x)) l → Forall2 P l (map g l).
Proof. induction 1; cbn; by constructor. Qed.

Lemma Forall2_conj {B C} (P Q : B → C → Prop) l k :
  Forall2 P l k → Forall2 Q l k → Forall2 (λ x y, P x y ∧ Q x y) l k.
Proof. induction 1 as [|x y l k Hp _ IH]; intros Hq; [constructor|]. inversion Hq; subst. constructor; auto. Qed.

Lemma mapM_forall {B C} (g : B → option C) (P : B → C → Prop) K :
  Forall (λ x, ∃ y, g x = Some y ∧ P x y) K → ∃ ys, mapM g K = Some ys ∧ Forall2 P K ys.
Proof.
  induction 1 as [|x K (y & Hy & Hp) _ (ys & Hm & Hf)]; [by exists []|].
  exists (y :: ys). cbn. rewrite Hy, Hm. split; [done|by constructor].
Qed.

Section month_rows.
Import DashboardAdmin.
Context {B} (view : B → json) (f a : string) (key : B → string) (amt : B → jsnum).

Definition row_amount (j : json) : jsnum := PrintLaporan.amount_or_0 (parse_json_float (field_of a j)).

(** The rows a list answer carries: each an object whose date field is a
    string with month [key x] and whose amount reads as [amt x]. *)
Definition rows_ok (l : list B) : Prop :=
  Forall (λ x, (∀ ym, in_month f ym (view x) = Some (String.eqb (key x) ym)) ∧ row_amount (view x) = amt x) l.

Lemma filter_throw_rows ym l :
  Forall (λ x, ∀ ym, in_month f ym (view x) = Some (String.eqb (key x) ym)) l →
  filter_throw (in_month f ym) (map view l) = Some (map view (List.filter (λ x, String.eqb (key x) ym) l)).
Proof.
  induction 1 as [|x l Hx _ IH]; cbn; [done|]. rewrite Hx. cbn. rewrite IH. cbn.
  by destruct (String.eqb (key x) ym).
Qed.

(** The bar of month [ym] is the double sum of the amounts of exactly the
    rows of that month, in their order. *)
Lemma month_sum_rows ym l :
  rows_ok l →
  month_sum f a ym (map view l) = Some (dsum (map amt (List.filter (λ x, String.eqb (key x) ym) l))).
Proof.
  intros [Hkey Hamt]%Forall_and. unfold month_sum. rewrite filter_throw_rows by done. cbn [mbind option_bind].
  rewrite map_map. do 2 f_equal. apply map_ext_in. intros x Hx.
  apply filter_In in Hx as [Hx _]. exact (proj1 (List.Forall_forall _ _) Hamt x Hx).
Qed.

End month_rows.

(** ** The whole chart *)

Section chart.
Import DashboardAdmin.

(** A bar per month, each the double sum of its month's rows. *)
Definition bars_ok {B} (sel : chart_entry → PrimFloat.float) (key : B → string) (amt : B → jsnum)
    (l : list B) (K : list string) (chart : list chart_entry) : Prop :=
  Forall2 (λ ym e, sel e = dsum (map amt (List.filter (λ x, String.eqb (key x) ym) l))) K chart.

Lemma combined_rows y m {B1 B2} (v1 : B1 → json) k1 w1 l1 (v2 : B2 → json) k2 w2 l2 :
  rows_ok v1 "tgl_bayar" "jumlah_bayar" k1 w1 l1 → rows_ok v2 "tgl_pengeluaran" "jumlah" k2 w2 l2 →
  ∃ chart, combined y m (map v1 l1) (map v2 l2) = Some chart ∧
    bars_ok ch_pemasukan k1 w1 l1 (lastSixMonths y m) chart ∧
    bars_ok ch_pengeluaran k2 w2 l2 (lastSixMonths y m) chart.
Proof.
  intros H1 H2. unfold combined.
  match goal with |- ∃ _, mapM ?g _ = _ ∧ _ => set (gm := g) end.
  destruct (mapM_forall gm (λ ym e,
     ch_pemasukan e = dsum (map w1 (List.filter (λ x, String.eqb (k1 x) ym) l1)) ∧
     ch_pengeluaran e = dsum (map w2 (List.filter (λ x, String.eqb (k2 x) ym) l2)))
     (lastSixMonths y m)) as (chart & Hm & Hf).
  { apply Forall_forall. intros ym _. subst gm. cbv beta.
    rewrite (month_sum_rows v1 _ _ k1 w1 ym l1 H1), (month_sum_rows v2 _ _ k2 w2 ym l2 H2). cbn.
    by eexists. }
  exists chart. split; [done|]. split; (eapply Forall2_impl; [exact Hf|]); by intros ?? [].
Qed.

End chart.

(** ** The dashboard against the backend *)

Module DashboardRequests.
(** [axios.get(`${REACT_APP_BACKEND}/api/<prefix>/count`)] *)
Definition count_request (prefix : string) (auth : option string) (now : Z) : request :=
  mk_request GET ["api"; prefix; "count"] auth [] [] None now 0.
End DashboardRequests.

Section backend.
Context `{Hasher} `{Jwt}.
Import DashboardAdmin DashboardRequests ReportRequests.

Lemma serve_siswa_count a n s :
  serve (count_request "siswa" a n) s =
  (mk_reply 200 (JsonObj [("success", JsonBool true);
     ("total", json_int (Z.of_nat (List.length (tbl_list (st_siswa s)))))]), s).
Proof. reflexivity. Qed.

Lemma serve_karyawan_count a n s :
  serve (count_request "karyawan" a n) s =
  (mk_reply 200 (JsonObj [("success", JsonBool true);
     ("total", json_int (Z.of_nat (List.length (tbl_list (st_karyawan s)))))]), s).
Proof. reflexivity. Qed.

(** [parseFloat] of the string a DECIMAL(10,2) column reads back as. *)
Definition decimal_amount (c : Z) : jsnum := parse_float_str (decimal_string c).

Lemma decimal_row_amount a c (fs : list (string * json)) :
  assoc a fs = Some (JsonStr (decimal_string c)) → row_amount a (JsonObj fs) = decimal_amount c.
Proof.
  intros Ha. unfold row_amount, parse_json_float, decimal_amount. cbn. rewrite Ha. cbn.
  destruct (parse_decimal_string_val c) as (q & -> & _). done.
Qed.

Lemma income_rows_ok s :
  rows_ok (λ p, PemasukanController.pemasukan_view s p.1) "tgl_bayar" "jumlah_bayar"
    (λ p, substring 0 7 (p_tgl_bayar p.2)) (λ p, decimal_amount (p_jumlah_bayar p.2)) (tbl_list (st_pemasukan s)).
Proof.
  apply Forall_forall. intros [k x] Hin%tbl_list_find. cbn [fst snd]. unfold PemasukanController.pemasukan_view.
  rewrite Hin. split; [done|]. by apply decimal_row_amount.
Qed.

Lemma expense_rows_ok s :
  rows_ok (λ p, PengeluaranController.pengeluaran_view s p.1) "tgl_pengeluaran" "jumlah"
    (λ p, substring 0 7 (g_tgl_pengeluaran p.2)) (λ p, decimal_amount (g_jumlah p.2)) (tbl_list (st_pengeluaran s)).
Proof.
  apply Forall_forall. intros [k x] Hin%tbl_list_find. cbn [fst snd]. unfold PengeluaranController.pengeluaran_view.
  rewrite Hin. split; [done|]. by apply decimal_row_amount.
Qed.

(** The six answers the dashboard waits for, from the backend on [s]. *)
Definition dashboard_on (a : option string) (n : Z) (s : store) (y m : Z) : dash :=
  fetchDashboardData (Some (fst (serve (count_request "karyawan" a n) s)))
    (Some (fst (serve (count_request "siswa" a n) s)))
    (Some (fst (serve (total_request "pemasukan" a n) s)))
    (Some (fst (serve (total_request "pengeluaran" a n) s)))
    (Some (fst (serve (list_request "pemasukan" a n) s)))
    (Some (fst (serve (list_request "pengeluaran" a n) s))) y m init.

(** C11: what each bar of the chart sums.  Whatever the database holds,
    the admin dashboard loads without error, and its chart has one entry
    per month of [lastSixMonths], six different months: the income bar of
    a month is the sum, in doubles and in the backend's order, of the
    amounts of exactly the payments dated in that month ([tgl_bayar]
    starting with [YYYY-MM]), and the expenditure bar likewise; so no
    row counts in two bars, and a row dated outside the six months in
    none. *)
Theorem chart_bars_by_month a n s y m :
  let d := dashboard_on a n s y m in
  d_loading d = false ∧ d_error d = ""%string ∧ NoDup (lastSixMonths y m) ∧
  Forall2 (λ ym e,
    ch_pemasukan e = dsum (map (λ p, decimal_amount (p_jumlah_bayar p.2))
      (List.filter (λ p, String.eqb (substring 0 7 (p_tgl_bayar p.2)) ym) (tbl_list (st_pemasukan s)))) ∧
    ch_pengeluaran e = dsum (map (λ p, decimal_amount (g_jumlah p.2))
      (List.filter (λ p, String.eqb (substring 0 7 (g_tgl_pengeluaran p.2)) ym) (tbl_list (st_pengeluaran s)))))
    (lastSixMonths y m) (d_chart d).
Proof.
  cbv zeta. unfold dashboard_on.
  rewrite serve_karyawan_count, serve_siswa_count, Report.serve_pemasukan_total, Report.serve_pengeluaran_total,
    Report.serve_pemasukan_list, Report.serve_pengeluaran_list.
  destruct (combined_rows y m _ _ _ _ _ _ _ _ (income_rows_ok s) (expense_rows_ok s)) as (chart & Hc & B1 & B2).
  unfold fetchDashboardData. cbn [first_rejected fst total_of body]. rewrite !Report.axios_ok_data.
  cbn [first_rejected mbind option_bind]. rewrite !Report.rows_of_data, Hc. cbn.
  split_and!; [done|done|apply lastSixMonths_NoDup|].
  exact (Forall2_conj _ _ _ _ B1 B2).
Qed.

End backend.

(** ** Who the admin dashboard admits *)

(** C15: for a user whose [role] is one of the roles of the User model, the
    admin dashboard denies access exactly to parents and students, and the
    entry ["wali"] of [allowedRoles] is no role of the model: the denial
    message names "wali siswa" among the allowed, but no account can have
    that role, and the parents' role [orang_tua] is refused. *)
Theorem admin_dashboard_roles (user : json) (r : role) (d : DashboardAdmin.dash) :
  field_of "role" user = Some (JsonStr (role_str r)) →
  (DashboardAdmin.render (Some user) d = DashboardAdmin.Denied ↔ r = OrangTua ∨ r = Siswa) ∧
  role_str r ≠ "wali"%string.
Proof.
  intros Hr. unfold DashboardAdmin.render. cbn [mbind option_bind]. rewrite Hr.
  destruct r; cbn; (split; [|discriminate]); destruct (DashboardAdmin.d_loading d);
    split; intros Hd; first [discriminate | by left | by right | done | destruct Hd; discriminate].
Qed.

Lemma admin_dashboard_roles_witness :
  field_of "role" (JsonObj [("role", JsonStr "orang_tua")]) = Some (JsonStr (role_str OrangTua)) ∧
  (DashboardAdmin.render (Some (JsonObj [("role", JsonStr "orang_tua")])) DashboardAdmin.init = DashboardAdmin.Denied ↔
   OrangTua = OrangTua ∨ OrangTua = Siswa) ∧ role_str OrangTua ≠ "wali"%string.
Proof. split; [reflexivity|]. apply admin_dashboard_roles. reflexivity. Defined.

