(* ===== verification/Ortu.v ===== *)
(** * The parents' dashboard: [frontend/src/pages/DashboardOrtu.jsx]

    The page runs three effects.  The first, on mount, sends a user whose
    role is neither [orang_tua] nor [siswa] to [/dashboard-admin] (the
    page is then unmounted and is not modelled further).  The second, on
    mount, is [fetchUserData]: a student's [siswaId] is the user's
    [siswa_id]; a parent's is the first student [GET
    /api/siswa?ortu_id=<ortu_id>] lists.  The third runs after every
    render in which [siswaId] changed ([Object.is]), and once after the
    first render: when [siswaId] is truthy it fetches [GET
    /api/tagihan?siswa_id=<siswaId>], and the answer ends the loading.

    The events are a step relation [ostep] over the page's state; the
    backend is a function [api] from requests to answers ([None] is a
    network failure).  Every run is finite (at most six events); a
    student, whose user object from [/api/auth/me] has no [siswa_id],
    and a parent whose children are not registered both see the spinner
    forever. *)

From stdpp Require Import base gmap strings list relations.
From Stdlib Require Import ZArith QArith Ascii String.
From S2P Require Import Prelude JsValue Validators Schema Store Clock Erd Handler Views Crypto.
From S2P Require Import Siswa Tagihan Auth Routes Menu Client Report Dashboard.

Local Open Scope Z_scope.

(** [Object.is] on values parsed from JSON: primitives by value, objects
    and arrays never (each parse makes fresh ones). *)
Definition same_value (a b : option json) : bool :=
  match a, b with
  | None, None | Some JsonNull, Some JsonNull => true
  | Some (JsonBool x), Some (JsonBool y) => Bool.eqb x y
  | Some (JsonNum x), Some (JsonNum y) => Qeq_bool x y
  | Some (JsonStr x), Some (JsonStr y) => String.eqb x y
  | _, _ => false
  end.

Module DashboardOrtu.

Record ortu := mk_ortu {
  o_data : option json;          (* tagihanData *)
  o_loading : bool;              (* loading *)
  o_error : option string;       (* error *)
  o_siswaId : option json;       (* siswaId: undefined is None *)
  o_started : bool;              (* fetchUserData has run *)
  o_user_req : bool;             (* GET /api/siswa?ortu_id= is in flight *)
  o_due : bool;                  (* the [siswaId] effect is due *)
  o_inflight : list (option json) }. (* the siswaIds of the bill requests in flight *)

(** The first render: [useState([])], [useState(true)], [useState(null)]
    twice; the [siswaId] effect runs after it. *)
Definition init : ortu := mk_ortu (Some (JsonArr [])) true None (Some JsonNull) false false true [].

Definition set_error (e : string) (o : ortu) : ortu :=
  mk_ortu (o_data o) (o_loading o) (Some e) (o_siswaId o) (o_started o) (o_user_req o) (o_due o) (o_inflight o).

(** [setSiswaId(v)]: a re-render, and the effect, only when the value changes. *)
Definition set_siswa (v : option json) (o : ortu) : ortu :=
  if same_value v (o_siswaId o) then o
  else mk_ortu (o_data o) (o_loading o) (o_error o) v (o_started o) (o_user_req o) true (o_inflight o).

Definition user_fallback : string := "Gagal memuat data pengguna".
Definition tagihan_fallback : string := "Gagal memuat data tagihan".

Section page.
Variable auth : option string.
Variable now : Z.

(** [axios.get(`.../api/siswa?ortu_id=${user.ortu_id}`)] *)
Definition siswa_request (u : json) : request :=
  mk_request GET ["api"; "siswa"] auth [("ortu_id", JStr (opt_to_string (field_of "ortu_id" u)))] [] None now 0.

(** [axios.get(`.../api/tagihan?siswa_id=${siswaId}`)] *)
Definition tagihan_request (id : option json) : request :=
  mk_request GET ["api"; "tagihan"] auth [("siswa_id", JStr (opt_to_string id))] [] None now 0.

(** [fetchUserData] up to its [await]; [user.role] of [null] throws. *)
Definition fetch_user (user : option json) (o : ortu) : ortu :=
  let o := mk_ortu (o_data o) (o_loading o) (o_error o) (o_siswaId o) true (o_user_req o) (o_due o) (o_inflight o) in
  match user with
  | None | Some JsonNull => set_error user_fallback o
  | Some u =>
      match field_of "role" u with
      | Some (JsonStr r) =>
          if String.eqb r "siswa" then set_siswa (field_of "siswa_id" u) o
          else if String.eqb r "orang_tua" then
            mk_ortu (o_data o) (o_loading o) (o_error o) (o_siswaId o) true true (o_due o) (o_inflight o)
          else o
      | _ => o
      end
  end%string.

(** The rest of [fetchUserData] for a parent: [if
    (resSiswa.data.data.length > 0) setSiswaId(resSiswa.data.data[0].siswa_id)];
    [.length] of [null] or [undefined] throws, a string's first
    character has no [siswa_id], other values have no length. *)
Definition user_answer (resp : option reply) (o : ortu) : ortu :=
  let o := mk_ortu (o_data o) (o_loading o) (o_error o) (o_siswaId o) (o_started o) false (o_due o) (o_inflight o) in
  match resp with
  | Some r =>
      if AppContext.axios_ok r then
        match reply_data r with
        | Some (JsonArr (JsonNull :: _)) | Some JsonNull | None => set_error user_fallback o
        | Some (JsonArr (x :: _)) => set_siswa (field_of "siswa_id" x) o
        | Some (JsonStr s) => if String.eqb s "" then o else set_siswa None o
        | Some _ => o
        end
      else set_error (error_message user_fallback resp) o
  | None => set_error (error_message user_fallback resp) o
  end.

(** The [siswaId] effect: [if (!siswaId) return;] then the request. *)
Definition tagihan_effect (o : ortu) : ortu :=
  mk_ortu (o_data o) (o_loading o) (o_error o) (o_siswaId o) (o_started o) (o_user_req o) false
    (if opt_truthy (o_siswaId o) then o_siswaId o :: o_inflight o else o_inflight o).

(** [fetchTagihan] after its [await]: [setTagihanData(response.data.data);
    setLoading(false)], or the error and [setLoading(false)]. *)
Definition tagihan_answer (resp : option reply) (o : ortu) : ortu :=
  match resp with
  | Some r =>
      if AppContext.axios_ok r then
        match body r with
        | JsonNull => mk_ortu (o_data o) false (Some tagihan_fallback) (o_siswaId o) (o_started o)
                        (o_user_req o) (o_due o) (o_inflight o)
        | b => mk_ortu (field_of "data" b) false (o_error o) (o_siswaId o) (o_started o)
                 (o_user_req o) (o_due o) (o_inflight o)
        end
      else mk_ortu (o_data o) false (Some (error_message tagihan_fallback resp)) (o_siswaId o) (o_started o)
             (o_user_req o) (o_due o) (o_inflight o)
  | None => mk_ortu (o_data o) false (Some (error_message tagihan_fallback resp)) (o_siswaId o) (o_started o)
              (o_user_req o) (o_due o) (o_inflight o)
  end.

Definition take_request (i : nat) (o : ortu) : ortu :=
  mk_ortu (o_data o) (o_loading o) (o_error o) (o_siswaId o) (o_started o) (o_user_req o) (o_due o)
    (delete i (o_inflight o)).

Variable user : option json.
Variable api : request → option reply.

(** The page's events: the mount effect, the answer about the parent's
    children, the [siswaId] effect, the answer to one bill request. *)
Inductive ostep : ortu → ortu → Prop :=
| os_fetch_user o : o_started o = false → ostep o (fetch_user user o)
| os_user_answer o u : o_user_req o = true → user = Some u → ostep o (user_answer (api (siswa_request u)) o)
| os_effect o : o_due o = true → ostep o (tagihan_effect o)
| os_tagihan_answer o i id : o_inflight o !! i = Some id →
    ostep o (tagihan_answer (api (tagihan_request id)) (take_request i o)).

End page.

(** What the page shows: the spinner while [loading], then the error, then
    the cards and the table. *)
Inductive screen := Loading | Error (e : string) | Bills (data : option json).

Definition render (o : ortu) : screen :=
  if o_loading o then Loading
  else match o_error o with Some e => Error e | None => Bills (o_data o) end.

(** What remains to happen: the mount effect, the parent's request, the
    [siswaId] effect, the bill requests. *)
Definition o_measure (o : ortu) : nat :=
  ((if o_started o then 0 else 4) + (if o_user_req o then 3 else 0) + (if o_due o then 2 else 0) +
   List.length (o_inflight o))%nat.

End DashboardOrtu.

(** ** Every run is finite *)

Section runs.
Import DashboardOrtu.
Context (auth : option string) (now : Z) (user : option json) (api : request → option reply).
Local Abbreviation step := (ostep auth now user api).

Lemma measure_set_error e o : o_measure (set_error e o) = o_measure o.
Proof. reflexivity. Qed.

Lemma measure_set_siswa v o :
  (o_measure (set_siswa v o) <=
   (if o_started o then 0 else 4) + (if o_user_req o then 3 else 0) + 2 + List.length (o_inflight o))%nat.
Proof. unfold set_siswa, o_measure. destruct (same_value _ _), (o_due o); cbn; lia. Qed.

Lemma measure_fetch_user o :
  o_started o = false →
  (o_measure (fetch_user user o) < o_measure o)%nat.
Proof.
  intros Hs. unfold fetch_user. cbv zeta.
  destruct user as [[| | | | |fs]|]; rewrite ?measure_set_error; try (unfold o_measure; cbn; rewrite Hs; lia).
  destruct (field_of "role" (JsonObj fs)) as [[| | |r| |]|]; try (unfold o_measure; cbn; rewrite Hs; lia).
  destruct (String.eqb r "siswa"); [|destruct (String.eqb r "orang_tua"); unfold o_measure; cbn; rewrite Hs; lia].
  match goal with |- context [set_siswa ?v ?o1] => pose proof (measure_set_siswa v o1) end.
  unfold o_measure in *; cbn in *; rewrite Hs; lia.
Qed.

Lemma measure_user_answer resp o :
  o_user_req o = true → (o_measure (user_answer resp o) < o_measure o)%nat.
Proof.
  intros Hu. set (o1 := mk_ortu (o_data o) (o_loading o) (o_error o) (o_siswaId o) (o_started o) false
                               (o_due o) (o_inflight o)).
  assert (∀ v, o_measure (set_siswa v o1) < o_measure o)%nat.
  { intros v. pose proof (measure_set_siswa v o1). unfold o_measure in *; cbn in *. rewrite Hu. lia. }
  assert (o_measure o1 < o_measure o)%nat by (unfold o_measure; cbn; rewrite Hu; lia).
  unfold user_answer. fold o1. destruct resp as [r|]; [|by rewrite measure_set_error].
  destruct (AppContext.axios_ok r); [|by rewrite measure_set_error].
  destruct (reply_data r) as [[| | | s |[|[] l]|]|]; rewrite ?measure_set_error; try done.
  destruct (String.eqb s ""); auto.
Qed.

Lemma ostep_measure o o' : step o o' → (o_measure o' < o_measure o)%nat.
Proof.
  destruct 1 as [o Hs|o u Hu Hus|o Hd|o i id Hi].
  - by apply measure_fetch_user.
  - by apply measure_user_answer.
  - unfold tagihan_effect, o_measure. rewrite Hd. destruct (opt_truthy (o_siswaId o)); cbn; lia.
  - assert (i < List.length (o_inflight o))%nat by (by eapply lookup_lt_Some).
    unfold tagihan_answer, take_request, o_measure.
    destruct (api _) as [r|]; [destruct (AppContext.axios_ok r); [destruct (body r)|]|]; cbn;
      rewrite length_delete by done; lia.
Qed.

Lemma nsteps_measure n o o' : nsteps step n o o' → (n + o_measure o' <= o_measure o)%nat.
Proof. induction 1 as [|n o1 o2 o3 H12 _ IH]; [lia|]. pose proof (ostep_measure _ _ H12). lia. Qed.

End runs.

(** [fetchUserData] for a signed-in user whose [role] is the string [r]. *)
Lemma fetch_user_role u r o :
  field_of "role" u = Some (JsonStr r) →
  DashboardOrtu.fetch_user (Some u) o =
  let o1 := DashboardOrtu.mk_ortu (DashboardOrtu.o_data o) (DashboardOrtu.o_loading o)
              (DashboardOrtu.o_error o) (DashboardOrtu.o_siswaId o) true (DashboardOrtu.o_user_req o)
              (DashboardOrtu.o_due o) (DashboardOrtu.o_inflight o) in
  if String.eqb r "siswa" then DashboardOrtu.set_siswa (field_of "siswa_id" u) o1
  else if String.eqb r "orang_tua" then
    DashboardOrtu.mk_ortu (DashboardOrtu.o_data o) (DashboardOrtu.o_loading o) (DashboardOrtu.o_error o)
      (DashboardOrtu.o_siswaId o) true true (DashboardOrtu.o_due o) (DashboardOrtu.o_inflight o)
  else o1.
Proof. intros Hr. destruct u as [| | | | |fs]; try discriminate Hr. unfold DashboardOrtu.fetch_user. cbn -[field_of]. by rewrite Hr. Qed.

(** ** The parent without a registered child *)

Section backend.
Context `{Hasher} `{Jwt}.
Import DashboardOrtu.

Lemma filter_none {A} (p : A → bool) l : Forall (λ x, p x = false) l → List.filter p l = [].
Proof. induction 1 as [|x l Hx _ IH]; cbn; [done|]. by rewrite Hx. Qed.

(** [GET /api/siswa?ortu_id=<q>] when no student row has the parent [q]
    designates. *)
Lemma serve_siswa_none auth now u s :
  truthy (JStr (opt_to_string (field_of "ortu_id" u))) = true →
  Forall (λ p, pk_of (JStr (opt_to_string (field_of "ortu_id" u))) ≠ Some (s_ortu_id p.2)) (tbl_list (st_siswa s)) →
  serve (siswa_request auth now u) s = (data_reply (JsonArr []), s).
Proof.
  intros Ht Hn. change (serve (siswa_request auth now u) s)
    with (SiswaController.getAllSiswa_handler (JStr (opt_to_string (field_of "ortu_id" u))) s).
  unfold SiswaController.getAllSiswa_handler, run_handler, SiswaController.getAllSiswa, list_all.
  cbn -[truthy pk_of]. rewrite Ht, filter_none; [done|]. eapply Forall_impl; [exact Hn|]. cbn. intros p Hp.
  by apply bool_decide_eq_false.
Qed.

(** What the run keeps for such a parent: still loading, [siswaId] still
    [null], no bill request sent. *)
Definition stuck (o : ortu) : Prop :=
  o_loading o = true ∧ o_siswaId o = Some JsonNull ∧ o_inflight o = [].

Lemma stuck_step auth now u s o o' :
  field_of "role" u = Some (JsonStr "orang_tua") →
  serve (siswa_request auth now u) s = (data_reply (JsonArr []), s) →
  ostep auth now (Some u) (λ r, Some (fst (serve r s))) o o' → stuck o → stuck o'.
Proof.
  intros Hr Hs Hst (Hl & Hsid & Hin). destruct Hst as [o _|o u' _ [= <-]|o _|o i id Hi].
  - rewrite (fetch_user_role _ _ _ Hr). unfold stuck. cbn. by split_and!.
  - rewrite Hs. unfold user_answer, stuck. cbn. by split_and!.
  - unfold tagihan_effect, stuck. cbn. by rewrite Hsid.
  - by rewrite Hin in Hi.
Qed.

End backend.

(** ** The student whose account [/api/auth/me] describes *)

(** The user object [/api/auth/me] answers carries [user_id], [username],
    [role] and perhaps [ortu_id], never [siswa_id]. *)
Lemma me_fields `{Hasher} `{Jwt} k u s j :
  tbl_find k (st_user s) = Some u → fst (AuthController.me_handler (Some (k, u)) s) = data_reply j →
  field_of "role" j = Some (JsonStr (role_str (u_role u))) ∧ field_of "siswa_id" j = None.
Proof.
  intros Hk. unfold AuthController.me_handler, run_handler, AuthController.me, bind, find_key, read. cbn.
  rewrite Hk. cbn. destruct (match u_ortu_id u with Some k' => _ | None => None end) as [k'|];
    [destruct (Z.eqb k' 0)|]; intros [= <-]; by split.
Qed.

Section student.
Import DashboardOrtu.
Context (auth : option string) (now : Z) (u : json) (api : request → option reply).
Local Abbreviation step := (ostep auth now (Some u) api).
Hypothesis Hrole : field_of "role" u = Some (JsonStr "siswa").
Hypothesis Hsid : field_of "siswa_id" u = None.

(** What the run keeps for such a student: still loading, no [siswaId],
    no parent's request and no bill request. *)
Definition student_stuck (o : ortu) : Prop :=
  o_loading o = true ∧ opt_truthy (o_siswaId o) = false ∧ o_user_req o = false ∧ o_inflight o = [].

Lemma student_stuck_step o o' : step o o' → student_stuck o → student_stuck o'.
Proof.
  intros Hst (Hl & Hs & Hu & Hin). destruct Hst as [o _|o u' Hu' _|o _|o i id Hi].
  - rewrite (fetch_user_role _ _ _ Hrole), Hsid. cbn. unfold set_siswa, student_stuck.
    destruct (same_value _ _); cbn; by split_and!.
  - congruence.
  - unfold tagihan_effect, student_stuck. cbn. by rewrite Hs.
  - by rewrite Hin in Hi.
Qed.

End student.

(** ** The page's guarantees *)

Import DashboardOrtu.

(** C14: termination.  Whatever the user and whatever the backend answers,
    the dashboard reaches a state where nothing more happens after at
    most six events (the mount effect, the parent's request and its
    answer, the [siswaId] effect, the bill request and its answer). *)
Theorem ortu_runs_bounded auth now user api n o :
  nsteps (ostep auth now user api) n init o → (n <= 6)%nat.
Proof. intros Hn. pose proof (nsteps_measure auth now user api n init o Hn). cbn in *. lia. Qed.

(** C12: liveness fails for a parent whose children are not registered.
    When [GET /api/siswa?ortu_id=<ortu_id>] of the backend lists no
    student, [siswaId] stays [null], no bill is ever requested, and in
    every state the page can reach it shows the spinner "Memuat data..."
    (an error of the bill request could not even be shown, since the
    spinner is tested first). *)
Theorem parent_without_child_stuck `{Hasher} `{Jwt} auth now u s o :
  field_of "role" u = Some (JsonStr "orang_tua") →
  truthy (JStr (opt_to_string (field_of "ortu_id" u))) = true →
  Forall (λ p, pk_of (JStr (opt_to_string (field_of "ortu_id" u))) ≠ Some (s_ortu_id p.2)) (tbl_list (st_siswa s)) →
  rtc (ostep auth now (Some u) (λ r, Some (fst (serve r s)))) init o →
  o_loading o = true ∧ render o = Loading.
Proof.
  intros Hr Ht Hn Hrun.
  assert (stuck o) as (Hl & _ & _).
  { eapply rtc_invariant; [|exact Hrun|by split_and!].
    intros a b. apply stuck_step; [done|]. by apply serve_siswa_none. }
  unfold render. by rewrite Hl.
Qed.

(** C13: liveness fails for every student.  The user the page reads is
    the object [/api/auth/me] answered, which has no [siswa_id]
    ([AuthController.me]); so [setSiswaId(user.siswa_id)] sets
    [undefined], the [siswaId] effect returns at [if (!siswaId)], no bill
    is requested, and whatever the backend answers, in every state the
    page can reach it shows the spinner. *)
Theorem student_page_stuck `{Hasher} `{Jwt} auth now s k u j api o :
  tbl_find k (st_user s) = Some u → u_role u = Siswa →
  fst (AuthController.me_handler (Some (k, u)) s) = data_reply j →
  rtc (ostep auth now (Some j) api) init o → o_loading o = true ∧ render o = Loading.
Proof.
  intros Hk Hr Hm Hrun. destruct (me_fields k u s j Hk Hm) as [Hrole Hsid]. rewrite Hr in Hrole.
  assert (student_stuck o) as (Hl & _).
  { eapply rtc_invariant; [|exact Hrun|by split_and!]. intros a b. by apply student_stuck_step. }
  unfold render. by rewrite Hl.
Qed.

(** A parent account (parent 3) and a student account (student 7), on an
    empty school. *)
Definition demo_parent : json := JsonObj [("role", JsonStr "orang_tua"); ("ortu_id", json_int 3)].
Definition demo_student : json := JsonObj [("role", JsonStr "siswa"); ("siswa_id", json_int 7)].
Definition demo_api (r : request) : option reply := Some (fst (serve r empty_store)).

Lemma ortu_runs_bounded_witness :
  nsteps (ostep None 0 (Some demo_student) demo_api) 1 init (fetch_user (Some demo_student) init) ∧ (1 <= 6)%nat.
Proof.
  assert (Hn : nsteps (ostep None 0 (Some demo_student) demo_api) 1 init (fetch_user (Some demo_student) init)).
  { eapply nsteps_l; [apply os_fetch_user; reflexivity|apply nsteps_O]. }
  split; [exact Hn | exact (ortu_runs_bounded None 0 (Some demo_student) demo_api 1 _ Hn)].
Defined.

Lemma parent_without_child_stuck_witness :
  let o := user_answer (demo_api (siswa_request None 0 demo_parent)) (fetch_user (Some demo_parent) init) in
  rtc (ostep None 0 (Some demo_parent) demo_api) init o ∧ o_user_req o = false ∧
  o_loading o = true ∧ render o = Loading.
Proof.
  cbv zeta.
  assert (Hrun : rtc (ostep None 0 (Some demo_parent) demo_api) init
    (user_answer (demo_api (siswa_request None 0 demo_parent)) (fetch_user (Some demo_parent) init))).
  { eapply rtc_l; [apply os_fetch_user; reflexivity|].
    eapply rtc_l; [apply os_user_answer; reflexivity|]. apply rtc_refl. }
  split; [exact Hrun|]. split; [reflexivity|].
  apply (parent_without_child_stuck None 0 demo_parent empty_store); [reflexivity|reflexivity| |exact Hrun].
  apply (bool_decide_unpack _). vm_compute. reflexivity.
Defined.

(** A school with one student account. *)
Definition demo_student_user : user := mk_user "ani" "x" Siswa (Some 1) None None.
Definition demo_student_school : store := set_user (λ t, snd (tbl_insert demo_student_user t)) empty_store.
Definition demo_me : json :=
  default JsonNull (reply_data (fst (AuthController.me_handler (Some (1, demo_student_user)) demo_student_school))).

Lemma student_page_stuck_witness :
  let o := tagihan_effect (fetch_user (Some demo_me) init) in
  rtc (ostep None 0 (Some demo_me) (demo_api)) init o ∧ o_loading o = true ∧ render o = Loading.
Proof.
  cbv zeta.
  assert (Hrun : rtc (ostep None 0 (Some demo_me) demo_api) init (tagihan_effect (fetch_user (Some demo_me) init))).
  { eapply rtc_l; [apply os_fetch_user; reflexivity|].
    eapply rtc_l; [apply os_effect; vm_compute; reflexivity|]. apply rtc_refl. }
  split; [exact Hrun|].
  apply (student_page_stuck None 0 demo_student_school 1 demo_student_user demo_me demo_api);
    [vm_compute; reflexivity|reflexivity|vm_compute; reflexivity|exact Hrun].
Defined.
