(* ===== verification/Kelola.v ===== *)
(** * The students page: [frontend/src/pages/KelolaSiswaPage.jsx]

    The page keeps the list of students, the classes and parents for its
    form, a form object, and the flags of its two modals.  Its handlers
    talk to the backend through [call], a function from a request and the
    server's state to the answer and the new state ([None] is a network
    failure): the interface [Server] below, which [Routes.serve]
    implements.  Each handler is the code after the awaits it contains,
    run to completion: the page is a state machine whose events are the
    handlers.

    A JSON body travels as [JSON.stringify], then [express.json]: its
    primitive fields arrive as request values; the nested objects the
    page sends back (the [kelas] and [orangTua] a row includes) are
    dropped, since no controller reads them. *)

From stdpp Require Import base gmap strings list relations sorting.
From Stdlib Require Import ZArith QArith Ascii String.
From Stdlib Require Qcanon.
From S2P Require Import Prelude JsValue Validators Schema Store Clock Erd Handler Views Crypto.
From S2P Require Import Siswa Routes Billing Menu Client Report Dashboard Ortu.

Local Open Scope Z_scope.

(** ** What a page sees of the backend *)

(** The server a page calls: its state, and the answer to a request. *)
Class Server (S : Type) := call : request → S → option reply * S.

(** [Routes.serve] is a server: it always answers. *)
#[export] Instance serve_server `{Hasher} `{Jwt} : Server store :=
  λ r s, let '(rep, s') := serve r s in (Some rep, s').

(** A JSON value as [express.json] hands it to a controller. *)
Definition jsval_of_json (j : json) : option jsval :=
  match j with
  | JsonNull => Some JNull
  | JsonBool b => Some (JBool b)
  | JsonNum q => Some (JNum (Fin q))
  | JsonStr s => Some (JStr s)
  | JsonArr _ | JsonObj _ => None
  end.

Definition body_of (fields : list (string * json)) : req_body :=
  omap (λ kv, (λ v, (kv.1, v)) <$> jsval_of_json kv.2) fields.

(** axios's [params]: [null] and [undefined] are left out, the rest is
    [String(v)]. *)
Definition axios_params (ps : list (string * option json)) : req_body :=
  omap (λ kv, match kv.2 with None | Some JsonNull => None | Some j => Some (kv.1, JStr (json_to_string j)) end) ps.

(** [{ ...o, [k]: v }]: an existing key keeps its place. *)
Fixpoint obj_set (k : string) (v : json) (o : list (string * json)) : list (string * json) :=
  match o with
  | [] => [(k, v)]
  | (k', v') :: r => if String.eqb k k' then (k, v) :: r else (k', v') :: obj_set k v r
  end.

(** [s.split('T')[0]] *)
Fixpoint before_T (s : string) : string :=
  match s with
  | String c r => if Ascii.eqb c "T" then EmptyString else String c (before_T r)
  | EmptyString => EmptyString
  end.

(** [res.data.data || []]; [None] is the [TypeError] of a [null] body. *)
Definition data_or_empty (r : reply) : option json :=
  match body r with
  | JsonNull => None
  | b => Some (match field_of "data" b with Some j => if json_truthy j then j else JsonArr [] | None => JsonArr [] end)
  end.

(** [user?.role === r] *)
Definition role_is (role : option json) (r : string) : bool :=
  match role with Some (JsonStr x) => String.eqb x r | _ => false end.

(** [x || ''] of a field that the page compares as a string. *)
Definition str_or_empty (o : option json) : string := if opt_truthy o then opt_to_string o else "".

Module KelolaSiswa.

Definition allowedRoles : list string := ["admin"; "kepsek"; "guru"; "orang_tua"].

Definition initialForm : list (string * json) :=
  [("nama", JsonStr ""); ("tgl_lahir", JsonStr ""); ("jk", JsonStr "L"); ("alamat", JsonStr "");
   ("kelas_id", JsonStr ""); ("ortu_id", JsonStr "")].

Record page := mk_page {
  siswaList : json; kelasList : json; orangTuaList : json; paymentHistory : json;
  selectedSiswa : option json; formData : list (string * json); editMode : bool;
  loading : bool; error : string; showModal : bool; showPaymentModal : bool;
  sortField : string; sortOrder : string }.

Definition init : page :=
  mk_page (JsonArr []) (JsonArr []) (JsonArr []) (JsonArr []) None initialForm false true "" false false "" "asc".

(** Record updates, one per [setState] of the page. *)
Definition set_lists (sl kl ol : json) (p : page) : page :=
  mk_page sl kl ol (paymentHistory p) (selectedSiswa p) (formData p) (editMode p) (loading p) (error p)
    (showModal p) (showPaymentModal p) (sortField p) (sortOrder p).
Definition set_loading (b : bool) (p : page) : page :=
  mk_page (siswaList p) (kelasList p) (orangTuaList p) (paymentHistory p) (selectedSiswa p) (formData p)
    (editMode p) b (error p) (showModal p) (showPaymentModal p) (sortField p) (sortOrder p).
Definition set_error (e : string) (p : page) : page :=
  mk_page (siswaList p) (kelasList p) (orangTuaList p) (paymentHistory p) (selectedSiswa p) (formData p)
    (editMode p) (loading p) e (showModal p) (showPaymentModal p) (sortField p) (sortOrder p).
Definition set_form (f : list (string * json)) (edit modal : bool) (p : page) : page :=
  mk_page (siswaList p) (kelasList p) (orangTuaList p) (paymentHistory p) (selectedSiswa p) f
    edit (loading p) (error p) modal (showPaymentModal p) (sortField p) (sortOrder p).
Definition set_payment (sel : option json) (h : json) (modal : bool) (p : page) : page :=
  mk_page (siswaList p) (kelasList p) (orangTuaList p) h sel (formData p)
    (editMode p) (loading p) (error p) (showModal p) modal (sortField p) (sortOrder p).
Definition set_sort (f o : string) (p : page) : page :=
  mk_page (siswaList p) (kelasList p) (orangTuaList p) (paymentHistory p) (selectedSiswa p) (formData p)
    (editMode p) (loading p) (error p) (showModal p) (showPaymentModal p) f o.

(** The answer of an axios call: the reply when it resolves (2xx). *)
Definition resolved (r : option reply) : option reply :=
  match r with Some r => if AppContext.axios_ok r then Some r else None | None => None end.

Section handlers.
Context {St : Type} `{Server St}.
Variable auth : option string.
Variable now : Z.

Definition get (path : list string) (q : req_body) : request := mk_request GET path auth q [] None now 0.

(** [fetchData]: a parent gets its children, the staff gets the students,
    classes and parents; any other role nothing; [finally] ends loading. *)
Definition fetchData (user : option json) (p : page) (s : St) : page * St :=
  let role := user ≫= field_of "role" in
  let fail e p := set_loading false (set_error (error_message "Gagal memuat data" e) p) in
  if role_is role "orang_tua" then
    let '(r, s1) := call (get ["api"; "siswa"] (axios_params [("ortu_id", user ≫= field_of "ortu_id")])) s in
    match resolved r with
    | Some rep => match data_or_empty rep with
                  | Some d => (set_loading false (set_lists d (kelasList p) (orangTuaList p) p), s1)
                  | None => (fail None p, s1)
                  end
    | None => (fail r p, s1)
    end
  else if Sidebar.includes_role allowedRoles role then
    let '(r1, s1) := call (get ["api"; "siswa"] []) s in
    let '(r2, s2) := call (get ["api"; "kelas"] []) s1 in
    let '(r3, s3) := call (get ["api"; "orangtua"] []) s2 in
    match first_rejected [r1; r2; r3] with
    | Some e => (fail e p, s3)
    | None =>
        match r1 ≫= data_or_empty, r2 ≫= data_or_empty, r3 ≫= data_or_empty with
        | Some d1, Some d2, Some d3 => (set_loading false (set_lists d1 d2 d3 p), s3)
        | _, _, _ => (fail None p, s3)
        end
    end
  else (set_loading false p, s).

(** [handleShowPayment(siswa)] with [fetchPaymentHistory(siswa.siswa_id)]. *)
Definition handleShowPayment (siswa : json) (p : page) (s : St) : page * St :=
  let '(r, s1) := call (get ["api"; "tagihan"] (axios_params [("siswa_id", field_of "siswa_id" siswa)])) s in
  let p := set_payment (Some siswa) (paymentHistory p) (showPaymentModal p) p in
  let p := match resolved r ≫= data_or_empty with
           | Some h => set_payment (selectedSiswa p) h (showPaymentModal p) p
           | None => set_error (error_message "Gagal memuat riwayat pembayaran" (resolved r ≫= λ _, None)) p
           end in
  (set_payment (selectedSiswa p) (paymentHistory p) true p, s1).

(** [handleInputChange]: [{ ...prev, [name]: value }]. *)
Definition handleInputChange (name value : string) (p : page) : page :=
  set_form (obj_set name (JsonStr value) (formData p)) (editMode p) (showModal p) p.

(** [handleSubmit]: PUT to [/api/siswa/<siswa_id>] in edit mode, POST to
    [/api/siswa] otherwise; on success close the form, set loading and
    reload the list.  Nothing sets loading back. *)
Definition submit_request (p : page) : request :=
  let path := if editMode p then ["api"; "siswa"; opt_to_string (assoc "siswa_id" (formData p))]
              else ["api"; "siswa"] in
  mk_request (if editMode p then PUT else POST) path auth [] (body_of (formData p)) None now 0.

Definition handleSubmit (p : page) (s : St) : page * St :=
  let '(r, s1) := call (submit_request p) s in
  match resolved r with
  | None => (set_error (error_message "Operasi gagal" r) p, s1)
  | Some _ =>
      let p := set_loading true (set_form initialForm false false p) in
      let '(r2, s2) := call (get ["api"; "siswa"] []) s1 in
      match resolved r2 ≫= data_or_empty with
      | Some d => (set_lists d (kelasList p) (orangTuaList p) p, s2)
      | None => (set_error (error_message "Operasi gagal" (match resolved r2 with Some _ => None | None => r2 end)) p, s2)
      end
  end.

(** [handleEdit(siswa)]: the row, with [tgl_lahir] cut at its [T];
    [None] when the row is not an object with a string [tgl_lahir] (the
    handler throws). *)
Definition handleEdit (siswa : json) (p : page) : option page :=
  match siswa with
  | JsonObj fs =>
      match field_of "tgl_lahir" siswa with
      | Some (JsonStr d) => Some (set_form (obj_set "tgl_lahir" (JsonStr (before_T d)) fs) true true p)
      | _ => None
      end
  | _ => None
  end.

(** [handleDelete(id)] after the confirmation [ok]: the DELETE, then the
    row removed from the list in place, [s.siswa_id !== id]. *)
Definition handleDelete (id : json) (ok : bool) (p : page) (s : St) : page * St :=
  if negb ok then (p, s) else
  let '(r, s1) := call (mk_request DELETE ["api"; "siswa"; json_to_string id] auth [] [] None now 0) s in
  match resolved r with
  | Some _ =>
      let l := match siswaList p with
               | JsonArr l => JsonArr (List.filter (λ x, negb (same_value (field_of "siswa_id" x) (Some id))) l)
               | j => j
               end in
      (set_lists l (kelasList p) (orangTuaList p) p, s1)
  | None => (set_error (error_message "Hapus gagal" r) p, s1)
  end.

End handlers.

(** [handleSort(field)] *)
Definition handleSort (field : string) (p : page) : page :=
  if String.eqb (sortField p) field
  then set_sort (sortField p) (if String.eqb (sortOrder p) "asc" then "desc" else "asc") p
  else set_sort field "asc" p.

Section sorting.
(** [a.localeCompare(b, 'id-ID', { sensitivity: 'base' })] *)
Variable collate : string → string → Z.

Definition by_strings (asc : bool) (a b : string) : jsnum :=
  LaporanPage.compare_strs collate asc a b.

(** The comparator of [getSortedData] for a column. *)
Definition column_cmp (f : string) (asc : bool) (a b : json) : jsnum :=
  if String.eqb f "nama" then by_strings asc (str_or_empty (field_of "nama" a)) (str_or_empty (field_of "nama" b))
  else if String.eqb f "tgl_lahir" then
    LaporanPage.compare_nums asc (LaporanPage.js_date (field_of "tgl_lahir" a))
                                 (LaporanPage.js_date (field_of "tgl_lahir" b))
  else if String.eqb f "jk" then by_strings asc (str_or_empty (field_of "jk" a)) (str_or_empty (field_of "jk" b))
  else if String.eqb f "kelas" then
    by_strings asc (str_or_empty (field_of "kelas" a ≫= field_of "nama_kelas"))
                   (str_or_empty (field_of "kelas" b ≫= field_of "nama_kelas"))
  else if String.eqb f "orang_tua" then
    let name x := (str_or_empty (field_of "orangTua" x ≫= field_of "nama_ayah") ++ " & " ++
                   str_or_empty (field_of "orangTua" x ≫= field_of "nama_ibu"))%string in
    by_strings asc (name a) (name b)
  else Fin 0.

(** [getSortedData()]: the rows, sorted when a column is chosen. *)
Definition getSortedData (p : page) : option (list json) :=
  match siswaList p with
  | JsonArr l =>
      Some (if String.eqb (sortField p) "" then l
            else @merge_sort _ (λ a b, cmp_le (column_cmp (sortField p) (String.eqb (sortOrder p) "asc") a b) = true)
                   (λ a b, decide _) l)
  | _ => None
  end.

End sorting.

(** What the page shows. *)
Inductive screen := Denied | Spinner (error : string) | Table (error : string) (rows : json) (admin : bool).

Definition render (user : option json) (p : page) : screen :=
  let role := user ≫= field_of "role" in
  if negb (Sidebar.includes_role allowedRoles role) then Denied
  else if loading p then Spinner (error p)
  else Table (error p) (siswaList p) (role_is role "admin").

End KelolaSiswa.

(** ** After a save the page shows its spinner for good *)

Section events.
Import KelolaSiswa.
Context {St : Type} `{Server St} (auth : option string) (now : Z).

(** Every event of the mounted page but [fetchData], which runs only when
    [user] changes: the form's save, a delete, the payment history, typing
    in the form, opening a row for editing, sorting, the add button, and
    closing either modal. *)
Inductive kstep : page * St → page * St → Prop :=
| ks_submit p s : kstep (p, s) (handleSubmit auth now p s)
| ks_delete p s id ok : kstep (p, s) (handleDelete auth now id ok p s)
| ks_payment p s row : kstep (p, s) (handleShowPayment auth now row p s)
| ks_input p s n v : kstep (p, s) (handleInputChange n v p, s)
| ks_edit p p' s row : handleEdit row p = Some p' → kstep (p, s) (p', s)
| ks_sort p s f : kstep (p, s) (handleSort f p, s)
| ks_add p s : kstep (p, s) (set_form initialForm false true p, s)
| ks_close p s : kstep (p, s) (set_form (formData p) (editMode p) false p, s)
| ks_close_payment p s : kstep (p, s) (set_payment (selectedSiswa p) (paymentHistory p) false p, s).

Lemma kstep_loading x y : kstep x y → loading x.1 = true → loading y.1 = true.
Proof.
  destruct 1 as [p s|p s id ok|p s row|p s n v|p p' s row He|p s f|p s|p s|p s]; cbn; intros Hl.
  - unfold handleSubmit. destruct (call _ s) as [r s1]. destruct (resolved r); [|done].
    destruct (call _ s1) as [r2 s2]. by destruct (resolved r2 ≫= data_or_empty).
  - unfold handleDelete. destruct ok; [|done]. cbn. destruct (call _ s) as [r s1]. by destruct (resolved r).
  - unfold handleShowPayment. destruct (call _ s) as [r s1]. cbn. by destruct (resolved r ≫= data_or_empty).
  - done.
  - unfold handleEdit in He. destruct row; try discriminate. destruct (field_of _ _) as [[]|]; try discriminate.
    by injection He as <-.
  - unfold handleSort. by destruct (String.eqb (sortField p) f).
  - done.
  - done.
  - done.
Qed.

Lemma handleSubmit_loading p s rep :
  resolved (fst (call (submit_request auth now p) s)) = Some rep → loading (handleSubmit auth now p s).1 = true.
Proof.
  intros Hr. unfold handleSubmit. destruct (call _ s) as [r s1]. cbn in Hr. rewrite Hr.
  destruct (call _ s1) as [r2 s2]. by destruct (resolved r2 ≫= data_or_empty).
Qed.

(** C20: after a save that the backend accepts, the students page shows
    its spinner for good: [handleSubmit] sets [loading] before reloading
    the list and nothing but [fetchData], which runs only when the signed-in
    user changes, sets it back, so every later event (saves, deletes,
    sorting, editing, the payment history) leaves the table hidden. *)
Theorem submit_leaves_spinner user p s rep x :
  resolved (fst (call (submit_request auth now p) s)) = Some rep →
  Sidebar.includes_role allowedRoles (user ≫= field_of "role") = true →
  rtc kstep (handleSubmit auth now p s) x →
  render user x.1 = Spinner (error x.1).
Proof.
  intros Hr Hrole Hrun.
  assert (loading x.1 = true) as Hl.
  { eapply (rtc_invariant _ (λ y, loading y.1 = true)); [exact kstep_loading|exact Hrun|].
    exact (handleSubmit_loading p s rep Hr). }
  unfold render. by rewrite Hrole, Hl.
Qed.

End events.

(** ** Keys in URLs *)
Lemma all_digits_pos_digits f n acc :
  0 <= n → all_digits acc = true → all_digits (pos_digits f n acc) = true.
Proof.
  revert n acc. induction f as [|f IH]; intros n acc Hn Hacc; [done|]. rewrite pos_digits_S.
  destruct (digit_char_spec (n mod 10)) as [Hd _]; [apply Z.mod_pos_bound; lia|].
  assert (all_digits (String (digit_char (n mod 10)) acc) = true) by (cbn; by rewrite Hd, Hacc).
  destruct (n <? 10); [done|]. apply IH; [apply Z.div_pos; lia|done].
Qed.

(** A key printed in a URL is read back by [findByPk]. *)
Lemma pk_of_z_to_dec k : 0 <= k → pk_of (JStr (z_to_dec k)) = Some k.
Proof.
  intros Hk. unfold z_to_dec. destruct (Z.ltb_spec k 0); [lia|]. unfold nat_digits, pk_of.
  rewrite all_digits_pos_digits by done.
  assert (String.eqb (pos_digits (dec_fuel k) k "") "" = false) as ->.
  { destruct (pos_digits_head (Z.to_nat (Z.log2 k)) k) as (d & rest & _ & Hh). unfold dec_fuel. by rewrite Hh. }
  destruct (scan_pos_digits (dec_fuel k) k "" 0 0) as [c Hc]; [split; [lia|apply dec_fuel_enough, Hk]|].
  rewrite <-pos_digits_app in Hc. cbn [andb negb]. rewrite Hc. cbn. done.
Qed.

(** [String(n)] of an integer key. *)
Lemma num_to_string_int k : 0 <= k < 10 ^ 21 → num_to_string (Fin (inject_Z k)) = z_to_dec k.
Proof.
  intros Hk. unfold num_to_string. rewrite Qcanon.Qred_identity by (cbn; apply Z.gcd_1_r).
  cbn -[Z.pow]. rewrite Z.abs_eq by lia. by destruct (Z.ltb_spec k (10 ^ 21)); [|lia].
Qed.

Lemma tbl_list_delete {A} k (t : table A) :
  tbl_list (tbl_delete k t) = List.filter (λ p, negb (p.1 =? k)) (tbl_list t).
Proof.
  unfold tbl_list, tbl_delete. cbn [rows next_id].
  induction (seqZ 1 (next_id t - 1)) as [|j l IH]; [done|]. cbn [omap list_omap].
  destruct (decide (j = k)) as [->|Hne].
  - rewrite lookup_delete_eq. destruct (rows t !! k); cbn [fmap option_fmap option_map List.filter fst];
      rewrite ?Z.eqb_refl; done.
  - rewrite lookup_delete_ne by done. destruct (rows t !! j); cbn [fmap option_fmap option_map List.filter fst];
      [|done]. destruct (Z.eqb_spec j k); [lia|]. cbn. by rewrite IH.
Qed.

Section backend.
Context `{Hasher} `{Jwt}.
Import KelolaSiswa.

Lemma serve_siswa_get a n q s :
  serve (mk_request GET ["api"; "siswa"] a q [] None n 0) s =
  SiswaController.getAllSiswa_handler (field q "ortu_id") s.
Proof. reflexivity. Qed.

Lemma serve_siswa_delete a n seg s :
  serve (mk_request DELETE ["api"; "siswa"; seg] a [] [] None n 0) s =
  SiswaController.deleteSiswa_handler (JStr seg) s.
Proof. reflexivity. Qed.

(** The students [GET /api/siswa] lists, in key order. *)
Definition siswa_rows (s : store) : list json :=
  map (λ p, SiswaController.siswa_view s p.1) (tbl_list (st_siswa s)).

Lemma filter_all {A} (l : list A) : List.filter (λ _, true) l = l.
Proof. induction l as [|x l IH]; cbn; by rewrite ?IH. Qed.

Lemma getAllSiswa_all s : SiswaController.getAllSiswa_handler JUndef s = (data_reply (JsonArr (siswa_rows s)), s).
Proof. unfold SiswaController.getAllSiswa_handler, run_handler. cbn. by rewrite filter_all. Qed.

Lemma same_value_int j k : same_value (Some (json_int j)) (Some (json_int k)) = (j =? k).
Proof.
  cbn. destruct (Qeq_bool _ _) eqn:E, (Z.eqb_spec j k) as [->|Hne]; try done.
  - apply Qeq_bool_iff in E. unfold Qeq in E. cbn in E. lia.
  - by rewrite Qeq_bool_refl in E.
Qed.

Lemma siswa_view_id s j x : tbl_find j (st_siswa s) = Some x →
  field_of "siswa_id" (SiswaController.siswa_view s j) = Some (json_int j).
Proof. intros Hj. unfold SiswaController.siswa_view. by rewrite Hj. Qed.

(** A student's row reads only the students, parents and classes. *)
Lemma siswa_view_delete s s' k j :
  st_siswa s' = tbl_delete k (st_siswa s) → st_ortu s' = st_ortu s → st_kelas s' = st_kelas s → j ≠ k →
  SiswaController.siswa_view s' j = SiswaController.siswa_view s j.
Proof.
  intros Hs Ho Hk Hj. unfold SiswaController.siswa_view, tbl_find. rewrite Hs, Ho, Hk. cbn.
  by rewrite lookup_delete_ne by done.
Qed.

(** Removing the row whose [siswa_id] is [k] from the listed rows is
    listing the table without key [k]. *)
Lemma filter_rows s s' k :
  st_siswa s' = tbl_delete k (st_siswa s) → st_ortu s' = st_ortu s → st_kelas s' = st_kelas s →
  List.filter (λ x, negb (same_value (field_of "siswa_id" x) (Some (json_int k)))) (siswa_rows s) = siswa_rows s'.
Proof.
  intros Hs Ho Hk. unfold siswa_rows. rewrite Hs, tbl_list_delete.
  assert (Hin : ∀ p, p ∈ tbl_list (st_siswa s) → tbl_find p.1 (st_siswa s) = Some p.2)
    by (intros [j x] Hp; by apply tbl_list_find).
  induction (tbl_list (st_siswa s)) as [|[j x] l IH]; [done|]. cbn [map List.filter fst].
  rewrite (siswa_view_id s j x) by (apply (Hin (j, x)); left). rewrite same_value_int.
  destruct (Z.eqb_spec j k); cbn; rewrite IH by (intros q Hq; apply Hin; by right); [done|].
  by rewrite (siswa_view_delete s s' k j).
Qed.

(** C18: the students page stays in step with the database when it deletes.
    After [handleDelete] of the key [k] of a row, whether the backend
    deletes it (the row is removed from the list in place, without a
    reload), refuses it (404, or 500 when a bill still refers to the
    student) or is not asked (the confirmation is declined), the list the
    page holds is the list [GET /api/siswa] would now answer. *)
Theorem delete_in_sync auth now p s k ok :
  siswaList p = JsonArr (siswa_rows s) → 0 < k <= int_max →
  let ps := handleDelete auth now (json_int k) ok p s in
  siswaList ps.1 = JsonArr (siswa_rows ps.2).
Proof.
  intros Hl Hk. cbv zeta. destruct ok; [|done]. unfold handleDelete. cbn [negb].
  unfold call, serve_server. cbn [json_to_string json_int].
  rewrite num_to_string_int by (unfold int_max in Hk; lia). rewrite serve_siswa_delete.
  unfold SiswaController.deleteSiswa_handler, run_handler, SiswaController.deleteSiswa, delete_by_id, find_pk, bind, read.
  rewrite pk_of_z_to_dec by lia. cbn [fst snd].
  cbn [tsel siswa_table]. destruct (tbl_find k (st_siswa s)) as [x|] eqn:Ef; [|done].
  unfold destroy. cbn [tdelete siswa_table]. unfold del_siswa.
  destruct (referenced _ _ _); [done|]. cbn. rewrite Hl. f_equal. by apply filter_rows.
Qed.

Lemma z_to_dec_nonempty k : 0 <= k → String.eqb (z_to_dec k) "" = false.
Proof.
  intros Hk. unfold z_to_dec. destruct (Z.ltb_spec k 0); [lia|]. unfold nat_digits, dec_fuel.
  destruct (pos_digits_head (Z.to_nat (Z.log2 k)) k) as (d & rest & _ & ->). done.
Qed.

Lemma data_or_empty_arr l : data_or_empty (data_reply (JsonArr l)) = Some (JsonArr l).
Proof. reflexivity. Qed.

(** C21: what a parent's students page lists.  A parent account whose
    [ortu_id] is [k] sees exactly the students of parent [k]; a parent
    account without an [ortu_id] ([null] or absent, which [createUser]
    allows) sends no [ortu_id] parameter at all, since axios drops [null]
    parameters, and is shown every student of the school. *)
Theorem parent_student_list auth now u p s :
  field_of "role" u = Some (JsonStr "orang_tua") →
  (∀ k, 0 < k <= int_max → field_of "ortu_id" u = Some (json_int k) →
     siswaList (fetchData auth now (Some u) p s).1 =
     JsonArr (map (λ q, SiswaController.siswa_view s q.1)
                  (List.filter (λ q, bool_decide (Some k = Some (s_ortu_id q.2))) (tbl_list (st_siswa s))))) ∧
  (field_of "ortu_id" u = None ∨ field_of "ortu_id" u = Some JsonNull →
     siswaList (fetchData auth now (Some u) p s).1 = JsonArr (siswa_rows s)).
Proof.
  intros Hr. unfold fetchData. cbn [mbind option_bind]. rewrite Hr.
  change (role_is (Some (JsonStr "orang_tua")) "orang_tua") with true. cbv iota.
  unfold call, serve_server. split.
  - intros k Hk Ho. rewrite Ho. cbn [axios_params omap list_omap snd fst json_to_string json_int].
    rewrite num_to_string_int by (unfold int_max in Hk; lia).
    unfold get. rewrite serve_siswa_get.
    change (field [("ortu_id", JStr (z_to_dec k))] "ortu_id") with (JStr (z_to_dec k)).
    unfold SiswaController.getAllSiswa_handler, run_handler. cbn [SiswaController.getAllSiswa list_all bind view read ret fst snd].
    cbn [truthy]. rewrite z_to_dec_nonempty, pk_of_z_to_dec by lia. cbn. done.
  - intros [Ho|Ho]; rewrite Ho; cbn [axios_params omap list_omap snd];
      unfold get; rewrite serve_siswa_get; change (field [] "ortu_id") with JUndef; rewrite getAllSiswa_all; done.
Qed.

Lemma serve_siswa_put a n seg b s :
  serve (mk_request PUT ["api"; "siswa"; seg] a [] b None n 0) s = SiswaController.updateSiswa_handler (JStr seg) b s.
Proof. reflexivity. Qed.

Lemma field_app_l (b rest : req_body) f : is_Some (assoc f b) → field (b ++ rest) f = field b f.
Proof.
  intros [v Hv]. unfold field. rewrite Hv.
  assert (assoc f (b ++ rest) = Some v) as ->; [|done].
  induction b as [|[g w] b IH]; [done|]. cbn in *. by destruct (String.eqb g f); [|apply IH].
Qed.

Lemma tbl_put_same {A} (t : table A) k x : tbl_find k t = Some x → tbl_put k x t = t.
Proof. intros Hk. destruct t as [m n]. unfold tbl_put. cbn. f_equal. by apply insert_id. Qed.

Lemma set_siswa_same s : set_siswa (λ t, t) s = s.
Proof. by destruct s. Qed.

(** [updateSiswa] with the row's own values changes nothing. *)
Lemma updateSiswa_same s k x :
  tbl_find k (st_siswa s) = Some x → 0 <= k → (String.length (s_nama x) <= 100)%nat → siswa_refs s x = true →
  SiswaController.updateSiswa_handler (JStr (z_to_dec k))
    (body_of (siswa_fields k x ++ [("orangTua", include_row orang_tua_fields (st_ortu s) (s_ortu_id x));
                                   ("kelas", include_row kelas_fields (st_kelas s) (s_kelas_id x))])) s =
  (ok_reply 200 "Siswa berhasil diperbarui" (SiswaController.siswa_view s k), s).
Proof.
  intros Hf Hk Hn Hr. destruct x as [n t j a kid oid]. cbn [s_nama s_tgl_lahir s_jk s_alamat s_kelas_id s_ortu_id] in *.
  assert (set_siswa (tbl_put k (mk_siswa n t j a kid oid)) s = s) as Hss.
  { unfold set_siswa. rewrite tbl_put_same by done. by destruct s. }
  unfold SiswaController.updateSiswa_handler, run_handler, SiswaController.updateSiswa.
  unfold body_of. rewrite omap_app. set (rest := omap _ [_; _]). cbn [siswa_fields omap list_omap fst snd jsval_of_json json_int fmap option_fmap option_map].
  cbn [app s_nama s_tgl_lahir s_jk s_alamat s_kelas_id s_ortu_id field assoc String.eqb Ascii.eqb Bool.eqb].
  unfold find_pk, bind, read. rewrite pk_of_z_to_dec by done. cbn [fst snd]. cbn [tsel siswa_table]. rewrite Hf.
  rewrite !field_app_l by (eexists; reflexivity). cbn [field assoc String.eqb Ascii.eqb Bool.eqb].
  cbn [is_undefined negb strict_eq truthy s_jk s_tgl_lahir s_kelas_id s_ortu_id s_nama s_alamat JInt num_strict_eq].
  rewrite !String.eqb_refl, !Qeq_bool_refl. cbn [negb andb guard ret bind].
  rewrite !andb_false_r. cbn [guard ret col].
  assert (varchar_col 100 (JStr n) = Some n) as Hvn by (unfold varchar_col; cbn; by rewrite (proj2 (Nat.leb_le _ _) Hn)).
  destruct (negb (n =? "")%string), (negb (a =? "")%string); rewrite ?Hvn; cbn [text_col col ret].
  all: rewrite ?andb_false_l; cbn [guard ret]; unfold save; cbn [tsel tset trefs siswa_table]; unfold has_row.
  all: rewrite Hf, bool_decide_true by (by eexists); rewrite Hr, Hss; reflexivity.
Qed.

(** Spreading a key with the value it already has gives back the object. *)
Lemma obj_set_same k v o : assoc k o = Some v → obj_set k v o = o.
Proof.
  induction o as [|[g w] o IH]; [done|]. cbn. rewrite (String.eqb_sym k g).
  destruct (String.eqb g k) eqn:E; [|intros; f_equal; auto].
  apply String.eqb_eq in E as ->. by intros [= ->].
Qed.

(** C19: opening a stored student in the edit form and saving it unchanged
    sends a [PUT] that answers 200 with the student's view and leaves
    the store as it was: the form holds exactly the row [getSiswaById]
    returns, its [tgl_lahir] already a plain date. *)
Theorem edit_save_unchanged now auth p0 s k x :
  tbl_find k (st_siswa s) = Some x → 0 < k <= int_max → (String.length (s_nama x) <= 100)%nat →
  before_T (s_tgl_lahir x) = s_tgl_lahir x → siswa_refs s x = true →
  match handleEdit (SiswaController.siswa_view s k) p0 with
  | Some p => formData p = (match SiswaController.siswa_view s k with JsonObj fs => fs | _ => [] end) ∧
              call (submit_request auth now p) s =
                (Some (ok_reply 200 "Siswa berhasil diperbarui" (SiswaController.siswa_view s k)), s)
  | None => False
  end.
Proof.
  intros Hf Hk Hn Ht Hr. unfold SiswaController.siswa_view at 1 2. rewrite Hf. cbn [opt_json].
  unfold handleEdit, field_of. set (fs := siswa_fields k x ++ _).
  assert (assoc "tgl_lahir" fs = Some (JsonStr (s_tgl_lahir x))) as Ha by reflexivity.
  rewrite Ha, Ht, obj_set_same by done. split; [done|].
  assert (assoc "siswa_id" fs = Some (json_int k)) as Hi by reflexivity.
  unfold submit_request, call, serve_server. cbn [formData editMode set_form]. rewrite Hi. cbn [opt_to_string json_to_string json_int].
  rewrite num_to_string_int by (unfold int_max in Hk; lia). rewrite serve_siswa_put.
  subst fs. rewrite updateSiswa_same by (done || lia). reflexivity.
Qed.

End backend.

(** ** The page against the school of [Billing.demo_school] *)
Section demo.
Import KelolaSiswa.

Definition admin_user : json := JsonObj [("role", JsonStr "admin")].
Definition parent_user (id : option json) : json :=
  JsonObj (("role", JsonStr "orang_tua") :: match id with Some j => [("ortu_id", j)] | None => [] end).
Definition ani : siswa := mk_siswa "Ani" "2015-05-05" P "Jl. Mawar 1" 1 1.
Definition edit_ani : page := default init (handleEdit (SiswaController.siswa_view demo_school 1) init).
Definition listed : page := set_lists (JsonArr (siswa_rows demo_school)) (JsonArr []) (JsonArr []) init.

Lemma submit_leaves_spinner_witness :
  let x := handleSubmit None 0 edit_ani demo_school in
  rtc (kstep None 0) (handleSubmit None 0 edit_ani demo_school) (handleSort "nama" x.1, x.2) ∧
  render (Some admin_user) (handleSort "nama" x.1) = Spinner (error (handleSort "nama" x.1)).
Proof.
  cbv zeta. assert (Hrun : rtc (kstep None 0) (handleSubmit None 0 edit_ani demo_school)
    (handleSort "nama" (handleSubmit None 0 edit_ani demo_school).1, (handleSubmit None 0 edit_ani demo_school).2)).
  { apply rtc_once. rewrite (surjective_pairing (handleSubmit _ _ _ _)) at 1. apply ks_sort. }
  split; [exact Hrun|].
  assert (Hr : resolved (fst (call (submit_request None 0 edit_ani) demo_school)) =
                 Some (fst (serve (submit_request None 0 edit_ani) demo_school))) by (vm_compute; reflexivity).
  exact (submit_leaves_spinner None 0 (Some admin_user) edit_ani demo_school _ _ Hr eq_refl Hrun).
Defined.

Lemma delete_in_sync_witness :
  siswaList (handleDelete None 0 (json_int 1) true listed demo_school).1 =
  JsonArr (siswa_rows (handleDelete None 0 (json_int 1) true listed demo_school).2).
Proof. apply (delete_in_sync None 0 listed demo_school 1 true); [reflexivity|unfold int_max; lia]. Defined.

Lemma parent_student_list_witness :
  siswaList (fetchData None 0 (Some (parent_user (Some (json_int 1)))) init demo_school).1 =
    JsonArr (map (λ q, SiswaController.siswa_view demo_school q.1)
                 (List.filter (λ q, bool_decide (Some 1 = Some (s_ortu_id q.2))) (tbl_list (st_siswa demo_school)))) ∧
  siswaList (fetchData None 0 (Some (parent_user None)) init demo_school).1 = JsonArr (siswa_rows demo_school).
Proof.
  split.
  - apply (proj1 (parent_student_list None 0 (parent_user (Some (json_int 1))) init demo_school eq_refl) 1);
      [unfold int_max; lia|reflexivity].
  - apply (proj2 (parent_student_list None 0 (parent_user None) init demo_school eq_refl)). by left.
Defined.

Lemma edit_save_unchanged_witness :
  match handleEdit (SiswaController.siswa_view demo_school 1) init with
  | Some p => formData p = (match SiswaController.siswa_view demo_school 1 with JsonObj fs => fs | _ => [] end) ∧
              call (submit_request None 0 p) demo_school =
                (Some (ok_reply 200 "Siswa berhasil diperbarui" (SiswaController.siswa_view demo_school 1)), demo_school)
  | None => False
  end.
Proof.
  apply (edit_save_unchanged 0 None init demo_school 1 ani);
    [vm_compute; reflexivity|unfold int_max; lia|vm_compute; lia|reflexivity|vm_compute; reflexivity].
Defined.

End demo.
